(** * JSON to CSV converter: a shallow embedding of [json_to_csv_converter.py]

    The development follows the Python module top-down: the decoded JSON
    values and the builtins the converter applies to them (with the Unicode
    tables behind [lower], [strip], [repr] and the digits of [re]), the
    header and mapping tables, [map_field_name], [extract_price],
    [standardize_record], [generate_record_key], [extract_product_data],
    [process_json_file] and [combine_json_to_csv]; then [run_conversion] of
    [app.py], its enrichment of a search result and its loop over the
    uploaded files, and [main] of [convert_cli.py].  Theorems come after
    the definitions. *)

From Stdlib Require Import ZArith String Ascii List Bool Lia DecimalString.
From stdpp Require Import base gmap strings list.

Open Scope string_scope.
Open Scope list_scope.

(** ** Decoded JSON values

    [json.loads] yields [None], booleans, integers, floats, strings, lists
    and dicts.  A Python dict keeps insertion order and the converter
    iterates over [record.items()], so a dict is an association list in
    insertion order (the decoder never yields a key twice).  The converter
    never computes with a float: it only prints it and tests its truth value,
    so a float is carried by the text [repr] prints for it. *)

#[local] Set Warnings "-register-all".

Inductive json : Type :=
| JNull
| JBool (b : bool)
| JInt (n : Z)
| JFloat (repr : string)
| JStr (s : string)
| JList (xs : list json)
| JDict (kvs : list (string * json)).

Definition dict : Type := list (string * json).

(** ** Python builtins used by the converter *)

Module Py.

(** [k in d] and [d[k]] / [d.get(k)] on an insertion-ordered dict. *)
Fixpoint get {V : Type} (k : string) (d : list (string * V)) : option V :=
  match d with
  | [] => None
  | (k', v) :: d' => if String.eqb k k' then Some v else get k d'
  end.

Definition has {V : Type} (k : string) (d : list (string * V)) : bool :=
  match get k d with Some _ => true | None => false end.

(** [d[k] = v]: an existing key keeps its position, a new key goes last. *)
Fixpoint set {V : Type} (k : string) (v : V) (d : list (string * V))
  : list (string * V) :=
  match d with
  | [] => [(k, v)]
  | (k', v') :: d' =>
      if String.eqb k k' then (k', v) :: d' else (k', v') :: set k v d'
  end.

(** [x in xs] for a list of strings. *)
Definition mem (x : string) (xs : list string) : bool :=
  existsb (String.eqb x) xs.

(** *** Text

    A [str] is a sequence of code points.  It is held as the bytes of its
    UTF-8 form (a [str] with a lone surrogate has none and is not held).
    [s == t], [s + t], [x in s] and [s.replace(',', '')] are
    the same on the bytes; the builtins that work character by character
    ([lower], [strip], a slice, [repr], the digit class of [re]) cut the
    bytes into characters first.  The classes of characters are those of
    the Unicode data of CPython 3.11. *)

Definition byte (c : ascii) : N := N_of_ascii c.

Definition is_ascii (c : ascii) : bool := (byte c <? 128)%N.

(** A byte from 0x80 to 0xBF continues a character. *)
Definition is_continuation (c : ascii) : bool :=
  (128 <=? byte c)%N && (byte c <? 192)%N.

Definition continues (g : string) : bool :=
  match g with
  | String c _ => is_continuation c
  | EmptyString => false
  end.

(** The characters of a text, each as its bytes: an ASCII byte is a
    character, any other byte goes with the continuation bytes after it. *)
Fixpoint chars (s : string) : list string :=
  match s with
  | EmptyString => []
  | String c s' =>
      match chars s' with
      | g :: gs =>
          if negb (is_ascii c) && continues g then String c g :: gs
          else String c "" :: g :: gs
      | [] => [String c ""]
      end
  end.

(** The text made of a list of characters. *)
Definition text (gs : list string) : string := fold_right append "" gs.

(** The code point of a character, read off its bytes, and the bytes of a
    code point (a surrogate has none); bytes that are not the bytes of a
    code point have no code point. *)
Fixpoint payload (acc : N) (g : string) : N :=
  match g with
  | EmptyString => acc
  | String c g' => payload (acc * 64 + (byte c - 128))%N g'
  end.

Definition decode (g : string) : N :=
  match g with
  | EmptyString => 0%N
  | String c g' =>
      let b := byte c in
      if (b <? 128)%N then b
      else if (b <? 224)%N then payload (b - 192)%N g'
      else if (b <? 240)%N then payload (b - 224)%N g'
      else payload (b - 240)%N g'
  end.

Definition utf8 (n : N) : string :=
  let b (k : N) : ascii := ascii_of_N k in
  if (n <? 128)%N then String (b n) ""
  else if (n <? 2048)%N then
    String (b (192 + n / 64)%N) (String (b (128 + n mod 64)%N) "")
  else if (n <? 65536)%N then
    if (55296 <=? n)%N && (n <? 57344)%N then ""
    else
    String (b (224 + n / 4096)%N)
      (String (b (128 + (n / 64) mod 64)%N) (String (b (128 + n mod 64)%N) ""))
  else if (n <? 1114112)%N then
    String (b (240 + n / 262144)%N)
      (String (b (128 + (n / 4096) mod 64)%N)
         (String (b (128 + (n / 64) mod 64)%N)
            (String (b (128 + n mod 64)%N) "")))
  else "".

Definition point (g : string) : option N :=
  let n := decode g in if String.eqb (utf8 n) g then Some n else None.

Definition is_point (n : N) (g : string) : bool :=
  match point g with
  | Some m => (m =? n)%N
  | None => false
  end.

Definition in_ranges (n : N) (ranges : list (N * N)) : bool :=
  existsb (fun r : N * N => (fst r <=? n)%N && (n <=? snd r)%N) ranges.

(** The character is in a class of code points. *)
Definition in_class (ranges : list (N * N)) (g : string) : bool :=
  match point g with
  | Some n => in_ranges n ranges
  | None => false
  end.

(** The decimal digits ([str.isdecimal], the class [\d] of [re]): ranges of
    code points, first and last. *)
Definition DECIMAL_DIGITS : list (N * N) :=
  [ (48, 57); (1632, 1641); (1776, 1785); (1984, 1993); (2406, 2415); (2534, 2543);
    (2662, 2671); (2790, 2799); (2918, 2927); (3046, 3055); (3174, 3183); (3302, 3311);
    (3430, 3439); (3558, 3567); (3664, 3673); (3792, 3801); (3872, 3881); (4160, 4169);
    (4240, 4249); (6112, 6121); (6160, 6169); (6470, 6479); (6608, 6617); (6784, 6793);
    (6800, 6809); (6992, 7001); (7088, 7097); (7232, 7241); (7248, 7257); (42528, 42537);
    (43216, 43225); (43264, 43273); (43472, 43481); (43504, 43513); (43600, 43609); (44016, 44025);
    (65296, 65305); (66720, 66729); (68912, 68921); (69734, 69743); (69872, 69881); (69942, 69951);
    (70096, 70105); (70384, 70393); (70736, 70745); (70864, 70873); (71248, 71257); (71360, 71369);
    (71472, 71481); (71904, 71913); (72016, 72025); (72784, 72793); (73040, 73049); (73120, 73129);
    (92768, 92777); (92864, 92873); (93008, 93017); (120782, 120831); (123200, 123209); (123632, 123641);
    (125264, 125273); (130032, 130041) ]%N.

(** White space ([str.isspace]), which [str.strip] removes. *)
Definition WHITE_SPACE : list (N * N) :=
  [ (9, 13); (28, 32); (133, 133); (160, 160); (5760, 5760); (8192, 8202);
    (8232, 8233); (8239, 8239); (8287, 8287); (12288, 12288) ]%N.

(** The code points from 128 that [repr] escapes (not [str.isprintable]). *)
Definition NOT_PRINTABLE : list (N * N) :=
  [ (128, 160); (173, 173); (888, 889); (896, 899); (907, 907); (909, 909);
    (930, 930); (1328, 1328); (1367, 1368); (1419, 1420); (1424, 1424); (1480, 1487);
    (1515, 1518); (1525, 1541); (1564, 1564); (1757, 1757); (1806, 1807); (1867, 1868);
    (1970, 1983); (2043, 2044); (2094, 2095); (2111, 2111); (2140, 2141); (2143, 2143);
    (2155, 2159); (2191, 2199); (2274, 2274); (2436, 2436); (2445, 2446); (2449, 2450);
    (2473, 2473); (2481, 2481); (2483, 2485); (2490, 2491); (2501, 2502); (2505, 2506);
    (2511, 2518); (2520, 2523); (2526, 2526); (2532, 2533); (2559, 2560); (2564, 2564);
    (2571, 2574); (2577, 2578); (2601, 2601); (2609, 2609); (2612, 2612); (2615, 2615);
    (2618, 2619); (2621, 2621); (2627, 2630); (2633, 2634); (2638, 2640); (2642, 2648);
    (2653, 2653); (2655, 2661); (2679, 2688); (2692, 2692); (2702, 2702); (2706, 2706);
    (2729, 2729); (2737, 2737); (2740, 2740); (2746, 2747); (2758, 2758); (2762, 2762);
    (2766, 2767); (2769, 2783); (2788, 2789); (2802, 2808); (2816, 2816); (2820, 2820);
    (2829, 2830); (2833, 2834); (2857, 2857); (2865, 2865); (2868, 2868); (2874, 2875);
    (2885, 2886); (2889, 2890); (2894, 2900); (2904, 2907); (2910, 2910); (2916, 2917);
    (2936, 2945); (2948, 2948); (2955, 2957); (2961, 2961); (2966, 2968); (2971, 2971);
    (2973, 2973); (2976, 2978); (2981, 2983); (2987, 2989); (3002, 3005); (3011, 3013);
    (3017, 3017); (3022, 3023); (3025, 3030); (3032, 3045); (3067, 3071); (3085, 3085);
    (3089, 3089); (3113, 3113); (3130, 3131); (3141, 3141); (3145, 3145); (3150, 3156);
    (3159, 3159); (3163, 3164); (3166, 3167); (3172, 3173); (3184, 3190); (3213, 3213);
    (3217, 3217); (3241, 3241); (3252, 3252); (3258, 3259); (3269, 3269); (3273, 3273);
    (3278, 3284); (3287, 3292); (3295, 3295); (3300, 3301); (3312, 3312); (3315, 3327);
    (3341, 3341); (3345, 3345); (3397, 3397); (3401, 3401); (3408, 3411); (3428, 3429);
    (3456, 3456); (3460, 3460); (3479, 3481); (3506, 3506); (3516, 3516); (3518, 3519);
    (3527, 3529); (3531, 3534); (3541, 3541); (3543, 3543); (3552, 3557); (3568, 3569);
    (3573, 3584); (3643, 3646); (3676, 3712); (3715, 3715); (3717, 3717); (3723, 3723);
    (3748, 3748); (3750, 3750); (3774, 3775); (3781, 3781); (3783, 3783); (3790, 3791);
    (3802, 3803); (3808, 3839); (3912, 3912); (3949, 3952); (3992, 3992); (4029, 4029);
    (4045, 4045); (4059, 4095); (4294, 4294); (4296, 4300); (4302, 4303); (4681, 4681);
    (4686, 4687); (4695, 4695); (4697, 4697); (4702, 4703); (4745, 4745); (4750, 4751);
    (4785, 4785); (4790, 4791); (4799, 4799); (4801, 4801); (4806, 4807); (4823, 4823);
    (4881, 4881); (4886, 4887); (4955, 4956); (4989, 4991); (5018, 5023); (5110, 5111);
    (5118, 5119); (5760, 5760); (5789, 5791); (5881, 5887); (5910, 5918); (5943, 5951);
    (5972, 5983); (5997, 5997); (6001, 6001); (6004, 6015); (6110, 6111); (6122, 6127);
    (6138, 6143); (6158, 6158); (6170, 6175); (6265, 6271); (6315, 6319); (6390, 6399);
    (6431, 6431); (6444, 6447); (6460, 6463); (6465, 6467); (6510, 6511); (6517, 6527);
    (6572, 6575); (6602, 6607); (6619, 6621); (6684, 6685); (6751, 6751); (6781, 6782);
    (6794, 6799); (6810, 6815); (6830, 6831); (6863, 6911); (6989, 6991); (7039, 7039);
    (7156, 7163); (7224, 7226); (7242, 7244); (7305, 7311); (7355, 7356); (7368, 7375);
    (7419, 7423); (7958, 7959); (7966, 7967); (8006, 8007); (8014, 8015); (8024, 8024);
    (8026, 8026); (8028, 8028); (8030, 8030); (8062, 8063); (8117, 8117); (8133, 8133);
    (8148, 8149); (8156, 8156); (8176, 8177); (8181, 8181); (8191, 8207); (8232, 8239);
    (8287, 8303); (8306, 8307); (8335, 8335); (8349, 8351); (8385, 8399); (8433, 8447);
    (8588, 8591); (9255, 9279); (9291, 9311); (11124, 11125); (11158, 11158); (11508, 11512);
    (11558, 11558); (11560, 11564); (11566, 11567); (11624, 11630); (11633, 11646); (11671, 11679);
    (11687, 11687); (11695, 11695); (11703, 11703); (11711, 11711); (11719, 11719); (11727, 11727);
    (11735, 11735); (11743, 11743); (11870, 11903); (11930, 11930); (12020, 12031); (12246, 12271);
    (12284, 12288); (12352, 12352); (12439, 12440); (12544, 12548); (12592, 12592); (12687, 12687);
    (12772, 12783); (12831, 12831); (42125, 42127); (42183, 42191); (42540, 42559); (42744, 42751);
    (42955, 42959); (42962, 42962); (42964, 42964); (42970, 42993); (43053, 43055); (43066, 43071);
    (43128, 43135); (43206, 43213); (43226, 43231); (43348, 43358); (43389, 43391); (43470, 43470);
    (43482, 43485); (43519, 43519); (43575, 43583); (43598, 43599); (43610, 43611); (43715, 43738);
    (43767, 43776); (43783, 43784); (43791, 43792); (43799, 43807); (43815, 43815); (43823, 43823);
    (43884, 43887); (44014, 44015); (44026, 44031); (55204, 55215); (55239, 55242); (55292, 63743);
    (64110, 64111); (64218, 64255); (64263, 64274); (64280, 64284); (64311, 64311); (64317, 64317);
    (64319, 64319); (64322, 64322); (64325, 64325); (64451, 64466); (64912, 64913); (64968, 64974);
    (64976, 65007); (65050, 65055); (65107, 65107); (65127, 65127); (65132, 65135); (65141, 65141);
    (65277, 65280); (65471, 65473); (65480, 65481); (65488, 65489); (65496, 65497); (65501, 65503);
    (65511, 65511); (65519, 65531); (65534, 65535); (65548, 65548); (65575, 65575); (65595, 65595);
    (65598, 65598); (65614, 65615); (65630, 65663); (65787, 65791); (65795, 65798); (65844, 65846);
    (65935, 65935); (65949, 65951); (65953, 65999); (66046, 66175); (66205, 66207); (66257, 66271);
    (66300, 66303); (66340, 66348); (66379, 66383); (66427, 66431); (66462, 66462); (66500, 66503);
    (66518, 66559); (66718, 66719); (66730, 66735); (66772, 66775); (66812, 66815); (66856, 66863);
    (66916, 66926); (66939, 66939); (66955, 66955); (66963, 66963); (66966, 66966); (66978, 66978);
    (66994, 66994); (67002, 67002); (67005, 67071); (67383, 67391); (67414, 67423); (67432, 67455);
    (67462, 67462); (67505, 67505); (67515, 67583); (67590, 67591); (67593, 67593); (67638, 67638);
    (67641, 67643); (67645, 67646); (67670, 67670); (67743, 67750); (67760, 67807); (67827, 67827);
    (67830, 67834); (67868, 67870); (67898, 67902); (67904, 67967); (68024, 68027); (68048, 68049);
    (68100, 68100); (68103, 68107); (68116, 68116); (68120, 68120); (68150, 68151); (68155, 68158);
    (68169, 68175); (68185, 68191); (68256, 68287); (68327, 68330); (68343, 68351); (68406, 68408);
    (68438, 68439); (68467, 68471); (68498, 68504); (68509, 68520); (68528, 68607); (68681, 68735);
    (68787, 68799); (68851, 68857); (68904, 68911); (68922, 69215); (69247, 69247); (69290, 69290);
    (69294, 69295); (69298, 69375); (69416, 69423); (69466, 69487); (69514, 69551); (69580, 69599);
    (69623, 69631); (69710, 69713); (69750, 69758); (69821, 69821); (69827, 69839); (69865, 69871);
    (69882, 69887); (69941, 69941); (69960, 69967); (70007, 70015); (70112, 70112); (70133, 70143);
    (70162, 70162); (70207, 70271); (70279, 70279); (70281, 70281); (70286, 70286); (70302, 70302);
    (70314, 70319); (70379, 70383); (70394, 70399); (70404, 70404); (70413, 70414); (70417, 70418);
    (70441, 70441); (70449, 70449); (70452, 70452); (70458, 70458); (70469, 70470); (70473, 70474);
    (70478, 70479); (70481, 70486); (70488, 70492); (70500, 70501); (70509, 70511); (70517, 70655);
    (70748, 70748); (70754, 70783); (70856, 70863); (70874, 71039); (71094, 71095); (71134, 71167);
    (71237, 71247); (71258, 71263); (71277, 71295); (71354, 71359); (71370, 71423); (71451, 71452);
    (71468, 71471); (71495, 71679); (71740, 71839); (71923, 71934); (71943, 71944); (71946, 71947);
    (71956, 71956); (71959, 71959); (71990, 71990); (71993, 71994); (72007, 72015); (72026, 72095);
    (72104, 72105); (72152, 72153); (72165, 72191); (72264, 72271); (72355, 72367); (72441, 72703);
    (72713, 72713); (72759, 72759); (72774, 72783); (72813, 72815); (72848, 72849); (72872, 72872);
    (72887, 72959); (72967, 72967); (72970, 72970); (73015, 73017); (73019, 73019); (73022, 73022);
    (73032, 73039); (73050, 73055); (73062, 73062); (73065, 73065); (73103, 73103); (73106, 73106);
    (73113, 73119); (73130, 73439); (73465, 73647); (73649, 73663); (73714, 73726); (74650, 74751);
    (74863, 74863); (74869, 74879); (75076, 77711); (77811, 77823); (78895, 82943); (83527, 92159);
    (92729, 92735); (92767, 92767); (92778, 92781); (92863, 92863); (92874, 92879); (92910, 92911);
    (92918, 92927); (92998, 93007); (93018, 93018); (93026, 93026); (93048, 93052); (93072, 93759);
    (93851, 93951); (94027, 94030); (94088, 94094); (94112, 94175); (94181, 94191); (94194, 94207);
    (100344, 100351); (101590, 101631); (101641, 110575); (110580, 110580); (110588, 110588); (110591, 110591);
    (110883, 110927); (110931, 110947); (110952, 110959); (111356, 113663); (113771, 113775); (113789, 113791);
    (113801, 113807); (113818, 113819); (113824, 118527); (118574, 118575); (118599, 118607); (118724, 118783);
    (119030, 119039); (119079, 119080); (119155, 119162); (119275, 119295); (119366, 119519); (119540, 119551);
    (119639, 119647); (119673, 119807); (119893, 119893); (119965, 119965); (119968, 119969); (119971, 119972);
    (119975, 119976); (119981, 119981); (119994, 119994); (119996, 119996); (120004, 120004); (120070, 120070);
    (120075, 120076); (120085, 120085); (120093, 120093); (120122, 120122); (120127, 120127); (120133, 120133);
    (120135, 120137); (120145, 120145); (120486, 120487); (120780, 120781); (121484, 121498); (121504, 121504);
    (121520, 122623); (122655, 122879); (122887, 122887); (122905, 122906); (122914, 122914); (122917, 122917);
    (122923, 123135); (123181, 123183); (123198, 123199); (123210, 123213); (123216, 123535); (123567, 123583);
    (123642, 123646); (123648, 124895); (124903, 124903); (124908, 124908); (124911, 124911); (124927, 124927);
    (125125, 125126); (125143, 125183); (125260, 125263); (125274, 125277); (125280, 126064); (126133, 126208);
    (126270, 126463); (126468, 126468); (126496, 126496); (126499, 126499); (126501, 126502); (126504, 126504);
    (126515, 126515); (126520, 126520); (126522, 126522); (126524, 126529); (126531, 126534); (126536, 126536);
    (126538, 126538); (126540, 126540); (126544, 126544); (126547, 126547); (126549, 126550); (126552, 126552);
    (126554, 126554); (126556, 126556); (126558, 126558); (126560, 126560); (126563, 126563); (126565, 126566);
    (126571, 126571); (126579, 126579); (126584, 126584); (126589, 126589); (126591, 126591); (126602, 126602);
    (126620, 126624); (126628, 126628); (126634, 126634); (126652, 126703); (126706, 126975); (127020, 127023);
    (127124, 127135); (127151, 127152); (127168, 127168); (127184, 127184); (127222, 127231); (127406, 127461);
    (127491, 127503); (127548, 127551); (127561, 127567); (127570, 127583); (127590, 127743); (128728, 128732);
    (128749, 128751); (128765, 128767); (128884, 128895); (128985, 128991); (129004, 129007); (129009, 129023);
    (129036, 129039); (129096, 129103); (129114, 129119); (129160, 129167); (129198, 129199); (129202, 129279);
    (129620, 129631); (129646, 129647); (129653, 129655); (129661, 129663); (129671, 129679); (129709, 129711);
    (129723, 129727); (129734, 129743); (129754, 129759); (129768, 129775); (129783, 129791); (129939, 129939);
    (129995, 130031); (130042, 131071); (173792, 173823); (177977, 177983); (178206, 178207); (183970, 183983);
    (191457, 194559); (195102, 196607); (201547, 917759); (918000, 1114111) ]%N.

(** The code points that the rule for a final sigma skips. *)
Definition CASE_IGNORABLE : list (N * N) :=
  [ (39, 39); (46, 46); (58, 58); (94, 94); (96, 96); (168, 168);
    (173, 173); (175, 175); (180, 180); (183, 184); (688, 879); (884, 885);
    (890, 890); (900, 901); (903, 903); (1155, 1161); (1369, 1369); (1375, 1375);
    (1425, 1469); (1471, 1471); (1473, 1474); (1476, 1477); (1479, 1479); (1524, 1524);
    (1536, 1541); (1552, 1562); (1564, 1564); (1600, 1600); (1611, 1631); (1648, 1648);
    (1750, 1757); (1759, 1768); (1770, 1773); (1807, 1807); (1809, 1809); (1840, 1866);
    (1958, 1968); (2027, 2037); (2042, 2042); (2045, 2045); (2070, 2093); (2137, 2139);
    (2184, 2184); (2192, 2193); (2200, 2207); (2249, 2306); (2362, 2362); (2364, 2364);
    (2369, 2376); (2381, 2381); (2385, 2391); (2402, 2403); (2417, 2417); (2433, 2433);
    (2492, 2492); (2497, 2500); (2509, 2509); (2530, 2531); (2558, 2558); (2561, 2562);
    (2620, 2620); (2625, 2626); (2631, 2632); (2635, 2637); (2641, 2641); (2672, 2673);
    (2677, 2677); (2689, 2690); (2748, 2748); (2753, 2757); (2759, 2760); (2765, 2765);
    (2786, 2787); (2810, 2815); (2817, 2817); (2876, 2876); (2879, 2879); (2881, 2884);
    (2893, 2893); (2901, 2902); (2914, 2915); (2946, 2946); (3008, 3008); (3021, 3021);
    (3072, 3072); (3076, 3076); (3132, 3132); (3134, 3136); (3142, 3144); (3146, 3149);
    (3157, 3158); (3170, 3171); (3201, 3201); (3260, 3260); (3263, 3263); (3270, 3270);
    (3276, 3277); (3298, 3299); (3328, 3329); (3387, 3388); (3393, 3396); (3405, 3405);
    (3426, 3427); (3457, 3457); (3530, 3530); (3538, 3540); (3542, 3542); (3633, 3633);
    (3636, 3642); (3654, 3662); (3761, 3761); (3764, 3772); (3782, 3782); (3784, 3789);
    (3864, 3865); (3893, 3893); (3895, 3895); (3897, 3897); (3953, 3966); (3968, 3972);
    (3974, 3975); (3981, 3991); (3993, 4028); (4038, 4038); (4141, 4144); (4146, 4151);
    (4153, 4154); (4157, 4158); (4184, 4185); (4190, 4192); (4209, 4212); (4226, 4226);
    (4229, 4230); (4237, 4237); (4253, 4253); (4348, 4348); (4957, 4959); (5906, 5908);
    (5938, 5939); (5970, 5971); (6002, 6003); (6068, 6069); (6071, 6077); (6086, 6086);
    (6089, 6099); (6103, 6103); (6109, 6109); (6155, 6159); (6211, 6211); (6277, 6278);
    (6313, 6313); (6432, 6434); (6439, 6440); (6450, 6450); (6457, 6459); (6679, 6680);
    (6683, 6683); (6742, 6742); (6744, 6750); (6752, 6752); (6754, 6754); (6757, 6764);
    (6771, 6780); (6783, 6783); (6823, 6823); (6832, 6862); (6912, 6915); (6964, 6964);
    (6966, 6970); (6972, 6972); (6978, 6978); (7019, 7027); (7040, 7041); (7074, 7077);
    (7080, 7081); (7083, 7085); (7142, 7142); (7144, 7145); (7149, 7149); (7151, 7153);
    (7212, 7219); (7222, 7223); (7288, 7293); (7376, 7378); (7380, 7392); (7394, 7400);
    (7405, 7405); (7412, 7412); (7416, 7417); (7468, 7530); (7544, 7544); (7579, 7679);
    (8125, 8125); (8127, 8129); (8141, 8143); (8157, 8159); (8173, 8175); (8189, 8190);
    (8203, 8207); (8216, 8217); (8228, 8228); (8231, 8231); (8234, 8238); (8288, 8292);
    (8294, 8303); (8305, 8305); (8319, 8319); (8336, 8348); (8400, 8432); (11388, 11389);
    (11503, 11505); (11631, 11631); (11647, 11647); (11744, 11775); (11823, 11823); (12293, 12293);
    (12330, 12333); (12337, 12341); (12347, 12347); (12441, 12446); (12540, 12542); (40981, 40981);
    (42232, 42237); (42508, 42508); (42607, 42610); (42612, 42621); (42623, 42623); (42652, 42655);
    (42736, 42737); (42752, 42785); (42864, 42864); (42888, 42890); (42994, 42996); (43000, 43001);
    (43010, 43010); (43014, 43014); (43019, 43019); (43045, 43046); (43052, 43052); (43204, 43205);
    (43232, 43249); (43263, 43263); (43302, 43309); (43335, 43345); (43392, 43394); (43443, 43443);
    (43446, 43449); (43452, 43453); (43471, 43471); (43493, 43494); (43561, 43566); (43569, 43570);
    (43573, 43574); (43587, 43587); (43596, 43596); (43632, 43632); (43644, 43644); (43696, 43696);
    (43698, 43700); (43703, 43704); (43710, 43711); (43713, 43713); (43741, 43741); (43756, 43757);
    (43763, 43764); (43766, 43766); (43867, 43871); (43881, 43883); (44005, 44005); (44008, 44008);
    (44013, 44013); (64286, 64286); (64434, 64450); (65024, 65039); (65043, 65043); (65056, 65071);
    (65106, 65106); (65109, 65109); (65279, 65279); (65287, 65287); (65294, 65294); (65306, 65306);
    (65342, 65342); (65344, 65344); (65392, 65392); (65438, 65439); (65507, 65507); (65529, 65531);
    (66045, 66045); (66272, 66272); (66422, 66426); (67456, 67461); (67463, 67504); (67506, 67514);
    (68097, 68099); (68101, 68102); (68108, 68111); (68152, 68154); (68159, 68159); (68325, 68326);
    (68900, 68903); (69291, 69292); (69446, 69456); (69506, 69509); (69633, 69633); (69688, 69702);
    (69744, 69744); (69747, 69748); (69759, 69761); (69811, 69814); (69817, 69818); (69821, 69821);
    (69826, 69826); (69837, 69837); (69888, 69890); (69927, 69931); (69933, 69940); (70003, 70003);
    (70016, 70017); (70070, 70078); (70089, 70092); (70095, 70095); (70191, 70193); (70196, 70196);
    (70198, 70199); (70206, 70206); (70367, 70367); (70371, 70378); (70400, 70401); (70459, 70460);
    (70464, 70464); (70502, 70508); (70512, 70516); (70712, 70719); (70722, 70724); (70726, 70726);
    (70750, 70750); (70835, 70840); (70842, 70842); (70847, 70848); (70850, 70851); (71090, 71093);
    (71100, 71101); (71103, 71104); (71132, 71133); (71219, 71226); (71229, 71229); (71231, 71232);
    (71339, 71339); (71341, 71341); (71344, 71349); (71351, 71351); (71453, 71455); (71458, 71461);
    (71463, 71467); (71727, 71735); (71737, 71738); (71995, 71996); (71998, 71998); (72003, 72003);
    (72148, 72151); (72154, 72155); (72160, 72160); (72193, 72202); (72243, 72248); (72251, 72254);
    (72263, 72263); (72273, 72278); (72281, 72283); (72330, 72342); (72344, 72345); (72752, 72758);
    (72760, 72765); (72767, 72767); (72850, 72871); (72874, 72880); (72882, 72883); (72885, 72886);
    (73009, 73014); (73018, 73018); (73020, 73021); (73023, 73029); (73031, 73031); (73104, 73105);
    (73109, 73109); (73111, 73111); (73459, 73460); (78896, 78904); (92912, 92916); (92976, 92982);
    (92992, 92995); (94031, 94031); (94095, 94111); (94176, 94177); (94179, 94180); (110576, 110579);
    (110581, 110587); (110589, 110590); (113821, 113822); (113824, 113827); (118528, 118573); (118576, 118598);
    (119143, 119145); (119155, 119170); (119173, 119179); (119210, 119213); (119362, 119364); (121344, 121398);
    (121403, 121452); (121461, 121461); (121476, 121476); (121499, 121503); (121505, 121519); (122880, 122886);
    (122888, 122904); (122907, 122913); (122915, 122916); (122918, 122922); (123184, 123197); (123566, 123566);
    (123628, 123631); (125136, 125142); (125252, 125259); (127995, 127999); (917505, 917505); (917536, 917631);
    (917760, 917999) ]%N.

(** The cased code points among those the rule does not skip. *)
Definition CASED : list (N * N) :=
  [ (65, 90); (97, 122); (170, 170); (181, 181); (186, 186); (192, 214);
    (216, 246); (248, 442); (444, 447); (452, 659); (661, 687); (880, 883);
    (886, 887); (891, 893); (895, 895); (902, 902); (904, 906); (908, 908);
    (910, 929); (931, 1013); (1015, 1153); (1162, 1327); (1329, 1366); (1376, 1416);
    (4256, 4293); (4295, 4295); (4301, 4301); (4304, 4346); (4349, 4351); (5024, 5109);
    (5112, 5117); (7296, 7304); (7312, 7354); (7357, 7359); (7424, 7467); (7531, 7543);
    (7545, 7578); (7680, 7957); (7960, 7965); (7968, 8005); (8008, 8013); (8016, 8023);
    (8025, 8025); (8027, 8027); (8029, 8029); (8031, 8061); (8064, 8116); (8118, 8124);
    (8126, 8126); (8130, 8132); (8134, 8140); (8144, 8147); (8150, 8155); (8160, 8172);
    (8178, 8180); (8182, 8188); (8450, 8450); (8455, 8455); (8458, 8467); (8469, 8469);
    (8473, 8477); (8484, 8484); (8486, 8486); (8488, 8488); (8490, 8493); (8495, 8500);
    (8505, 8505); (8508, 8511); (8517, 8521); (8526, 8526); (8544, 8575); (8579, 8580);
    (9398, 9449); (11264, 11387); (11390, 11492); (11499, 11502); (11506, 11507); (11520, 11557);
    (11559, 11559); (11565, 11565); (42560, 42605); (42624, 42651); (42786, 42863); (42865, 42887);
    (42891, 42894); (42896, 42954); (42960, 42961); (42963, 42963); (42965, 42969); (42997, 42998);
    (43002, 43002); (43824, 43866); (43872, 43880); (43888, 43967); (64256, 64262); (64275, 64279);
    (65313, 65338); (65345, 65370); (66560, 66639); (66736, 66771); (66776, 66811); (66928, 66938);
    (66940, 66954); (66956, 66962); (66964, 66965); (66967, 66977); (66979, 66993); (66995, 67001);
    (67003, 67004); (68736, 68786); (68800, 68850); (71840, 71903); (93760, 93823); (119808, 119892);
    (119894, 119964); (119966, 119967); (119970, 119970); (119973, 119974); (119977, 119980); (119982, 119993);
    (119995, 119995); (119997, 120003); (120005, 120069); (120071, 120074); (120077, 120084); (120086, 120092);
    (120094, 120121); (120123, 120126); (120128, 120132); (120134, 120134); (120138, 120144); (120146, 120485);
    (120488, 120512); (120514, 120538); (120540, 120570); (120572, 120596); (120598, 120628); (120630, 120654);
    (120656, 120686); (120688, 120712); (120714, 120744); (120746, 120770); (120772, 120779); (122624, 122633);
    (122635, 122654); (125184, 125251); (127280, 127305); (127312, 127337); (127344, 127369) ]%N.

(** The lower-case mapping: every [step]-th code point from [first] to [last]
    is mapped to the code point at the same distance from [image]; each
    entry is (first, last, step, image).  U+0130 and U+03A3 are apart. *)
Definition LOWER : list (N * N * N * N) :=
  [ (65, 90, 1, 97); (192, 214, 1, 224); (216, 222, 1, 248); (256, 302, 2, 257);
    (306, 310, 2, 307); (313, 327, 2, 314); (330, 374, 2, 331); (376, 376, 1, 255);
    (377, 381, 2, 378); (385, 385, 1, 595); (386, 388, 2, 387); (390, 390, 1, 596);
    (391, 391, 1, 392); (393, 394, 1, 598); (395, 395, 1, 396); (398, 398, 1, 477);
    (399, 399, 1, 601); (400, 400, 1, 603); (401, 401, 1, 402); (403, 403, 1, 608);
    (404, 404, 1, 611); (406, 406, 1, 617); (407, 407, 1, 616); (408, 408, 1, 409);
    (412, 412, 1, 623); (413, 413, 1, 626); (415, 415, 1, 629); (416, 420, 2, 417);
    (422, 422, 1, 640); (423, 423, 1, 424); (425, 425, 1, 643); (428, 428, 1, 429);
    (430, 430, 1, 648); (431, 431, 1, 432); (433, 434, 1, 650); (435, 437, 2, 436);
    (439, 439, 1, 658); (440, 440, 1, 441); (444, 444, 1, 445); (452, 452, 1, 454);
    (453, 453, 1, 454); (455, 455, 1, 457); (456, 456, 1, 457); (458, 458, 1, 460);
    (459, 475, 2, 460); (478, 494, 2, 479); (497, 497, 1, 499); (498, 500, 2, 499);
    (502, 502, 1, 405); (503, 503, 1, 447); (504, 542, 2, 505); (544, 544, 1, 414);
    (546, 562, 2, 547); (570, 570, 1, 11365); (571, 571, 1, 572); (573, 573, 1, 410);
    (574, 574, 1, 11366); (577, 577, 1, 578); (579, 579, 1, 384); (580, 580, 1, 649);
    (581, 581, 1, 652); (582, 590, 2, 583); (880, 882, 2, 881); (886, 886, 1, 887);
    (895, 895, 1, 1011); (902, 902, 1, 940); (904, 906, 1, 941); (908, 908, 1, 972);
    (910, 911, 1, 973); (913, 929, 1, 945); (932, 939, 1, 964); (975, 975, 1, 983);
    (984, 1006, 2, 985); (1012, 1012, 1, 952); (1015, 1015, 1, 1016); (1017, 1017, 1, 1010);
    (1018, 1018, 1, 1019); (1021, 1023, 1, 891); (1024, 1039, 1, 1104); (1040, 1071, 1, 1072);
    (1120, 1152, 2, 1121); (1162, 1214, 2, 1163); (1216, 1216, 1, 1231); (1217, 1229, 2, 1218);
    (1232, 1326, 2, 1233); (1329, 1366, 1, 1377); (4256, 4293, 1, 11520); (4295, 4295, 1, 11559);
    (4301, 4301, 1, 11565); (5024, 5103, 1, 43888); (5104, 5109, 1, 5112); (7312, 7354, 1, 4304);
    (7357, 7359, 1, 4349); (7680, 7828, 2, 7681); (7838, 7838, 1, 223); (7840, 7934, 2, 7841);
    (7944, 7951, 1, 7936); (7960, 7965, 1, 7952); (7976, 7983, 1, 7968); (7992, 7999, 1, 7984);
    (8008, 8013, 1, 8000); (8025, 8031, 2, 8017); (8040, 8047, 1, 8032); (8072, 8079, 1, 8064);
    (8088, 8095, 1, 8080); (8104, 8111, 1, 8096); (8120, 8121, 1, 8112); (8122, 8123, 1, 8048);
    (8124, 8124, 1, 8115); (8136, 8139, 1, 8050); (8140, 8140, 1, 8131); (8152, 8153, 1, 8144);
    (8154, 8155, 1, 8054); (8168, 8169, 1, 8160); (8170, 8171, 1, 8058); (8172, 8172, 1, 8165);
    (8184, 8185, 1, 8056); (8186, 8187, 1, 8060); (8188, 8188, 1, 8179); (8486, 8486, 1, 969);
    (8490, 8490, 1, 107); (8491, 8491, 1, 229); (8498, 8498, 1, 8526); (8544, 8559, 1, 8560);
    (8579, 8579, 1, 8580); (9398, 9423, 1, 9424); (11264, 11311, 1, 11312); (11360, 11360, 1, 11361);
    (11362, 11362, 1, 619); (11363, 11363, 1, 7549); (11364, 11364, 1, 637); (11367, 11371, 2, 11368);
    (11373, 11373, 1, 593); (11374, 11374, 1, 625); (11375, 11375, 1, 592); (11376, 11376, 1, 594);
    (11378, 11378, 1, 11379); (11381, 11381, 1, 11382); (11390, 11391, 1, 575); (11392, 11490, 2, 11393);
    (11499, 11501, 2, 11500); (11506, 11506, 1, 11507); (42560, 42604, 2, 42561); (42624, 42650, 2, 42625);
    (42786, 42798, 2, 42787); (42802, 42862, 2, 42803); (42873, 42875, 2, 42874); (42877, 42877, 1, 7545);
    (42878, 42886, 2, 42879); (42891, 42891, 1, 42892); (42893, 42893, 1, 613); (42896, 42898, 2, 42897);
    (42902, 42920, 2, 42903); (42922, 42922, 1, 614); (42923, 42923, 1, 604); (42924, 42924, 1, 609);
    (42925, 42925, 1, 620); (42926, 42926, 1, 618); (42928, 42928, 1, 670); (42929, 42929, 1, 647);
    (42930, 42930, 1, 669); (42931, 42931, 1, 43859); (42932, 42946, 2, 42933); (42948, 42948, 1, 42900);
    (42949, 42949, 1, 642); (42950, 42950, 1, 7566); (42951, 42953, 2, 42952); (42960, 42960, 1, 42961);
    (42966, 42968, 2, 42967); (42997, 42997, 1, 42998); (65313, 65338, 1, 65345); (66560, 66599, 1, 66600);
    (66736, 66771, 1, 66776); (66928, 66938, 1, 66967); (66940, 66954, 1, 66979); (66956, 66962, 1, 66995);
    (66964, 66965, 1, 67003); (68736, 68786, 1, 68800); (71840, 71871, 1, 71872); (93760, 93791, 1, 93792);
    (125184, 125217, 1, 125218) ]%N.

(** [str.lower()].  Every character is mapped on its own, but for the
    capital sigma U+03A3, which becomes the final sigma U+03C2 when a cased
    character comes before it and none comes after it, characters that the
    rule skips apart, and U+03C3 otherwise.  [after_cased] says whether the
    last character before that the rule does not skip is cased. *)
Definition lower_point (n : N) : list N :=
  if (n =? 304)%N then [105; 775]%N
  else
    match find (fun r : N * N * N * N =>
                  let '(first, last, step, _) := r in
                  (first <=? n)%N && (n <=? last)%N
                  && ((n - first) mod step =? 0)%N) LOWER with
    | Some (first, _, _, image) => [(image + (n - first))%N]
    | None => [n]
    end.

Definition lower_char (g : string) : string :=
  match point g with
  | Some n => text (map utf8 (lower_point n))
  | None => g
  end.

Fixpoint before_cased (gs : list string) : bool :=
  match gs with
  | [] => false
  | g :: gs' =>
      if in_class CASE_IGNORABLE g then before_cased gs' else in_class CASED g
  end.

Fixpoint lower_chars (after_cased : bool) (gs : list string) : list string :=
  match gs with
  | [] => []
  | g :: gs' =>
      (if is_point 931 g then
         utf8 (if after_cased && negb (before_cased gs') then 962 else 963)%N
       else lower_char g)
      :: lower_chars (if in_class CASE_IGNORABLE g then after_cased
                      else in_class CASED g) gs'
  end.

Definition lower (s : string) : string := text (lower_chars false (chars s)).

(** [sub in s] for strings. *)
Fixpoint contains (sub s : string) : bool :=
  String.prefix sub s ||
  match s with
  | EmptyString => false
  | String _ s' => contains sub s'
  end.

(** [sep.join(parts)]. *)
Fixpoint join (sep : string) (parts : list string) : string :=
  match parts with
  | [] => ""
  | [p] => p
  | p :: ps => p +:+ sep +:+ join sep ps
  end.

(** [s.replace(',', '')]. *)
Fixpoint remove_commas (s : string) : string :=
  match s with
  | EmptyString => EmptyString
  | String c s' =>
      if Ascii.eqb c "," then remove_commas s' else String c (remove_commas s')
  end.

(** [str(n)] for an integer. *)
Definition str_of_Z (n : Z) : string := NilZero.string_of_int (Z.to_int n).

(** [repr(s)] for a string: single quotes unless the string has a single
    quote and no double quote; the quote, the backslash, the control
    characters and the characters that are not printable are escaped. *)
Definition hex_digit (n : N) : ascii :=
  if (n <? 10)%N then ascii_of_N (48 + n)%N else ascii_of_N (87 + n)%N.

Fixpoint hex (width : nat) (n : N) : string :=
  match width with
  | O => ""
  | S width' => hex width' (n / 16)%N +:+ String (hex_digit (n mod 16)%N) ""
  end.

Definition escape_ascii (quote c : ascii) : string :=
  let n := byte c in
  if Ascii.eqb c quote || Ascii.eqb c "\" then String "\" (String c "")
  else if (n =? 9)%N then "\t"
  else if (n =? 10)%N then "\n"
  else if (n =? 13)%N then "\r"
  else if (n <? 32)%N || (n =? 127)%N then "\x" +:+ hex 2 n
  else String c "".

Definition escape_char (quote : ascii) (g : string) : string :=
  match g with
  | String c EmptyString => if is_ascii c then escape_ascii quote c else g
  | _ =>
      match point g with
      | Some n =>
          if in_ranges n NOT_PRINTABLE then
            if (n <? 256)%N then "\x" +:+ hex 2 n
            else if (n <? 65536)%N then "\u" +:+ hex 4 n
            else "\U" +:+ hex 8 n
          else g
      | None => g
      end
  end.

Definition escape (quote : ascii) (s : string) : string :=
  text (map (escape_char quote) (chars s)).

Definition double_quote : ascii := ascii_of_nat 34.

Definition repr_str (s : string) : string :=
  let quote : ascii :=
    if contains "'" s && negb (contains (String double_quote "") s)
    then double_quote else "'"%char in
  String quote (escape quote s) +:+ String quote "".

(** [repr(v)] and [str(v)] of a decoded value. *)
Fixpoint repr (v : json) : string :=
  match v with
  | JNull => "None"
  | JBool true => "True"
  | JBool false => "False"
  | JInt n => str_of_Z n
  | JFloat r => r
  | JStr s => repr_str s
  | JList xs => "[" +:+ join ", " (map repr xs) +:+ "]"
  | JDict kvs =>
      "{" +:+ join ", " (map (fun kv : string * json => let '(k, x) := kv in
                                       repr_str k +:+ ": " +:+ repr x) kvs)
          +:+ "}"
  end.

Definition str (v : json) : string :=
  match v with
  | JStr s => s
  | _ => repr v
  end.

(** Truth value of a decoded value ([if v:]). *)
Definition truthy (v : json) : bool :=
  match v with
  | JNull => false
  | JBool b => b
  | JInt n => negb (n =? 0)%Z
  | JFloat r => negb (String.eqb r "0.0" || String.eqb r "-0.0")
  | JStr s => negb (String.eqb s "")
  | JList xs => match xs with [] => false | _ => true end
  | JDict kvs => match kvs with [] => false | _ => true end
  end.

(** Truth value of a string ([if s:]). *)
Definition nonempty (s : string) : bool := negb (String.eqb s "").

(** [isinstance(v, dict)], [isinstance(v, list)], [isinstance(v, str)]. *)
Definition as_dict (v : json) : option dict :=
  match v with JDict kvs => Some kvs | _ => None end.
Definition as_list (v : json) : option (list json) :=
  match v with JList xs => Some xs | _ => None end.

(** [s.strip()]: white space is dropped at both ends. *)
Definition is_space (g : string) : bool := in_class WHITE_SPACE g.

Fixpoint lstrip_chars (gs : list string) : list string :=
  match gs with
  | [] => []
  | g :: gs' => if is_space g then lstrip_chars gs' else gs
  end.

Definition strip (s : string) : string :=
  text (List.rev (lstrip_chars (List.rev (lstrip_chars (chars s))))).

(** [s[:n]]: the first [n] characters. *)
Definition take_str (n : nat) (s : string) : string :=
  text (firstn n (chars s)).

(** Exceptions the modelled code can raise. *)
Inductive exn : Type :=
| AttributeError (msg : string)
| TypeError (msg : string)
| JSONDecodeError (msg : string)
| OtherError (msg : string).

(** [str(e)]. *)
Definition exn_str (e : exn) : string :=
  match e with
  | AttributeError m | TypeError m | JSONDecodeError m | OtherError m => m
  end.

Inductive result (A : Type) : Type :=
| Ok (a : A)
| Raise (e : exn).
Arguments Ok {A} a.
Arguments Raise {A} e.

Definition bind {A B : Type} (m : result A) (f : A -> result B) : result B :=
  match m with
  | Ok a => f a
  | Raise e => Raise e
  end.

End Py.

(** ** The header and mapping tables *)

Definition STANDARD_HEADERS : list string :=
  [ "Item ID"; "Item Name"; "SKU"; "Description"; "Rate"; "Source";
    "Reference ID"; "Usage unit"; "Purchase Rate"; "Purchase Account";
    "Vendor"; "Item Type"; "Is Combo Product"; "CF.Manufacturer"; "CF.URL";
    "CF.Markup"; "CF.Description"; "CF.Supplier"; "CF.Material"; "CF.Cost" ].

(** [FIELD_MAPPING], in definition order. *)
Definition FIELD_MAPPING : list (string * string) :=
  [ ("id", "Item ID"); ("item_id", "Item ID"); ("itemId", "Item ID");
    ("product_id", "Item ID"); ("productId", "Item ID");
    ("name", "Item Name"); ("item_name", "Item Name");
    ("itemName", "Item Name"); ("product_name", "Item Name");
    ("productName", "Item Name"); ("title", "Item Name");
    ("sku", "SKU"); ("item_sku", "SKU"); ("itemSku", "SKU");
    ("product_sku", "SKU"); ("productSku", "SKU"); ("model", "SKU");
    ("model_number", "SKU"); ("modelNumber", "SKU");
    ("description", "Description"); ("item_description", "Description");
    ("itemDescription", "Description");
    ("product_description", "Description");
    ("productDescription", "Description"); ("details", "Description");
    ("product_details", "Description"); ("productDetails", "Description");
    ("price", "Rate"); ("rate", "Rate"); ("item_price", "Rate");
    ("itemPrice", "Rate"); ("product_price", "Rate");
    ("productPrice", "Rate"); ("unit_price", "Rate"); ("unitPrice", "Rate");
    ("reference_id", "Reference ID"); ("referenceId", "Reference ID");
    ("ref_id", "Reference ID"); ("refId", "Reference ID");
    ("external_id", "Reference ID"); ("externalId", "Reference ID");
    ("unit", "Usage unit"); ("usage_unit", "Usage unit");
    ("usageUnit", "Usage unit"); ("measure_unit", "Usage unit");
    ("measureUnit", "Usage unit");
    ("purchase_price", "Purchase Rate"); ("purchasePrice", "Purchase Rate");
    ("cost_price", "Purchase Rate"); ("costPrice", "Purchase Rate");
    ("wholesale_price", "Purchase Rate");
    ("wholesalePrice", "Purchase Rate");
    ("category", "Item Type"); ("item_type", "Item Type");
    ("itemType", "Item Type"); ("product_type", "Item Type");
    ("productType", "Item Type"); ("product_category", "Item Type");
    ("productCategory", "Item Type");
    ("manufacturer", "CF.Manufacturer"); ("brand", "CF.Manufacturer");
    ("maker", "CF.Manufacturer");
    ("url", "CF.URL"); ("product_url", "CF.URL"); ("productUrl", "CF.URL");
    ("link", "CF.URL"); ("web_link", "CF.URL"); ("webLink", "CF.URL");
    ("material", "CF.Material"); ("materials", "CF.Material");
    ("item_material", "CF.Material"); ("itemMaterial", "CF.Material");
    ("product_material", "CF.Material");
    ("productMaterial", "CF.Material") ].

(** ** [map_field_name] *)

Definition map_field_name (field_name : string) : string :=
  let field_lower := Py.lower field_name in
  match Py.get field_lower FIELD_MAPPING with
  | Some target => target
  | None =>
      match find (fun st => Py.contains (fst st) field_lower) FIELD_MAPPING with
      | Some (_, target) => target
      | None => field_name
      end
  end.

(** ** [extract_price]

    [re.search] with the pattern: an optional dollar sign, then the group
    (one or more of digit-or-comma, an optional dot, zero or more digits).
    The pattern is tried at every character from the left.  At one position
    the optional dollar sign is taken first and given back if the group then
    fails; inside the group each greedy part takes all it can, and since the
    parts after the first also match the empty text, the first (longest)
    attempt succeeds.  [\d] is any decimal digit. *)

Definition is_digit (g : string) : bool := Py.in_class Py.DECIMAL_DIGITS g.

Definition is_digit_or_comma (g : string) : bool :=
  is_digit g || String.eqb g ",".

(** The longest run of characters that satisfy [p], and the rest. *)
Fixpoint span (p : string -> bool) (gs : list string)
  : list string * list string :=
  match gs with
  | [] => ([], [])
  | g :: gs' =>
      if p g then let '(run, rest) := span p gs' in (g :: run, rest)
      else ([], gs)
  end.

(** The group (digits-or-commas, optional dot, digits) anchored at the start
    of [gs]: the characters it matches. *)
Definition match_group (gs : list string) : option (list string) :=
  let '(run, rest) := span is_digit_or_comma gs in
  match run with
  | [] => None
  | _ =>
      match rest with
      | g :: rest' =>
          if String.eqb g "." then
            let '(frac, _) := span is_digit rest' in Some (run ++ "." :: frac)
          else Some run
      | [] => Some run
      end
  end.

(** The whole pattern anchored at the start of [gs]: group 1. *)
Definition match_here (gs : list string) : option (list string) :=
  match gs with
  | g :: gs' =>
      if String.eqb g "$" then
        match match_group gs' with
        | Some group1 => Some group1
        | None => match_group gs
        end
      else match_group gs
  | [] => match_group gs
  end.

(** The leftmost position where the pattern matches. *)
Fixpoint search (gs : list string) : option (list string) :=
  match match_here gs with
  | Some group1 => Some group1
  | None =>
      match gs with
      | [] => None
      | _ :: gs' => search gs'
      end
  end.

(** [re.search(pattern, s)]: the text of group 1. *)
Definition re_search (s : string) : option string :=
  option_map Py.text (search (Py.chars s)).

Definition extract_price (value : json) : string :=
  match value with
  | JBool _ | JInt _ | JFloat _ => Py.str value
  | JStr s =>
      match re_search s with
      | Some group1 => Py.remove_commas group1
      | None => Py.str value
      end
  | _ => Py.str value
  end.

Example extract_price_dollars :
  extract_price (JStr "$1,234.56") = "1234.56".
Proof. reflexivity. Qed.

Example map_field_name_subcategory :
  map_field_name "subcategory" = "Item Type".
Proof. reflexivity. Qed.

(** ** [standardize_record]

    A standardized row is the dict the function builds: the standard headers
    in order, each bound to a string. *)

Definition row : Type := list (string * string).

(** [standardized[h]] and [standardized.get(h)]; every key the function reads
    is a standard header, which the row always has. *)
Definition row_get (h : string) (r : row) : string :=
  default "" (Py.get h r).

(** ['k' in record and record['k']]. *)
Definition get_truthy (k : string) (record : dict) : option json :=
  match Py.get k record with
  | Some v => if Py.truthy v then Some v else None
  | None => None
  end.

(** [type(v).__name__], for the text of an [AttributeError]. *)
Definition type_name (v : json) : string :=
  match v with
  | JNull => "NoneType"
  | JBool _ => "bool"
  | JInt _ => "int"
  | JFloat _ => "float"
  | JStr _ => "str"
  | JList _ => "list"
  | JDict _ => "dict"
  end.

Definition blank_row : row := map (fun header => (header, "")) STANDARD_HEADERS.

Definition set_defaults (standardized : row) : row :=
  let standardized := Py.set "Source" "HD" standardized in
  let standardized := Py.set "Purchase Account" "HD" standardized in
  let standardized := Py.set "Vendor" "HD" standardized in
  let standardized := Py.set "CF.Markup" "43%" standardized in
  Py.set "CF.Supplier" "HD" standardized.

Definition extract_item_id (record : dict) (standardized : row) : row :=
  match Py.get "item_id" record with
  | Some v => Py.set "Item ID" (Py.str v) standardized
  | None =>
      match Py.get "model_number" record with
      | Some v => Py.set "Item ID" (Py.str v) standardized
      | None => standardized
      end
  end.

Definition extract_sku (record : dict) (standardized : row) : row :=
  match Py.get "model_number" record with
  | Some v => Py.set "SKU" (Py.str v) standardized
  | None =>
      match Py.get "store_sku" record with
      | Some v => Py.set "SKU" (Py.str v) standardized
      | None => standardized
      end
  end.

Definition extract_identifiers (record : dict) (standardized : row) : row :=
  match Py.get "identifiers" record with
  | Some (JDict identifiers) =>
      let standardized :=
        if Py.nonempty (row_get "Item ID" standardized) then standardized
        else
          match Py.get "product_id" identifiers with
          | Some v => Py.set "Item ID" (Py.str v) standardized
          | None =>
              match Py.get "item_id" identifiers with
              | Some v => Py.set "Item ID" (Py.str v) standardized
              | None => standardized
              end
          end in
      if Py.nonempty (row_get "SKU" standardized) then standardized
      else
        match Py.get "sku" identifiers with
        | Some v => Py.set "SKU" (Py.str v) standardized
        | None =>
            match Py.get "model_number" identifiers with
            | Some v => Py.set "SKU" (Py.str v) standardized
            | None => standardized
            end
        end
  | _ => standardized
  end.

Definition extract_name (record : dict) (standardized : row) : row :=
  match Py.get "title" record with
  | Some v => Py.set "Item Name" (Py.str v) standardized
  | None =>
      match Py.get "name" record with
      | Some v => Py.set "Item Name" (Py.str v) standardized
      | None => standardized
      end
  end.

Definition set_description (text : string) (standardized : row) : row :=
  Py.set "CF.Description" text (Py.set "Description" text standardized).

Definition extract_description (record : dict) (standardized : row) : row :=
  match get_truthy "description" record with
  | Some v => set_description (Py.str v) standardized
  | None =>
      match get_truthy "details" record with
      | Some v => set_description (Py.str v) standardized
      | None =>
          match get_truthy "title" record with
          | Some v => set_description (Py.str v) standardized
          | None =>
              if Py.nonempty (row_get "Item Name" standardized)
              then set_description (row_get "Item Name" standardized)
                                   standardized
              else standardized
          end
      end
  end.

(** The value of [price_value] when the two price paths have been tried. *)
Definition find_price (record : dict) : option string :=
  let price_value :=
    match Py.get "buybox_winner" record with
    | Some (JDict buybox_winner) =>
        match Py.get "price" buybox_winner with
        | Some raw_price => Some (extract_price raw_price)
        | None => None
        end
    | _ => None
    end in
  match price_value with
  | Some _ => price_value
  | None =>
      match Py.get "price" record with
      | Some raw_price => Some (extract_price raw_price)
      | None => None
      end
  end.

Definition set_price (record : dict) (standardized : row) : row :=
  match find_price record with
  | Some price_value =>
      if Py.nonempty price_value then
        let standardized := Py.set "Rate" price_value standardized in
        let standardized := Py.set "Purchase Rate" price_value standardized in
        Py.set "CF.Cost" price_value standardized
      else standardized
  | None => standardized
  end.

Definition extract_brand (record : dict) (standardized : row) : row :=
  match get_truthy "brand" record with
  | Some v => Py.set "CF.Manufacturer" (Py.str v) standardized
  | None => standardized
  end.

Definition extract_category (record : dict) (standardized : row) : row :=
  match get_truthy "category" record with
  | Some v => Py.set "Item Type" (Py.str v) standardized
  | None =>
      match get_truthy "categories" record with
      | Some (JList (first :: _)) =>
          Py.set "Item Type" (Py.str first) standardized
      | _ => standardized
      end
  end.

Definition extract_url (record : dict) (standardized : row) : row :=
  match get_truthy "link" record with
  | Some v => Py.set "CF.URL" (Py.str v) standardized
  | None =>
      match get_truthy "url" record with
      | Some v => Py.set "CF.URL" (Py.str v) standardized
      | None => standardized
      end
  end.

(** The loop over [record['specifications']]: [spec['key'].lower()] raises
    when the key is not a string. *)
Fixpoint scan_specifications (specs : list json) (standardized : row)
  : Py.result row :=
  match specs with
  | [] => Py.Ok standardized
  | spec :: rest =>
      match spec with
      | JDict spec =>
          match Py.get "key" spec, Py.get "value" spec with
          | Some key, Some value =>
              match key with
              | JStr key =>
                  if Py.mem (Py.lower key) ["material"; "materials"]
                  then scan_specifications rest
                         (Py.set "CF.Material" (Py.str value) standardized)
                  else scan_specifications rest standardized
              | _ =>
                  Py.Raise (Py.AttributeError
                    ("'" +:+ type_name key
                         +:+ "' object has no attribute 'lower'"))
              end
          | _, _ => scan_specifications rest standardized
          end
      | _ => scan_specifications rest standardized
      end
  end.

Definition extract_material (record : dict) (standardized : row)
  : Py.result row :=
  match Py.get "specifications" record with
  | Some (JList specs) => scan_specifications specs standardized
  | _ => Py.Ok standardized
  end.

Definition PROCESSED_FIELDS : list string :=
  [ "identifiers"; "title"; "name"; "description"; "details"; "price";
    "brand"; "category"; "categories"; "link"; "url"; "specifications" ].

(** The loop over [record.items()] that maps the remaining fields. *)
Fixpoint map_remaining (items : dict) (standardized : row) : row :=
  match items with
  | [] => standardized
  | (field, value) :: rest =>
      if Py.mem field PROCESSED_FIELDS then map_remaining rest standardized
      else
        let standard_field := map_field_name field in
        if Py.mem standard_field STANDARD_HEADERS
           && negb (Py.nonempty (row_get standard_field standardized))
        then map_remaining rest
               (Py.set standard_field (Py.str value) standardized)
        else map_remaining rest standardized
  end.

Definition standardize_record (record : dict) : Py.result row :=
  let standardized := set_defaults blank_row in
  let standardized := extract_item_id record standardized in
  let standardized := extract_sku record standardized in
  let standardized := extract_identifiers record standardized in
  let standardized := extract_name record standardized in
  let standardized := extract_description record standardized in
  let standardized := set_price record standardized in
  let standardized := extract_brand record standardized in
  let standardized := extract_category record standardized in
  let standardized := extract_url record standardized in
  Py.bind (extract_material record standardized) (fun standardized =>
  Py.Ok (map_remaining record standardized)).

(** A standardized row read back as a record (the Python object is the same
    dict; its values are strings). *)
Definition row_to_record (r : row) : dict :=
  map (fun kv : string * string => (fst kv, JStr (snd kv))) r.

(** ** [generate_record_key]

    [now] is the text of [time.time()] in the last-resort key. *)

Definition generate_record_key (now : string) (record : row) : string :=
  if Py.nonempty (row_get "Item ID" record) then
    "id:" +:+ row_get "Item ID" record
  else if Py.nonempty (row_get "SKU" record) then
    "sku:" +:+ row_get "SKU" record
  else if Py.nonempty (row_get "Item Name" record)
          && Py.nonempty (row_get "Description" record) then
    let name := Py.lower (Py.strip (row_get "Item Name" record)) in
    let desc := Py.lower (Py.strip (row_get "Description" record)) in
    "name_desc:" +:+ name +:+ "_" +:+ Py.take_str 50 desc
  else
    let values :=
      map snd (List.filter (fun kv : string * string =>
                         Py.nonempty (snd kv) && Py.mem (fst kv) STANDARD_HEADERS)
                      record) in
    match values with
    | [] => "unknown:" +:+ now
    | _ => "hash:" +:+ Py.join "_" (firstn 5 values)
    end.

(** ** [extract_product_data]

    The document is whatever [json.loads] returned, so ['k' in json_data] and
    [json_data['k']] are modelled on every kind of value: a dict looks the
    key up, a list tests its elements (and cannot be indexed by a string), a
    string tests for a substring (and cannot be indexed by a string), any
    other value is not iterable. *)

Definition contains_key (k : string) (v : json) : Py.result bool :=
  match v with
  | JDict d => Py.Ok (Py.has k d)
  | JList xs =>
      Py.Ok (existsb (fun x => match x with
                               | JStr s => String.eqb s k
                               | _ => false
                               end) xs)
  | JStr s => Py.Ok (Py.contains k s)
  | _ =>
      Py.Raise (Py.TypeError
        ("argument of type '" +:+ type_name v +:+ "' is not iterable"))
  end.

Definition index_key (k : string) (v : json) : Py.result json :=
  match v with
  | JDict d =>
      match Py.get k d with
      | Some x => Py.Ok x
      | None => Py.Raise (Py.OtherError (Py.repr_str k))
      end
  | JList _ =>
      Py.Raise (Py.TypeError "list indices must be integers or slices, not str")
  | JStr _ =>
      Py.Raise (Py.TypeError "string indices must be integers, not 'str'")
  | _ =>
      Py.Raise (Py.TypeError
        ("'" +:+ type_name v +:+ "' object is not subscriptable"))
  end.

(** ['k' in v and ... v['k'] ...]: the value under [k] when it is there. *)
Definition get_field (k : string) (v : json) : Py.result (option json) :=
  Py.bind (contains_key k v) (fun present =>
  if present
  then Py.bind (index_key k v) (fun x => Py.Ok (Some x))
  else Py.Ok None).

Definition if_nonempty (products : list json) : option json :=
  match products with
  | [] => None
  | _ => Some (JList products)
  end.

(** One element of a [search_results] array: the merged product, if any. *)
Definition merge_search_result (result : json) : option json :=
  match result with
  | JDict result =>
      let product_data : dict :=
        match Py.get "product" result with
        | Some (JDict product) =>
            fold_left (fun acc kv => Py.set (fst kv) (snd kv) acc) product []
        | _ => []
        end in
      let product_data :=
        match Py.get "offers" result with
        | Some (JDict offers) => Py.set "offers" (JDict offers) product_data
        | _ => product_data
        end in
      match product_data with
      | [] => None
      | _ => Some (JDict product_data)
      end
  | _ => None
  end.

Definition is_dict (v : json) : bool :=
  match v with JDict _ => true | _ => false end.

Definition extract_product_data (json_data : json) : Py.result (option json) :=
  Py.bind (get_field "product" json_data) (fun product =>
  match product with
  | Some (JDict product) =>
      let product_data := product in
      Py.bind (get_field "buybox_winner" json_data) (fun buybox_winner =>
      match buybox_winner with
      | Some (JDict buybox_winner) =>
          let product_data :=
            match Py.get "price" buybox_winner with
            | Some price => Py.set "price" price product_data
            | None => product_data
            end in
          Py.Ok (Some (JDict
            (Py.set "buybox_winner" (JDict buybox_winner) product_data)))
      | _ =>
          match Py.get "buybox_winner" product_data with
          | Some (JDict nested) =>
              match Py.get "price" nested with
              | Some price =>
                  Py.Ok (Some (JDict (Py.set "price" price product_data)))
              | None => Py.Ok (Some (JDict product_data))
              end
          | _ => Py.Ok (Some (JDict product_data))
          end
      end)
  | _ =>
      Py.bind (get_field "search_results" json_data) (fun search_results =>
      let direct_list :=
        Py.bind (get_field "products" json_data) (fun products =>
        match products with
        | Some (JList products) => Py.Ok (Some (JList products))
        | _ => Py.Ok None
        end) in
      match search_results with
      | Some (JList results) =>
          Py.Ok (if_nonempty (omap merge_search_result results))
      | Some (JDict search_results) =>
          match Py.get "products" search_results with
          | Some (JList products) =>
              Py.Ok (if_nonempty (List.filter (fun p => is_dict p) products))
          | _ => direct_list
          end
      | _ => direct_list
      end)
  end).

(** ** [process_json_file]

    Reading the file and decoding its text are the two library calls
    [f.read()] and [json.loads]; they are parameters of the model.
    [known_records] is the dict the batch shares, used as a set of keys. *)

Record file_result : Type := mk_file_result {
  standardized_data : list row;
  record_count : nat;
  duplicate_count : nat;
  errors : list string
}.

Definition empty_result : file_result := mk_file_result [] 0 0 [].

Definition add_error (msg : string) (r : file_result) : file_result :=
  mk_file_result (standardized_data r) (record_count r) (duplicate_count r)
                 (errors r ++ [msg]).

Definition add_duplicate (r : file_result) : file_result :=
  mk_file_result (standardized_data r) (record_count r)
                 (S (duplicate_count r)) (errors r).

Definition add_record (standardized : row) (r : file_result) : file_result :=
  mk_file_result (standardized_data r ++ [standardized]) (S (record_count r))
                 (duplicate_count r) (errors r).

Section World.

Variable read_text : string -> Py.result string.
Variable json_loads : string -> Py.result json.
Variable now : string.

(** The items the file yields for standardization, or the message of the
    error that ends the file: the [try] blocks around reading, decoding and
    shape resolution. *)
Definition items_of_document (json_data : json) : Py.result (list json) :=
  Py.bind (get_field "product" json_data) (fun product =>
  match product with
  | Some (JDict product) =>
      Py.bind (get_field "buybox_winner" json_data) (fun buybox_winner =>
      match buybox_winner with
      | Some (JDict buybox_winner) =>
          Py.Ok [JDict (Py.set "buybox_winner" (JDict buybox_winner) product)]
      | _ => Py.Ok [JDict product]
      end)
  | _ =>
      Py.bind (extract_product_data json_data) (fun product_data =>
      match product_data with
      | None =>
          match json_data with
          | JDict _ => Py.Ok [json_data]
          | JList items => Py.Ok items
          | _ => Py.Ok []
          end
      | Some (JList items) => Py.Ok items
      | Some single => Py.Ok [single]
      end)
  end).

Definition load_items (file_path : string) : list json + string :=
  match read_text file_path with
  | Py.Raise e =>
      inr ("Error reading " +:+ file_path +:+ ": " +:+ Py.exn_str e)
  | Py.Ok file_content =>
      match json_loads file_content with
      | Py.Raise (Py.JSONDecodeError msg) =>
          inr ("Error parsing " +:+ file_path +:+ ": " +:+ msg)
      | Py.Raise e =>
          inr ("Error reading " +:+ file_path +:+ ": " +:+ Py.exn_str e)
      | Py.Ok json_data =>
          match items_of_document json_data with
          | Py.Raise e =>
              inr ("Error reading " +:+ file_path +:+ ": " +:+ Py.exn_str e)
          | Py.Ok items => inl items
          end
      end
  end.

(** What one item asks of the shared dict: nothing (an error is recorded),
    or the membership test of a key. *)
Inductive attempt : Type :=
| Failed (msg : string)
| Keyed (record_key : string) (standardized : row).

Definition attempt_item (file_path : string) (item : json) : attempt :=
  match item with
  | JDict record =>
      match standardize_record record with
      | Py.Ok standardized =>
          Keyed (generate_record_key now standardized) standardized
      | Py.Raise e =>
          Failed ("Error standardizing record in " +:+ file_path +:+ ": "
                  +:+ Py.exn_str e)
      end
  | _ => Failed ("Skipped non-dictionary item in " +:+ file_path)
  end.

(** The body of the loop over the items, run without interruption: the
    test [record_key in known_records] and the store
    [known_records[record_key] = True] follow each other. *)
Definition process_item (file_path : string) (item : json)
           (st : file_result * gset string) : file_result * gset string :=
  let '(r, known_records) := st in
  match attempt_item file_path item with
  | Failed msg => (add_error msg r, known_records)
  | Keyed record_key standardized =>
      if bool_decide (record_key ∈ known_records)
      then (add_duplicate r, known_records)
      else (add_record standardized r, {[record_key]} ∪ known_records)
  end.

Definition process_json_file (file_path : string) (known_records : gset string)
  : file_result * gset string :=
  match load_items file_path with
  | inr msg => (add_error msg empty_result, known_records)
  | inl items =>
      fold_left (fun st item => process_item file_path item st) items
                (empty_result, known_records)
  end.

End World.

(** ** The worker pool of [combine_json_to_csv]

    [executor.submit(process_json_file, file, known_records)] runs one call
    per file on the threads of the pool, all on the same [known_records]
    dict, and nothing in the module locks it.  Everything a call does before
    the test [record_key in known_records] touches only its own data, so a
    worker is modelled by the items it still has to treat and by the two
    accesses to the dict: the test, and the store that follows it when the
    key was absent.  Another worker may run between the two. *)

Record worker : Type := mk_worker {
  w_path : string;
  w_todo : list json;
  (** the key tested absent and not yet stored, with its row *)
  w_pending : option (string * row);
  (** the dict of its own when the caller passed [known_records=None] *)
  w_private : option (gset string);
  w_result : file_result
}.

Definition set_private (own : gset string) (w : worker) : worker :=
  mk_worker (w_path w) (w_todo w) (w_pending w) (Some own) (w_result w).

Definition w_done (w : worker) : bool :=
  match w_todo w, w_pending w with
  | [], None => true
  | _, _ => false
  end.

Record pool : Type := mk_pool {
  shared : gset string;
  workers : list worker
}.

(** The input of [combine_json_to_csv]: a glob pattern or a list of paths. *)
Inductive input_path : Type :=
| Pattern (pattern : string)
| Paths (paths : list string).

Record stats : Type := mk_stats {
  files_processed : nat;
  files_with_errors : nat;
  records_processed : nat;
  duplicates_skipped : nat;
  stats_errors : list string
}.

(** The state of the loop over the completed tasks: the statistics, the
    errors gathered so far, the rows waiting for the next batch and the
    lines written to the CSV file. *)
Record sink : Type := mk_sink {
  sink_stats : stats;
  all_errors : list string;
  temp_data : list row;
  written : list (list string)
}.

(** [csv.DictWriter(csvfile, fieldnames=STANDARD_HEADERS).writerow(item)]:
    the cells of a line are the values under the headers, in order. *)
Definition csv_line (item : row) : list string :=
  map (fun header => row_get header item) STANDARD_HEADERS.

Section Batch.

Variable read_text : string -> Py.result string.
Variable json_loads : string -> Py.result json.
Variable now : string.
Variable glob : string -> list string.

Definition start_worker (skip_duplicates : bool) (file_path : string)
  : worker :=
  let own := if skip_duplicates then None else Some (∅ : gset string) in
  match load_items read_text json_loads file_path with
  | inr msg => mk_worker file_path [] None own (add_error msg empty_result)
  | inl items => mk_worker file_path items None own empty_result
  end.

(** One access of a worker to the dict [known_records]. *)
Definition worker_step (known_records : gset string) (w : worker)
  : option (gset string * worker) :=
  match w_pending w with
  | Some (record_key, standardized) =>
      Some ({[record_key]} ∪ known_records,
            mk_worker (w_path w) (w_todo w) None (w_private w)
                      (add_record standardized (w_result w)))
  | None =>
      match w_todo w with
      | [] => None
      | item :: rest =>
          match attempt_item now (w_path w) item with
          | Failed msg =>
              Some (known_records,
                    mk_worker (w_path w) rest None (w_private w)
                              (add_error msg (w_result w)))
          | Keyed record_key standardized =>
              if bool_decide (record_key ∈ known_records)
              then Some (known_records,
                         mk_worker (w_path w) rest None (w_private w)
                                   (add_duplicate (w_result w)))
              else Some (known_records,
                         mk_worker (w_path w) rest
                                   (Some (record_key, standardized))
                                   (w_private w) (w_result w))
          end
      end
  end.

(** Worker [i] of the pool runs next. *)
Definition pool_step (i : nat) (p : pool) : option pool :=
  match workers p !! i with
  | None => None
  | Some w =>
      match w_private w with
      | Some own =>
          match worker_step own w with
          | Some (own', w') =>
              Some (mk_pool (shared p)
                            (<[i := set_private own' w']> (workers p)))
          | None => None
          end
      | None =>
          match worker_step (shared p) w with
          | Some (known_records, w') =>
              Some (mk_pool known_records (<[i := w']> (workers p)))
          | None => None
          end
      end
  end.

(** A schedule names the worker that runs at each turn. *)
Fixpoint run_pool (schedule : list nat) (p : pool) : option pool :=
  match schedule with
  | [] => Some p
  | i :: schedule' =>
      match pool_step i p with
      | Some p' => run_pool schedule' p'
      | None => None
      end
  end.

Definition finished (p : pool) : bool := forallb w_done (workers p).

Definition start_pool (skip_duplicates : bool) (json_files : list string)
  : pool :=
  mk_pool ∅ (map (start_worker skip_duplicates) json_files).

(** The body of [for i, future in enumerate(as_completed(...))] for one
    completed file. *)
Definition consume (batch_size : nat) (s : sink) (r : file_result) : sink :=
  let st := sink_stats s in
  let with_errors := match errors r with [] => false | _ => true end in
  let st :=
    mk_stats (S (files_processed st))
             (if with_errors then S (files_with_errors st)
              else files_with_errors st)
             (records_processed st + record_count r)
             (duplicates_skipped st + duplicate_count r)
             (stats_errors st) in
  let all_errors :=
    if with_errors then all_errors s ++ errors r else all_errors s in
  let temp_data := temp_data s ++ standardized_data r in
  if (batch_size <=? length temp_data)%nat
  then mk_sink st all_errors [] (written s ++ map csv_line temp_data)
  else mk_sink st all_errors temp_data (written s).

Definition resolve (input : input_path) : list string :=
  match input with
  | Pattern pattern => glob pattern
  | Paths paths => paths
  end.

Definition input_str (input : input_path) : string :=
  match input with
  | Pattern pattern => pattern
  | Paths paths => Py.repr (JList (map JStr paths))
  end.

(** [order] lists the workers in the order [as_completed] hands their
    results over; it names every worker once. *)
Definition is_order (n : nat) (order : list nat) : bool :=
  bool_decide (NoDup order) && (length order =? n)%nat
  && forallb (fun i => (i <? n)%nat) order.

(** The threads of the pool run until every call has returned: the result
    of each file, in the order of submission. *)
Definition run_batch (skip_duplicates : bool) (json_files : list string)
           (schedule : list nat) : option (list file_result) :=
  match run_pool schedule (start_pool skip_duplicates json_files) with
  | Some p => if finished p then Some (map w_result (workers p)) else None
  | None => None
  end.

(** The [with open(output_file, ...)] block, given the results in the order
    of completion: the statistics and the lines written. *)
Definition write_csv (batch_size : nat) (results : list file_result)
  : stats * list (list string) :=
  let s0 :=
    mk_sink (mk_stats 0 0 0 0 []) [] []
            [STANDARD_HEADERS; csv_line blank_row] in
  let s := fold_left (consume batch_size) results s0 in
  let st := sink_stats s in
  (mk_stats (files_processed st) (files_with_errors st)
            (records_processed st) (duplicates_skipped st)
            (stats_errors st ++ all_errors s),
   written s ++ map csv_line (temp_data s)).

(** [combine_json_to_csv]: the statistics and, when the file was opened,
    the lines of the CSV file.  A run is fixed by the [schedule] of the
    workers and the [order] of completion; [None] when the two do not
    describe a complete run.  [progress_callback] is left at [None] and
    [elapsed_time] out of the statistics; [max_workers] only bounds how
    many workers are under way together. *)
Definition combine_json_to_csv (input : input_path) (batch_size : nat)
           (skip_duplicates : bool) (schedule order : list nat)
  : option (stats * option (list (list string))) :=
  let json_files := resolve input in
  match json_files with
  | [] =>
      Some (mk_stats 0 0 0 0
              ["No JSON files found matching pattern: " +:+ input_str input],
            None)
  | _ =>
      match run_batch skip_duplicates json_files schedule with
      | None => None
      | Some results =>
          if is_order (length json_files) order then
            let '(st, lines) :=
              write_csv batch_size (omap (fun i => results !! i) order) in
            Some (st, Some lines)
          else None
      end
  end.

End Batch.

(** ** [app.py], [run_conversion]: search results

    The web conversion does not call [process_json_file]: it treats each
    element of the search results itself.  For an element that is a dict
    with a nested [product] dict, the nested dict is completed with a price
    and a description and then handed to [standardize_record].  The
    [logger.info] lines print [value[:50]], which raises on a value that is
    neither a string nor a list; the exception ends the file. *)

Definition log_preview (v : json) : Py.result unit :=
  match v with
  | JStr _ | JList _ => Py.Ok tt
  | JDict _ => Py.Raise (Py.TypeError "unhashable type: 'slice'")
  | _ =>
      Py.Raise (Py.TypeError
        ("'" +:+ type_name v +:+ "' object is not subscriptable"))
  end.

(** ['description' not in product_data or not product_data['description']]. *)
Definition lacks_description (product_data : dict) : bool :=
  match get_truthy "description" product_data with
  | Some _ => false
  | None => true
  end.

(** [if lacks: product_data['description'] = v], after the log line. *)
Definition offer_description (v : json) (product_data : dict)
  : Py.result dict :=
  Py.bind (log_preview v) (fun _ =>
  if lacks_description product_data
  then Py.Ok (Py.set "description" v product_data)
  else Py.Ok product_data).

Definition price_from_offers (product product_data : dict) : dict :=
  match Py.get "offers" product with
  | Some (JDict offers) =>
      match Py.get "primary" offers with
      | Some (JDict primary) =>
          match Py.get "price" primary with
          | Some price => Py.set "price" price product_data
          | None => product_data
          end
      | _ => product_data
      end
  | _ => product_data
  end.

Definition description_from_product (product product_data : dict)
  : Py.result dict :=
  match get_truthy "description" product with
  | Some v =>
      Py.bind (log_preview v) (fun _ =>
      Py.Ok (Py.set "description" v product_data))
  | None => Py.Ok product_data
  end.

Definition description_from_snippet (product product_data : dict)
  : Py.result dict :=
  match get_truthy "snippet" product with
  | Some v => offer_description v product_data
  | None => Py.Ok product_data
  end.

Definition description_from_content_spec (product product_data : dict)
  : Py.result dict :=
  match Py.get "content_spec" product with
  | Some (JDict content_spec) =>
      match get_truthy "description" content_spec with
      | Some v => offer_description v product_data
      | None => Py.Ok product_data
      end
  | _ => Py.Ok product_data
  end.

Definition is_description_key (key : json) : bool :=
  match key with
  | JStr key => String.eqb key "Description"
  | _ => false
  end.

Fixpoint scan_description_specs (specs : list json) (product_data : dict)
  : Py.result dict :=
  match specs with
  | [] => Py.Ok product_data
  | spec :: rest =>
      match spec with
      | JDict spec =>
          match Py.get "key" spec, Py.get "value" spec with
          | Some key, Some value =>
              if is_description_key key && Py.truthy value
              then Py.bind (offer_description value product_data)
                           (scan_description_specs rest)
              else scan_description_specs rest product_data
          | _, _ => scan_description_specs rest product_data
          end
      | _ => scan_description_specs rest product_data
      end
  end.

Definition description_from_specifications (product product_data : dict)
  : Py.result dict :=
  match Py.get "specifications" product with
  | Some (JList specs) => scan_description_specs specs product_data
  | _ => Py.Ok product_data
  end.

Definition description_from_title (product_data : dict) : dict :=
  if lacks_description product_data then
    match Py.get "title" product_data with
    | Some title => Py.set "description" title product_data
    | None => product_data
    end
  else product_data.

(** The dict [run_conversion] hands to [standardize_record] for the search
    result [product] whose nested [product] dict is [product_data]. *)
Definition enrich_search_product (product product_data : dict)
  : Py.result dict :=
  let product_data := price_from_offers product product_data in
  Py.bind (description_from_product product product_data) (fun product_data =>
  Py.bind (description_from_snippet product product_data) (fun product_data =>
  Py.bind (description_from_content_spec product product_data)
          (fun product_data =>
  Py.bind (description_from_specifications product product_data)
          (fun product_data =>
  Py.Ok (description_from_title product_data))))).

(** One element of the search results in [run_conversion]: the row it
    standardizes, or nothing for an element without a nested [product]. *)
Definition convert_search_result (element : json) : Py.result (option row) :=
  match element with
  | JDict product =>
      match Py.get "product" product with
      | Some (JDict product_data) =>
          Py.bind (enrich_search_product product product_data)
                  (fun product_data =>
          Py.bind (standardize_record product_data) (fun standardized =>
          Py.Ok (Some standardized)))
      | _ => Py.Ok None
      end
  | _ => Py.Ok None
  end.

(** ** [app.py], [run_conversion]: the loop over the uploaded files

    The loop writes rows as it goes and counts files and records; an
    exception raised while a file is treated is caught at the end of the
    loop body, after the rows already written.  [standardized] is the
    row handed to the writer; [json.load] is the two library calls
    [f.read()] and [json.loads]; [os.path.basename] is a parameter. *)

Record conversion : Type := mk_conversion {
  web_rows : list row;
  web_records_processed : nat;
  web_files_processed : nat;
  web_files_with_errors : nat;
  web_errors : list string
}.

Definition FIXED_COLUMNS : list string :=
  [ "Source"; "Purchase Account"; "Vendor"; "CF.Markup"; "CF.Supplier" ].

(** The loop with [break] that sets [has_data]. *)
Definition has_data (standardized : row) : bool :=
  existsb (fun kv : string * string =>
             Py.nonempty (snd kv) && negb (Py.mem (fst kv) FIXED_COLUMNS))
          standardized.

(** [if has_data: writer.writerow(standardized); records_processed += 1]. *)
Definition write_if_data (standardized : row) (c : conversion) : conversion :=
  if has_data standardized then
    mk_conversion (web_rows c ++ [standardized])
                  (S (web_records_processed c)) (web_files_processed c)
                  (web_files_with_errors c) (web_errors c)
  else c.

Definition count_file (c : conversion) : conversion :=
  mk_conversion (web_rows c) (web_records_processed c)
                (S (web_files_processed c)) (web_files_with_errors c)
                (web_errors c).

Definition record_error (msg : string) (c : conversion) : conversion :=
  mk_conversion (web_rows c) (web_records_processed c) (web_files_processed c)
                (S (web_files_with_errors c)) (web_errors c ++ [msg]).

(** The top-level [buybox_winner] is copied into the product when it is a
    dict that has a [price]. *)
Definition attach_priced_buybox (buybox_winner : option json) (product : dict)
  : dict :=
  match buybox_winner with
  | Some (JDict buybox_winner) =>
      if Py.has "price" buybox_winner
      then Py.set "buybox_winner" (JDict buybox_winner) product
      else product
  | _ => product
  end.

(** The description of a product file: kept when truthy (its first 50
    characters are logged), otherwise taken from the first of four fields
    that the product has. *)
Definition describe_product (product : dict) : Py.result dict :=
  match get_truthy "description" product with
  | Some v => Py.bind (log_preview v) (fun _ => Py.Ok product)
  | None =>
      match Py.get "description_full" product with
      | Some v => Py.Ok (Py.set "description" v product)
      | None =>
          match Py.get "long_description" product with
          | Some v => Py.Ok (Py.set "description" v product)
          | None =>
              match Py.get "details" product with
              | Some v => Py.Ok (Py.set "description" v product)
              | None =>
                  match Py.get "title" product with
                  | Some v => Py.Ok (Py.set "description" v product)
                  | None => Py.Ok product
                  end
              end
          end
      end
  end.

(** The list the search branch walks over. *)
Definition search_products (search_results : json) : list json :=
  match search_results with
  | JDict search_results =>
      match Py.get "products" search_results with
      | Some (JList products) => products
      | _ => []
      end
  | JList products => products
  | _ => []
  end.

(** The loop over the products of a page; an exception ends it. *)
Fixpoint convert_search_results (products : list json) (c : conversion)
  : conversion * option Py.exn :=
  match products with
  | [] => (c, None)
  | product :: rest =>
      match convert_search_result product with
      | Py.Raise e => (c, Some e)
      | Py.Ok None => convert_search_results rest c
      | Py.Ok (Some standardized) =>
          convert_search_results rest (write_if_data standardized c)
      end
  end.

Definition no_product_data (name : string) (c : conversion) : conversion :=
  count_file (record_error ("No product data found in " +:+ name) c).

(** The body of the [try] for one decoded file: the state it leaves and
    the exception it raised, if any. *)
Definition convert_document (name : string) (json_data : json)
           (c : conversion) : conversion * option Py.exn :=
  match get_field "product" json_data with
  | Py.Raise e => (c, Some e)
  | Py.Ok (Some (JDict product)) =>
      match get_field "buybox_winner" json_data with
      | Py.Raise e => (c, Some e)
      | Py.Ok buybox_winner =>
          let product := attach_priced_buybox buybox_winner product in
          match describe_product product with
          | Py.Raise e => (c, Some e)
          | Py.Ok product =>
              match standardize_record product with
              | Py.Raise e => (c, Some e)
              | Py.Ok standardized =>
                  (count_file (write_if_data standardized c), None)
              end
          end
      end
  | Py.Ok _ =>
      match get_field "search_results" json_data with
      | Py.Raise e => (c, Some e)
      | Py.Ok (Some search_results) =>
          match search_products search_results with
          | [] => (no_product_data name c, None)
          | products => convert_search_results products c
          end
      | Py.Ok None => (no_product_data name c, None)
      end
  end.

Section WebConversion.

Variable read_text : string -> Py.result string.
Variable json_loads : string -> Py.result json.
Variable basename : string -> string.

Definition json_load (file_path : string) : Py.result json :=
  Py.bind (read_text file_path) json_loads.

Definition convert_file (c : conversion) (file_path : string) : conversion :=
  let name := basename file_path in
  let '(c, raised) :=
    match json_load file_path with
    | Py.Raise e => (c, Some e)
    | Py.Ok json_data => convert_document name json_data c
    end in
  match raised with
  | Some e =>
      record_error ("Error processing " +:+ name +:+ ": " +:+ Py.exn_str e) c
  | None => c
  end.

(** The state when the loop is over, from which [stats] is built, and the
    lines of the CSV file: the header and the rows, with no blank row. *)
Definition run_conversion (saved_files : list string) : conversion :=
  fold_left convert_file saved_files (mk_conversion [] 0 0 0 []).

Definition web_csv (c : conversion) : list (list string) :=
  STANDARD_HEADERS :: map csv_line (web_rows c).

End WebConversion.

(** ** [convert_cli.py], [main] *)

(** [s.endswith(suffix)]. *)
Fixpoint ends_with (suffix s : string) : bool :=
  String.eqb s suffix ||
  match s with
  | EmptyString => false
  | String _ s' => ends_with suffix s'
  end.

(** The output file name after [if not output_file.lower().endswith('.csv')]. *)
Definition output_name (output_file : string) : string :=
  if ends_with ".csv" (Py.lower output_file) then output_file
  else output_file +:+ ".csv".

(** The call [main] makes: the pattern and the output file handed to
    [combine_json_to_csv]; nothing when fewer than two arguments follow the
    program name. *)
Definition main (argv : list string) : option (input_path * string) :=
  match argv with
  | _ :: input_pattern :: output_file :: _ =>
      Some (Pattern input_pattern, output_name output_file)
  | _ => None
  end.

(** ** Vocabulary of the statements *)

(** [sub] occurs in [s]. *)
Definition Substring (sub s : string) : Prop :=
  exists before after, s = before +:+ sub +:+ after.

(** Every byte of [s] satisfies [p]; the first byte of [s] does. *)
Fixpoint all_chars (p : ascii -> bool) (s : string) : bool :=
  match s with
  | EmptyString => true
  | String c s' => p c && all_chars p s'
  end.

Definition starts_with (p : ascii -> bool) (s : string) : bool :=
  match s with
  | EmptyString => false
  | String c _ => p c
  end.

(** The first character of [gs] satisfies [p]. *)
Definition begins (p : string -> bool) (gs : list string) : bool :=
  match gs with
  | [] => false
  | g :: _ => p g
  end.

(** No character of [s] is a digit or a comma. *)
Definition no_digit_or_comma (s : string) : bool :=
  forallb (fun g => negb (is_digit_or_comma g)) (Py.chars s).

(** The row has exactly the standard headers, in order. *)
Definition has_standard_keys (r : row) : Prop := map fst r = STANDARD_HEADERS.

(** An entry of [specifications] on which the material scan does not fail:
    when it is a dict with a [key] and a [value], the key is a string. *)
Definition spec_key_ok (spec : json) : bool :=
  match spec with
  | JDict spec =>
      match Py.get "key" spec, Py.get "value" spec with
      | Some (JStr _), Some _ => true
      | Some _, Some _ => false
      | _, _ => true
      end
  | _ => true
  end.

Definition specifications_ok (record : dict) : bool :=
  match Py.get "specifications" record with
  | Some (JList specs) => forallb spec_key_ok specs
  | _ => true
  end.

(** [record['buybox_winner']['price']] when [buybox_winner] is a dict that
    has a [price]. *)
Definition nested_price (record : dict) : option json :=
  match Py.get "buybox_winner" record with
  | Some (JDict buybox_winner) => Py.get "price" buybox_winner
  | _ => None
  end.

(** What the loop over the remaining fields leaves in an empty column [c]:
    the string form of the first field, outside the processed ones, that
    [map_field_name] sends to [c] and whose string form is not empty. *)
Fixpoint residual_fill (c : string) (items : dict) : string :=
  match items with
  | [] => ""
  | (field, value) :: rest =>
      if negb (Py.mem field PROCESSED_FIELDS)
         && String.eqb (map_field_name field) c
         && Py.nonempty (Py.str value)
      then Py.str value
      else residual_fill c rest
  end.

(** A field that the loop over the remaining fields writes into the column
    [c] when it finds the column empty: a field outside the processed ones
    that [map_field_name] sends to [c] and whose string form is not
    empty. *)
Definition fills (c : string) (item : string * json) : bool :=
  negb (Py.mem (fst item) PROCESSED_FIELDS)
  && String.eqb (map_field_name (fst item)) c
  && Py.nonempty (Py.str (snd item)).

(** The three price columns of a row all hold [v]. *)
Definition price_columns (r : row) (v : string) : Prop :=
  row_get "Rate" r = v /\ row_get "Purchase Rate" r = v /\
  row_get "CF.Cost" r = v.

(** The reading of the price rule in which an empty nested price falls
    back to the top-level price and nothing else fills the price columns. *)
Definition price_as_claimed (record : dict) (r : row) : Prop :=
  let top_level :=
    match Py.get "price" record with
    | Some raw => price_columns r (extract_price raw)
    | None => price_columns r ""
    end in
  match nested_price record with
  | Some raw =>
      if Py.nonempty (extract_price raw)
      then price_columns r (extract_price raw)
      else top_level
  | None => top_level
  end.

(** The five columns that carry fixed values. *)
Definition CONSTANT_COLUMNS : list (string * string) :=
  [ ("Source", "HD"); ("Purchase Account", "HD"); ("Vendor", "HD");
    ("CF.Markup", "43%"); ("CF.Supplier", "HD") ].

(** Records used as examples. *)
Definition hammer : dict :=
  [ ("item_id", JStr "42"); ("title", JStr "Hammer");
    ("buybox_winner", JDict [("price", JStr "$19.99")]) ].

Definition empty_nested_price : dict :=
  [ ("buybox_winner", JDict [("price", JStr "")]); ("price", JStr "5") ].

Definition sale_price_only : dict := [ ("sale_price", JStr "9.99") ].

Definition numeric_spec_key : dict :=
  [ ("specifications",
     JList [JDict [("key", JInt 1); ("value", JStr "x")]]) ].

Definition sku_only : dict := [ ("sku", JStr "A-1") ].

Definition sku_only_row : row :=
  [ ("Item ID", ""); ("Item Name", ""); ("SKU", "A-1"); ("Description", "");
    ("Rate", ""); ("Source", "HD"); ("Reference ID", ""); ("Usage unit", "");
    ("Purchase Rate", ""); ("Purchase Account", "HD"); ("Vendor", "HD");
    ("Item Type", ""); ("Is Combo Product", ""); ("CF.Manufacturer", "");
    ("CF.URL", ""); ("CF.Markup", "43%"); ("CF.Description", "");
    ("CF.Supplier", "HD"); ("CF.Material", ""); ("CF.Cost", "") ].

Definition title_only : dict := [ ("title", JStr "Hammer") ].

(** A result that reports errors. *)
Definition has_errors (r : file_result) : bool :=
  match errors r with [] => false | _ => true end.

(** What a worker still has to do: two accesses for each item left, one
    for a key that waits to be stored. *)
Definition work_left (w : worker) : nat :=
  2 * length (w_todo w) + match w_pending w with Some _ => 1 | None => 0 end.

(** The count of records of a result is the number of its rows. *)
Definition counts_rows (r : file_result) : Prop :=
  record_count r = length (standardized_data r).



(** The files of a directory read one after the other on one dict of known
    keys, as the loop of [test_web_conversion.py] does. *)
Fixpoint process_files (read_text : string -> Py.result string)
         (json_loads : string -> Py.result json) (now : string)
         (json_files : list string) (known_records : gset string)
  : list file_result * gset string :=
  match json_files with
  | [] => ([], known_records)
  | file_path :: rest =>
      let '(r, known_records) :=
        process_json_file read_text json_loads now file_path known_records in
      let '(rs, known_records) :=
        process_files read_text json_loads now rest known_records in
      (r :: rs, known_records)
  end.

(** The keys of the rows that a list of results accepted as new. *)
Definition accepted_keys (now : string) (results : list file_result)
  : list string :=
  concat (map (fun r => map (generate_record_key now) (standardized_data r))
              results).

(** A worker that has returned [r] for [file_path]. *)
Definition returned (file_path : string) (r : file_result) : worker :=
  mk_worker file_path [] None None r.

(** A turn in which nothing comes between a worker's test of a key and the
    store that follows it: worker [i] runs, and runs again when it is left
    with a key to store. *)
Definition atomic_step (now : string) (i : nat) (p : pool) : option pool :=
  match pool_step now i p with
  | Some p1 =>
      match workers p1 !! i with
      | Some w =>
          match w_pending w with
          | Some _ => pool_step now i p1
          | None => Some p1
          end
      | None => Some p1
      end
  | None => None
  end.

Fixpoint run_atomic (now : string) (schedule : list nat) (p : pool)
  : option pool :=
  match schedule with
  | [] => Some p
  | i :: schedule' =>
      match atomic_step now i p with
      | Some p' => run_atomic now schedule' p'
      | None => None
      end
  end.

(** The keys of the rows the workers of a pool have accepted so far. *)
Definition pool_keys (now : string) (p : pool) : list string :=
  accepted_keys now (map w_result (workers p)).

(** No worker of the pool is between a test and a store, none has a dict of
    its own, no key was accepted twice and every accepted key is in the
    shared dict. *)
Definition settled (now : string) (p : pool) : Prop :=
  Forall (fun w => w_pending w = None /\ w_private w = None) (workers p) /\
  NoDup (pool_keys now p) /\
  (forall k, k ∈ pool_keys now p -> k ∈ shared p).

(** The probes of [run_conversion] for a description, on the search result
    [product] (the dict that holds the nested [product], the [snippet], the
    [content_spec] and the [specifications]). *)
Fixpoint spec_description (specs : list json) : option json :=
  match specs with
  | [] => None
  | JDict spec :: rest =>
      match Py.get "key" spec, Py.get "value" spec with
      | Some key, Some value =>
          if is_description_key key && Py.truthy value then Some value
          else spec_description rest
      | _, _ => spec_description rest
      end
  | _ :: rest => spec_description rest
  end.

Definition probe_snippet (product : dict) : option json :=
  get_truthy "snippet" product.

Definition probe_content_spec (product : dict) : option json :=
  match Py.get "content_spec" product with
  | Some (JDict content_spec) => get_truthy "description" content_spec
  | _ => None
  end.

Definition probe_specifications (product : dict) : option json :=
  match Py.get "specifications" product with
  | Some (JList specs) => spec_description specs
  | _ => None
  end.

(** The first probe that found a value. *)
Fixpoint first_hit (probes : list (option json)) : option json :=
  match probes with
  | [] => None
  | Some v :: _ => Some v
  | None :: rest => first_hit rest
  end.

(** The description of the dict handed to [standardize_record]. *)
Definition enriched_description (product product_data : dict) : option json :=
  match get_truthy "description" product with
  | Some v => Some v
  | None =>
      if lacks_description product_data then
        match first_hit [ probe_snippet product; probe_content_spec product;
                          probe_specifications product ] with
        | Some v => Some v
        | None =>
            match Py.get "title" product_data with
            | Some title => Some title
            | None => Py.get "description" product_data
            end
        end
      else Py.get "description" product_data
  end.

(** What a probe does to the dict: its value becomes the description when
    the description is still missing. *)
Definition copy_if_missing (probe : option json) (pd : dict) : dict :=
  match (if lacks_description pd then probe else None) with
  | Some v => Py.set "description" v pd
  | None => pd
  end.

(** The values the log lines slice can all be sliced. *)
Definition can_preview (v : json) : bool :=
  match v with
  | JStr _ | JList _ => true
  | _ => false
  end.

Definition probe_ok (probe : option json) : bool :=
  match probe with
  | Some v => can_preview v
  | None => true
  end.

Fixpoint specs_preview_ok (specs : list json) : bool :=
  match specs with
  | [] => true
  | JDict spec :: rest =>
      match Py.get "key" spec, Py.get "value" spec with
      | Some key, Some value =>
          if is_description_key key && Py.truthy value
          then can_preview value && specs_preview_ok rest
          else specs_preview_ok rest
      | _, _ => specs_preview_ok rest
      end
  | _ :: rest => specs_preview_ok rest
  end.

Definition previews_ok (product : dict) : bool :=
  probe_ok (get_truthy "description" product)
  && probe_ok (probe_snippet product)
  && probe_ok (probe_content_spec product)
  && match Py.get "specifications" product with
     | Some (JList specs) => specs_preview_ok specs
     | _ => true
     end.

(** A page of search results whose only element has a snippet. *)
Definition pipe_result : dict :=
  [ ("product", JDict [("item_id", JStr "7")]);
    ("snippet", JStr "Galvanized pipe") ].

Definition search_page : json :=
  JDict [("search_results", JList [JDict pipe_result])].

(** An example directory: two files that describe the product 42, one
    whose text is cut short and a page of search results.  The texts are named, not spelled out; the
    decoder is [json.loads] on these three texts. *)
Definition example_read_text (path : string) : Py.result string :=
  if String.eqb path "a.json" then Py.Ok "hammer"
  else if String.eqb path "b.json" then Py.Ok "hammer v2"
  else if String.eqb path "c.json" then Py.Ok "cut short"
  else if String.eqb path "s.json" then Py.Ok "search page"
  else Py.Raise (Py.OtherError
         ("[Errno 2] No such file or directory: " +:+ Py.repr_str path)).

Definition example_json_loads (text : string) : Py.result json :=
  if String.eqb text "hammer" then
    Py.Ok (JDict [("product", JDict hammer)])
  else if String.eqb text "hammer v2" then
    Py.Ok (JDict [("product",
                   JDict [("item_id", JStr "42"); ("title", JStr "Hammer v2")])])
  else if String.eqb text "search page" then Py.Ok search_page
  else Py.Raise (Py.JSONDecodeError
         "Expecting ',' delimiter: line 1 column 40 (char 39)").

Definition example_glob (pattern : string) : list string :=
  if String.eqb pattern "*.json" then ["a.json"; "b.json"; "c.json"] else [].

(** A name without a capital letter of the ASCII alphabet. *)
Definition is_capital (c : ascii) : bool :=
  (65 <=? Py.byte c)%N && (Py.byte c <=? 90)%N.

Definition is_lower (s : string) : bool :=
  all_chars (fun c => negb (is_capital c)) s.

(** The entries of [FIELD_MAPPING] whose key is in lower case. *)
Definition lowercase_entries : list (string * string) :=
  List.filter (fun st => is_lower (fst st)) FIELD_MAPPING.

(** The entries of a table that the scan for a substring can return: those
    whose key holds none of the keys before it. *)
Fixpoint scan_entries (earlier : list string) (table : list (string * string))
  : list (string * string) :=
  match table with
  | [] => []
  | (source, target) :: rest =>
      if existsb (fun e => Py.contains e source) earlier
      then scan_entries (source :: earlier) rest
      else (source, target) :: scan_entries (source :: earlier) rest
  end.

(** The entries the scan of [map_field_name] can return. *)
Definition effective_entries : list (string * string) :=
  scan_entries [] lowercase_entries.

(** The row of a record without data: the fixed values and nothing else. *)
Definition constants_row : row :=
  map (fun header => (header, default "" (Py.get header CONSTANT_COLUMNS)))
      STANDARD_HEADERS.

(** A row whose only data is the Item ID [id]. *)
Definition row_with_id (id : string) : row :=
  Py.set "Item ID" id constants_row.

(** The characters of an ASCII text: its bytes. *)
Fixpoint letters (s : string) : list string :=
  match s with
  | EmptyString => []
  | String c s' => String c "" :: letters s'
  end.

(** An ASCII character that [str.strip] keeps at an end. *)
Definition not_space (c : ascii) : bool := negb (Py.is_space (String c "")).

(** A row without Item ID and SKU, with a name and a description. *)
Definition row_described (name description : string) : row :=
  Py.set "Description" description (Py.set "Item Name" name constants_row).

Definition fifty_characters : string :=
  "Schedule 40 PVC pipe, plain end, white, 10 ft long".

(** The value under the first of [keys] that the dict has, and under the
    first of them that it has with a truthy value. *)
Fixpoint first_present (keys : list string) (d : dict) : option json :=
  match keys with
  | [] => None
  | k :: keys' =>
      match Py.get k d with
      | Some v => Some v
      | None => first_present keys' d
      end
  end.

Fixpoint first_truthy (keys : list string) (d : dict) : option json :=
  match keys with
  | [] => None
  | k :: keys' =>
      match get_truthy k d with
      | Some v => Some v
      | None => first_truthy keys' d
      end
  end.

(** The text a found value gives a column. *)
Definition text_of (found : option json) : string :=
  match found with
  | Some v => Py.str v
  | None => ""
  end.

(** The first of the candidate texts that is not empty. *)
Fixpoint first_nonempty (candidates : list string) : string :=
  match candidates with
  | [] => ""
  | s :: rest => if Py.nonempty s then s else first_nonempty rest
  end.

(** [record['identifiers']] when it is a dict. *)
Definition nested_identifiers (record : dict) : dict :=
  match Py.get "identifiers" record with
  | Some (JDict identifiers) => identifiers
  | _ => []
  end.

(** The category the direct rule reads: [category], or the first of
    [categories]. *)
Definition category_of (record : dict) : option json :=
  match get_truthy "category" record with
  | Some v => Some v
  | None =>
      match get_truthy "categories" record with
      | Some (JList (first :: _)) => Some first
      | _ => None
      end
  end.

(** The value of a specification whose key reads material or materials. *)
Definition material_value (spec : json) : option json :=
  match spec with
  | JDict spec =>
      match Py.get "key" spec, Py.get "value" spec with
      | Some (JStr key), Some value =>
          if Py.mem (Py.lower key) ["material"; "materials"]
          then Some value else None
      | _, _ => None
      end
  | _ => None
  end.

(** [record['specifications']] when it is a list. *)
Definition specifications_of (record : dict) : list json :=
  match Py.get "specifications" record with
  | Some (JList specs) => specs
  | _ => []
  end.

(** The row when the direct rules before the material scan have run. *)
Definition extracted (record : dict) : row :=
  extract_url record
    (extract_category record
       (extract_brand record
          (set_price record
             (extract_description record
                (extract_name record
                   (extract_identifiers record
                      (extract_sku record
                         (extract_item_id record
                            (set_defaults blank_row))))))))).

(** The text the direct rule gives Description and CF.Description. *)
Definition description_of (record : dict) : string :=
  match first_truthy ["description"; "details"; "title"] record with
  | Some v => Py.str v
  | None => text_of (first_present ["title"; "name"] record)
  end.

(** The value of the last specification that reads material. *)
Fixpoint last_material (specs : list json) : option json :=
  match specs with
  | [] => None
  | spec :: rest =>
      match last_material rest with
      | Some v => Some v
      | None => material_value spec
      end
  end.

(** A record whose title is null, and one with two material entries. *)
Definition null_title : dict := [ ("title", JNull); ("name", JStr "Hammer") ].

Definition two_materials : dict :=
  [ ("specifications",
     JList [ JDict [("key", JStr "Material"); ("value", JStr "Steel")];
             JDict [("key", JStr "Color"); ("value", JStr "Black")];
             JDict [("key", JStr "materials"); ("value", JStr "Wood")] ]);
    ("material", JStr "Plastic") ].

Definition branded : dict :=
  [ ("brand", JStr "Acme"); ("manufacturer", JStr "Acme Corp.");
    ("categories", JList [JStr "Tools"; JStr "Hand tools"]);
    ("url", JStr "https://example.com/p/1"); ("link", JStr "") ].

Definition with_reference : dict :=
  [ ("referenceId", JStr "R-1"); ("Ref_ID", JStr "R-2");
    ("Is Combo Product", JBool false) ].

(** An element of a list document that makes the shape tests index the
    list: one of the three names they look for. *)
Definition names_shape_key (x : json) : bool :=
  match x with
  | JStr s => Py.mem s ["product"; "search_results"; "products"]
  | _ => false
  end.

Definition is_scalar (v : json) : bool :=
  match v with
  | JNull | JBool _ | JInt _ | JFloat _ => true
  | _ => false
  end.

(** A record without its top-level [price]. *)
Definition without_price (record : dict) : dict :=
  List.filter (fun kv : string * json => negb (String.eqb (fst kv) "price"))
              record.

(** The value under [k] is not a dict. *)
Definition no_dict_under (k : string) (d : dict) : bool :=
  match Py.get k d with
  | Some (JDict _) => false
  | _ => true
  end.

(** A product document with its price beside the product. *)
Definition priced_document : dict :=
  [ ("product", JDict [("item_id", JStr "42"); ("price", JStr "1.00")]);
    ("buybox_winner", JDict [("price", JStr "$19.99")]) ].

(** A page of search results: a product with its offers, an element
    without data and an element that is not a dict. *)
Definition offers_page : dict :=
  [ ("search_results",
     JList [ JDict [ ("product", JDict [("item_id", JStr "7")]);
                     ("offers", JDict [("primary", JDict [("price", JInt 3)])]) ];
             JDict [ ("position", JInt 2) ];
             JStr "advertisement" ]) ].

(** The keys of a list of rows. *)
Definition row_keys (now : string) (rows : list row) : list string :=
  map (generate_record_key now) rows.

(** The loop of [process_json_file] over the items of a file. *)
Definition process_items (now file_path : string) (items : list json)
           (st : file_result * gset string) : file_result * gset string :=
  fold_left (fun st item => process_item now file_path item st) items st.

(** The items of a file that standardize, and the messages of those that
    do not. *)
Definition is_keyed (now file_path : string) (item : json) : bool :=
  match attempt_item now file_path item with
  | Keyed _ _ => true
  | Failed _ => false
  end.

Definition failure_of (now file_path : string) (item : json) : option string :=
  match attempt_item now file_path item with
  | Keyed _ _ => None
  | Failed msg => Some msg
  end.

(** What a worker has when the key it tested absent is stored, and what
    it returns when it then runs to the end with no other worker touching
    the dict [known]. *)
Definition settle (w : worker) (known : gset string)
  : file_result * gset string :=
  match w_pending w with
  | Some (record_key, standardized) =>
      (add_record standardized (w_result w), {[record_key]} ∪ known)
  | None => (w_result w, known)
  end.

Definition outcome (now : string) (w : worker) (known : gset string)
  : file_result * gset string :=
  process_items now (w_path w) (w_todo w) (settle w known).

(** The result of a worker that has a dict of its own. *)
Definition final_result (now : string) (w : worker) : file_result :=
  fst (outcome now w (default ∅ (w_private w))).

Definition has_private (w : worker) : bool :=
  match w_private w with Some _ => true | None => false end.

(** A file with the same product twice. *)
Definition twice_read_text (path : string) : Py.result string :=
  Py.Ok "two hammers".

Definition twice_json_loads (text : string) : Py.result json :=
  Py.Ok (JList [JDict hammer; JDict hammer]).

(** The rows, counts and errors of two runs put end to end. *)
Definition conversion_app (c d : conversion) : conversion :=
  mk_conversion (web_rows c ++ web_rows d)
                (web_records_processed c + web_records_processed d)
                (web_files_processed c + web_files_processed d)
                (web_files_with_errors c + web_files_with_errors d)
                (web_errors c ++ web_errors d).

(** What the loop keeps true of its state. *)
Definition conversion_ok (c : conversion) : Prop :=
  web_records_processed c = length (web_rows c) /\
  Forall (fun r => has_data r = true /\ has_standard_keys r) (web_rows c) /\
  length (web_errors c) = web_files_with_errors c.

(** The value under [k] in a decoded document is something else than a
    dict, or [k] is not there. *)
Definition not_a_dict (found : option json) : bool :=
  match found with
  | Some (JDict _) => false
  | _ => true
  end.

(** An upload directory: a product, a page of search results, an empty
    object and a file that is not JSON. *)
Definition upload_read_text (path : string) : Py.result string :=
  if String.eqb path "uploads/hammer.json" then Py.Ok "hammer"
  else if String.eqb path "uploads/page.json" then Py.Ok "search page"
  else if String.eqb path "uploads/empty.json" then Py.Ok "{}"
  else Py.Ok "cut short".

Definition upload_json_loads (text : string) : Py.result json :=
  if String.eqb text "{}" then Py.Ok (JDict [("product", JDict [])])
  else example_json_loads text.

Definition upload_basename (path : string) : string :=
  if String.eqb path "uploads/hammer.json" then "hammer.json"
  else if String.eqb path "uploads/page.json" then "page.json"
  else if String.eqb path "uploads/empty.json" then "empty.json"
  else path.

(** A product file whose description is in [description_full]. *)
Definition full_description : dict :=
  [ ("title", JStr "Hammer"); ("description", JStr "");
    ("description_full", JStr "A 16 oz claw hammer");
    ("long_description", JStr "Forged steel head, hickory handle") ].

(** A character of a number once the commas are gone. *)
Definition is_digit_or_dot (g : string) : bool :=
  is_digit g || String.eqb g ".".

Definition is_group_char (g : string) : bool :=
  is_digit_or_comma g || String.eqb g ".".

(** The items a worker accounts for as records or duplicates: those it
    has counted, the key that waits to be stored and the items left that
    standardize; and the errors it has and will have. *)
Definition worker_tally (now : string) (w : worker) : nat :=
  record_count (w_result w) + duplicate_count (w_result w)
  + match w_pending w with Some _ => 1 | None => 0 end
  + length (List.filter (is_keyed now (w_path w)) (w_todo w)).

Definition worker_errors (now : string) (w : worker) : list string :=
  errors (w_result w) ++ omap (failure_of now (w_path w)) (w_todo w).

(** What a result says of its items: how many were records or duplicates,
    and the errors. *)
Definition accounted (r : file_result) : nat * list string :=
  (record_count r + duplicate_count r, errors r).

(** The items of a file; none when it cannot be loaded. *)
Definition items_of (read_text : string -> Py.result string)
           (json_loads : string -> Py.result json) (file_path : string)
  : list json :=
  match load_items read_text json_loads file_path with
  | inl items => items
  | inr _ => []
  end.

(** A worker on the shared dict [known] has lost no key: the key of every
    item it has treated is in the dict or waits to be stored. *)
Definition worker_kept (read_text : string -> Py.result string)
           (json_loads : string -> Py.result json) (now : string)
           (known : gset string) (w : worker) : Prop :=
  w_private w = None /\
  (forall k s, w_pending w = Some (k, s) -> k = generate_record_key now s) /\
  exists treated,
    items_of read_text json_loads (w_path w) = treated ++ w_todo w /\
    forall item k s,
      In item treated ->
      attempt_item now (w_path w) item = Keyed k s ->
      k ∈ known \/ exists s', w_pending w = Some (k, s').

Definition pool_kept (read_text : string -> Py.result string)
           (json_loads : string -> Py.result json) (now : string)
           (json_files : list string) (p : pool) : Prop :=
  map w_path (workers p) = json_files /\
  Forall (worker_kept read_text json_loads now (shared p)) (workers p) /\
  (forall k, k ∈ shared p -> k ∈ pool_keys now p).

(** * Properties *)

(** ** Strings *)

Lemma append_nil_l (s : string) : "" +:+ s = s.
Proof. reflexivity. Qed.

Lemma append_cons (c : ascii) (s t : string) :
  String c s +:+ t = String c (s +:+ t).
Proof. reflexivity. Qed.

Lemma append_nil_r (s : string) : s +:+ "" = s.
Proof.
  induction s as [|c s IH]; [reflexivity|]. now rewrite append_cons, IH.
Qed.

Lemma append_assoc (a b c : string) : (a +:+ b) +:+ c = a +:+ b +:+ c.
Proof.
  induction a as [|x a IH]; [reflexivity|]. now rewrite !append_cons, IH.
Qed.

Lemma prefix_spec (p s : string) :
  String.prefix p s = true <-> exists after, s = p +:+ after.
Proof.
  revert s; induction p as [|c p IH]; intros [|d s]; simpl.
  - split; [now exists "" | reflexivity].
  - split; [now exists (String d s) | reflexivity].
  - split; [discriminate | intros [after H]; discriminate].
  - destruct (ascii_dec c d) as [->|Hne].
    + rewrite IH. split; intros [after H]; exists after.
      * now rewrite append_cons, H.
      * rewrite append_cons in H. now injection H.
    + split; [discriminate |].
      intros [after H]. rewrite append_cons in H. injection H. congruence.
Qed.

Lemma contains_spec (sub s : string) :
  Py.contains sub s = true <-> Substring sub s.
Proof.
  induction s as [|c s IH]; cbn [Py.contains].
  - rewrite orb_false_r, prefix_spec. split.
    + intros [after H]. now exists "", after.
    + intros [[|x before] [after H]]; [now exists after | discriminate].
  - rewrite orb_true_iff, prefix_spec, IH. split.
    + intros [[after H] | [before [after H]]].
      * now exists "", after.
      * exists (String c before), after. now rewrite append_cons, H.
    + intros [[|x before] [after H]].
      * left. now exists after.
      * right. rewrite append_cons in H. injection H as -> H.
        now exists before, after.
Qed.

(** The characters of a text, put together, give the text. *)
Lemma text_cons (g : string) (gs : list string) :
  Py.text (g :: gs) = g +:+ Py.text gs.
Proof. reflexivity. Qed.

Lemma text_app (a b : list string) :
  Py.text (a ++ b) = Py.text a +:+ Py.text b.
Proof.
  induction a as [|g a IH]; [reflexivity|].
  cbn [app Py.text fold_right]. fold (Py.text a) (Py.text (a ++ b)).
  now rewrite IH, append_assoc.
Qed.

Lemma text_chars (s : string) : Py.text (Py.chars s) = s.
Proof.
  induction s as [|c s IH]; [reflexivity|]. cbn [Py.chars].
  destruct (Py.chars s) as [|g gs]; [now rewrite <- IH|].
  destruct (negb (Py.is_ascii c) && Py.continues g);
    cbn [Py.text fold_right] in *; now rewrite <- IH.
Qed.

(** ** Characters *)

Lemma byte_of_N (k : N) : (k < 256)%N -> Py.byte (ascii_of_N k) = k.
Proof. apply N_ascii_embedding. Qed.

Lemma chars_cons_ascii (c : ascii) (s : string) :
  Py.is_ascii c = true -> Py.chars (String c s) = String c "" :: Py.chars s.
Proof.
  intros H. cbn [Py.chars]. rewrite H. now destruct (Py.chars s).
Qed.

(** The first character of a text starts with its first byte. *)
Lemma chars_head (c : ascii) (s : string) :
  exists g gs, Py.chars (String c s) = String c g :: gs.
Proof.
  cbn [Py.chars]. destruct (Py.chars s) as [|g gs]; [now exists "", []|].
  destruct (negb (Py.is_ascii c) && Py.continues g); eauto.
Qed.

Lemma chars_app (a b : string) :
  Py.continues b = false -> Py.chars (a +:+ b) = Py.chars a ++ Py.chars b.
Proof.
  intros Hb. induction a as [|c a IH]; [reflexivity|].
  rewrite append_cons. cbn [Py.chars]. rewrite IH.
  destruct (Py.chars a) as [|g gs];
    [|cbn [app]; now destruct (negb (Py.is_ascii c) && Py.continues g)].
  cbn [app]. destruct b as [|d b]; [reflexivity|].
  destruct (chars_head d b) as (g & gs & ->).
  cbn [Py.continues] in *. now rewrite Hb, andb_false_r.
Qed.

(** A character is an ASCII byte or is made of other bytes only. *)
Lemma chars_shape (s : string) :
  Forall (fun g => (exists c, g = String c "" /\ Py.is_ascii c = true) \/
                   all_chars (fun c => negb (Py.is_ascii c)) g = true)
         (Py.chars s).
Proof.
  induction s as [|c s IH]; [constructor|]. cbn [Py.chars].
  assert (Hc : (exists c', String c "" = String c' "" /\ Py.is_ascii c' = true)
               \/ all_chars (fun c => negb (Py.is_ascii c)) (String c "")
                  = true).
  { destruct (Py.is_ascii c) eqn:E; [left; eauto | right; simpl; now rewrite E]. }
  destruct (Py.chars s) as [|g gs]; [now constructor|].
  apply Forall_cons in IH as [Hg Hgs].
  destruct (negb (Py.is_ascii c) && Py.continues g) eqn:E.
  - apply andb_true_iff in E as [Hn Hcont]. constructor; [|assumption].
    right. destruct Hg as [(c' & -> & Hc') | Hg].
    + cbn [Py.continues] in Hcont. unfold Py.is_continuation in Hcont.
      unfold Py.is_ascii in Hc'. apply andb_true_iff in Hcont as [H1 _].
      apply N.leb_le in H1. apply N.ltb_lt in Hc'. lia.
    + simpl. now rewrite Hn, Hg.
  - constructor; [assumption|]. now constructor.
Qed.

Lemma point_ascii (c : ascii) :
  Py.is_ascii c = true -> Py.point (String c "") = Some (Py.byte c).
Proof.
  intros H. unfold Py.point, Py.decode. unfold Py.is_ascii in H.
  rewrite H. unfold Py.utf8. rewrite H. unfold Py.byte.
  now rewrite ascii_N_embedding, String.eqb_refl.
Qed.

(** ** Dicts *)

Lemma get_None {V : Type} (k : string) (d : list (string * V)) :
  Py.get k d = None <-> ~ In k (map fst d).
Proof.
  induction d as [|[k' v] d IH]; simpl; [tauto|].
  destruct (String.eqb_spec k k') as [->|Hne].
  - split; [discriminate | intros H; destruct H; now left].
  - rewrite IH. split; [intros H [E|I]; congruence | tauto].
Qed.

Lemma get_In {V : Type} (k : string) (v : V) (d : list (string * V)) :
  List.NoDup (map fst d) -> In (k, v) d -> Py.get k d = Some v.
Proof.
  induction d as [|[k' v'] d IH]; simpl; [tauto|].
  intros Hnd [E | I]; apply List.NoDup_cons_iff in Hnd as [Hni Hnd].
  - injection E as -> ->. now rewrite String.eqb_refl.
  - destruct (String.eqb_spec k k') as [->|Hne]; [|auto].
    destruct Hni. change k' with (fst (k', v)). now apply in_map.
Qed.

Lemma get_set_eq {V : Type} (k : string) (v : V) (d : list (string * V)) :
  Py.get k (Py.set k v d) = Some v.
Proof.
  induction d as [|[k' v'] d IH]; simpl.
  - now rewrite String.eqb_refl.
  - destruct (String.eqb_spec k k') as [->|Hne]; simpl.
    + now rewrite String.eqb_refl.
    + now destruct (String.eqb_spec k k').
Qed.

Lemma get_set_ne {V : Type} (k k' : string) (v : V) (d : list (string * V)) :
  k <> k' -> Py.get k' (Py.set k v d) = Py.get k' d.
Proof.
  intros Hne. induction d as [|[k0 v0] d IH]; simpl.
  - now destruct (String.eqb_spec k' k); [congruence|].
  - destruct (String.eqb_spec k k0) as [->|Hne0]; simpl.
    + now destruct (String.eqb_spec k' k0); [congruence|].
    + now rewrite IH.
Qed.

Lemma keys_set {V : Type} (k : string) (v : V) (d : list (string * V)) :
  In k (map fst d) -> map fst (Py.set k v d) = map fst d.
Proof.
  induction d as [|[k0 v0] d IH]; simpl; [tauto|].
  intros [E | I].
  - subst. now rewrite String.eqb_refl.
  - destruct (String.eqb_spec k k0); simpl; [reflexivity | now rewrite IH].
Qed.

Lemma mem_In (x : string) (xs : list string) : Py.mem x xs = true <-> In x xs.
Proof.
  unfold Py.mem. rewrite existsb_exists. split.
  - intros [y [Hy E]]. apply String.eqb_eq in E. now subst.
  - intros H. exists x. now rewrite String.eqb_refl.
Qed.

(** ** [map_field_name] *)

Lemma find_first {A : Type} (f : A -> bool) (before after : list A) (x : A) :
  (forall y, In y before -> f y = false) -> f x = true ->
  find f (before ++ x :: after) = Some x.
Proof.
  intros Hb Hx. induction before as [|y before IH]; simpl.
  - now rewrite Hx.
  - rewrite (Hb y) by now left. apply IH. intros z Hz. apply Hb. now right.
Qed.

Lemma find_nowhere {A : Type} (f : A -> bool) (l : list A) :
  (forall y, In y l -> f y = false) -> find f l = None.
Proof.
  intros H. induction l as [|y l IH]; simpl; [reflexivity|].
  rewrite (H y) by now left. apply IH. intros z Hz. apply H. now right.
Qed.

Lemma FIELD_MAPPING_keys_NoDup : List.NoDup (map fst FIELD_MAPPING).
Proof.
  apply NoDup_ListNoDup, (bool_decide_unpack _). vm_compute. reflexivity.
Qed.

Lemma not_contains (sub s : string) :
  ~ Substring sub s -> Py.contains sub s = false.
Proof.
  intros H. destruct (Py.contains sub s) eqn:E; [|reflexivity].
  now apply contains_spec in E.
Qed.

Lemma no_key_occurs (name : string) :
  forallb (fun st : string * string => negb (Py.contains (fst st) name))
          FIELD_MAPPING = true ->
  forall s t, In (s, t) FIELD_MAPPING -> ~ Substring s name.
Proof.
  intros H s t Hin Hsub. rewrite forallb_forall in H.
  apply H in Hin. simpl in Hin. apply contains_spec in Hsub.
  now rewrite Hsub in Hin.
Qed.

(** The scan of the table: the first entry whose key occurs in the
    lower-cased name decides. *)
Lemma map_field_name_first_match (field_name : string)
      (before after : list (string * string)) (source target : string) :
  ~ In (Py.lower field_name) (map fst FIELD_MAPPING) ->
  FIELD_MAPPING = before ++ (source, target) :: after ->
  Substring source (Py.lower field_name) ->
  (forall s t, In (s, t) before -> ~ Substring s (Py.lower field_name)) ->
  map_field_name field_name = target.
Proof.
  intros Hkey Heq Hsub Hbefore. unfold map_field_name.
  apply get_None in Hkey. rewrite Hkey, Heq.
  rewrite (find_first _ before after (source, target)); [reflexivity | |].
  - intros [s t] Hy. simpl. apply not_contains. eauto.
  - simpl. now apply contains_spec.
Qed.

(** C5. [map_field_name] compares the lower-cased name: a name whose
    lower-cased form is a key of the mapping table gets that entry's
    canonical name; otherwise the table is scanned in definition order and
    the first entry whose key occurs in the lower-cased name gives the
    result (so ["subcategory"] gets the canonical name of ["category"]);
    and when no key occurs in it, the name is returned unchanged. *)
Theorem map_field_name_spec (field_name : string) :
  (forall target,
      In (Py.lower field_name, target) FIELD_MAPPING ->
      map_field_name field_name = target) /\
  (~ In (Py.lower field_name) (map fst FIELD_MAPPING) ->
   forall before source target after,
     FIELD_MAPPING = before ++ (source, target) :: after ->
     Substring source (Py.lower field_name) ->
     (forall s t, In (s, t) before -> ~ Substring s (Py.lower field_name)) ->
     map_field_name field_name = target) /\
  (~ In (Py.lower field_name) (map fst FIELD_MAPPING) ->
   (forall s t, In (s, t) FIELD_MAPPING ->
                ~ Substring s (Py.lower field_name)) ->
   map_field_name field_name = field_name) /\
  (map_field_name "subcategory" = "Item Type" /\
   In ("category", "Item Type") FIELD_MAPPING).
Proof.
  unfold map_field_name. repeat split.
  - intros target Hin.
    now rewrite (get_In _ _ _ FIELD_MAPPING_keys_NoDup Hin).
  - intros Hkey before source target after Heq Hsub Hbefore.
    now apply (map_field_name_first_match field_name before after source).
  - intros Hkey Hnone. apply get_None in Hkey. rewrite Hkey.
    rewrite find_nowhere; [reflexivity|].
    intros [s t] Hy. simpl. apply not_contains. eauto.
  - apply (bool_decide_unpack _). vm_compute. reflexivity.
Qed.

Lemma map_field_name_spec_witness :
  map_field_name "Title" = "Item Name" /\
  map_field_name "dimensions" = "dimensions".
Proof.
  assert (Htitle : Py.lower "Title" = "title") by (vm_compute; reflexivity).
  assert (Hdim : Py.lower "dimensions" = "dimensions")
    by (vm_compute; reflexivity).
  split.
  - apply (proj1 (map_field_name_spec "Title")). rewrite Htitle.
    apply (bool_decide_unpack _). vm_compute. reflexivity.
  - apply (proj1 (proj2 (proj2 (map_field_name_spec "dimensions"))));
      rewrite Hdim.
    + apply (bool_decide_unpack _). vm_compute. reflexivity.
    + apply no_key_occurs. vm_compute. reflexivity.
Defined.

(** C10. A field name that is not itself a key of the table once
    lower-cased, but whose lower-cased form contains ["id"], is mapped to
    ["Item ID"]: ["id"] is the first entry of the table and the scan returns
    the first match.  So are ["width"] and ["video"]. *)
Theorem map_field_name_contains_id (field_name : string) :
  ~ In (Py.lower field_name) (map fst FIELD_MAPPING) ->
  Substring "id" (Py.lower field_name) ->
  map_field_name field_name = "Item ID".
Proof.
  intros Hkey Hsub.
  apply (map_field_name_first_match field_name [] (tl FIELD_MAPPING) "id");
    [assumption | reflexivity | assumption | intros s t []].
Qed.

Lemma map_field_name_contains_id_witness :
  map_field_name "width" = "Item ID" /\ map_field_name "video" = "Item ID".
Proof.
  assert (Hwidth : Py.lower "width" = "width") by (vm_compute; reflexivity).
  assert (Hvideo : Py.lower "video" = "video") by (vm_compute; reflexivity).
  split; apply map_field_name_contains_id; rewrite ?Hwidth, ?Hvideo;
    try (apply (bool_decide_unpack _); vm_compute; reflexivity).
  - now exists "w", "th".
  - now exists "v", "eo".
Defined.

(** ** [extract_price] *)

(** ** [extract_price] *)

Lemma span_run (p : string -> bool) (run rest : list string) :
  forallb p run = true -> begins p rest = false ->
  span p (run ++ rest) = (run, rest).
Proof.
  intros Hrun Hrest. induction run as [|g run IH].
  - destruct rest as [|g rest]; [reflexivity|].
    simpl in *. now rewrite Hrest.
  - simpl in Hrun. apply andb_true_iff in Hrun as [Hg Hrun].
    simpl. now rewrite Hg, IH.
Qed.

Lemma match_group_head (gs group1 : list string) :
  match_group gs = Some group1 -> begins is_digit_or_comma gs = true.
Proof.
  unfold match_group. destruct gs as [|g gs]; [discriminate|]. simpl.
  destruct (is_digit_or_comma g); [reflexivity | discriminate].
Qed.

Lemma match_group_fails (g : string) (gs : list string) :
  is_digit_or_comma g = false -> match_group (g :: gs) = None.
Proof. intros H. unfold match_group. simpl. now rewrite H. Qed.

(** The group on a text that starts with a number. *)
Lemma match_group_number (digits fraction after : list string) :
  digits <> [] -> forallb is_digit_or_comma digits = true ->
  (fraction = [] /\
   begins (fun g => is_digit_or_comma g || String.eqb g ".") after = false
   \/ exists decimals,
        fraction = "." :: decimals /\ forallb is_digit decimals = true /\
        begins is_digit after = false) ->
  match_group (digits ++ fraction ++ after) = Some (digits ++ fraction).
Proof.
  intros Hne Hdigits [[-> Hafter] | [decimals [-> [Hdec Hafter]]]];
    unfold match_group.
  - rewrite app_nil_l, app_nil_r, span_run; [| assumption |].
    + destruct digits as [|d digits]; [congruence|].
      destruct after as [|g after]; [reflexivity|]. simpl in Hafter.
      apply orb_false_iff in Hafter as [_ ->]. reflexivity.
    + destruct after as [|g after]; [reflexivity|]. simpl in *.
      now apply orb_false_iff in Hafter as [-> _].
  - rewrite span_run; [| assumption | reflexivity].
    destruct digits as [|d digits]; [congruence|].
    cbn [app]. rewrite String.eqb_refl.
    now rewrite span_run by assumption.
Qed.

Lemma search_group (gs group1 : list string) :
  match_group gs = Some group1 -> search gs = Some group1.
Proof.
  intros H. pose proof (match_group_head _ _ H) as Hhead.
  destruct gs as [|g gs]; [discriminate|]. simpl in Hhead.
  cbn [search]. unfold match_here.
  destruct (String.eqb_spec g "$") as [->|_]; [discriminate|].
  now rewrite H.
Qed.

Lemma search_skip (g : string) (gs : list string) :
  is_digit_or_comma g = false ->
  search (g :: gs) =
    match (if String.eqb g "$" then match_group gs else None) with
    | Some group1 => Some group1
    | None => search gs
    end.
Proof.
  intros H. cbn [search]. unfold match_here.
  rewrite (match_group_fails g gs H).
  destruct (String.eqb g "$"); [|reflexivity].
  now destruct (match_group gs).
Qed.

Lemma search_number (before dollar number rest : list string) :
  forallb (fun g => negb (is_digit_or_comma g)) before = true ->
  dollar = [] \/ dollar = ["$"] ->
  match_group (number ++ rest) = Some number ->
  search (before ++ dollar ++ number ++ rest) = Some number.
Proof.
  intros Hbefore Hdollar Hgroup.
  assert (Hbase : search (dollar ++ number ++ rest) = Some number).
  { destruct Hdollar as [-> | ->].
    - now apply search_group.
    - cbn [app]. rewrite search_skip by reflexivity.
      simpl. now rewrite Hgroup. }
  induction before as [|g before IH]; [exact Hbase|].
  simpl in Hbefore.
  apply andb_true_iff in Hbefore as [Hg Hbefore].
  apply negb_true_iff in Hg.
  cbn [app]. rewrite search_skip by assumption.
  destruct (String.eqb g "$"); [|now apply IH].
  destruct (match_group (before ++ dollar ++ number ++ rest)) as [group1|]
    eqn:E; [|now apply IH].
  apply match_group_head in E as Hhead.
  destruct before as [|b before].
  - destruct Hdollar as [-> | ->]; [|discriminate].
    rewrite !app_nil_l in E. congruence.
  - simpl in Hbefore. apply andb_true_iff in Hbefore as [Hb _].
    simpl in Hhead. now rewrite Hhead in Hb.
Qed.

Lemma search_none (gs : list string) :
  forallb (fun g => negb (is_digit_or_comma g)) gs = true -> search gs = None.
Proof.
  induction gs as [|g gs IH]; [reflexivity|].
  intros H. simpl in H.
  apply andb_true_iff in H as [Hg Hgs]. apply negb_true_iff in Hg.
  rewrite search_skip by assumption.
  destruct (String.eqb g "$"); [|now apply IH].
  destruct gs as [|d gs]; [reflexivity|].
  simpl in Hgs. apply andb_true_iff in Hgs as [Hd Hgs'].
  apply negb_true_iff in Hd. rewrite (match_group_fails d gs Hd).
  apply IH. simpl. now rewrite Hd, Hgs'.
Qed.

Lemma re_search_none (s : string) :
  no_digit_or_comma s = true -> re_search s = None.
Proof.
  intros H. unfold re_search. now rewrite search_none.
Qed.

(** C4. [extract_price] gives the string form of an integer or a float;
    on a string in which a number occurs (an optional dollar sign, digits
    and commas, an optional decimal part) it gives the first such number
    with its commas removed, so ["$1,234.56"] gives ["1234.56"]; on a string
    with no such match, and on a value of any other type, it gives the
    input's string form (["N/A"] gives ["N/A"]).  It is a total function:
    no input makes it fail.  The string is read character by character, and
    a digit is any decimal digit, as the pattern has it. *)
Theorem extract_price_spec :
  (forall n, extract_price (JInt n) = Py.str (JInt n)) /\
  (forall r, extract_price (JFloat r) = Py.str (JFloat r)) /\
  (forall s before dollar digits fraction after,
      Py.chars s = before ++ dollar ++ digits ++ fraction ++ after ->
      forallb (fun g => negb (is_digit_or_comma g)) before = true ->
      dollar = [] \/ dollar = ["$"] ->
      digits <> [] -> forallb is_digit_or_comma digits = true ->
      (fraction = [] /\
       begins (fun g => is_digit_or_comma g || String.eqb g ".") after
         = false
       \/ exists decimals,
            fraction = "." :: decimals /\
            forallb is_digit decimals = true /\
            begins is_digit after = false) ->
      extract_price (JStr s)
      = Py.remove_commas (Py.text (digits ++ fraction))) /\
  (forall s, no_digit_or_comma s = true -> extract_price (JStr s) = s) /\
  (forall v, (forall s, v <> JStr s) -> extract_price v = Py.str v) /\
  extract_price (JStr "$1,234.56") = "1234.56" /\
  extract_price (JInt 1999) = "1999" /\
  extract_price (JStr "N/A") = "N/A".
Proof.
  split; [reflexivity|]. split; [reflexivity|].
  split; [|split; [|split; [|repeat split; vm_compute; reflexivity]]].
  - intros s before dollar digits fraction after Hs Hb Hd Hne Hdigits Hfrac.
    unfold extract_price, re_search. rewrite Hs.
    rewrite (app_assoc digits fraction after).
    rewrite (search_number before dollar (digits ++ fraction) after);
      [reflexivity | assumption | assumption |].
    rewrite <- app_assoc. now apply match_group_number.
  - intros s Hs. unfold extract_price. now rewrite re_search_none.
  - intros v Hv. destruct v; try reflexivity. now destruct (Hv s).
Qed.

Lemma extract_price_spec_witness :
  extract_price (JStr "USD $1,234.56 each") = "1234.56" /\
  extract_price (JStr "call us") = "call us" /\
  extract_price JNull = "None".
Proof.
  destruct extract_price_spec as (_ & _ & Hnum & Hnone & Hother & _).
  split; [|split].
  - apply (Hnum "USD $1,234.56 each" ["U"; "S"; "D"; " "] ["$"]
                ["1"; ","; "2"; "3"; "4"] ["."; "5"; "6"]
                [" "; "e"; "a"; "c"; "h"]);
      [vm_compute; reflexivity | vm_compute; reflexivity | now right
      | discriminate | vm_compute; reflexivity |].
    right. exists ["5"; "6"].
    split; [reflexivity|]. split; vm_compute; reflexivity.
  - apply Hnone. vm_compute. reflexivity.
  - apply (Hother JNull). discriminate.
Defined.

(** ** [standardize_record]: keys and frames *)

#[local] Arguments Py.mem : simpl never.
#[local] Arguments Py.get : simpl never.
#[local] Arguments Py.set : simpl never.
#[local] Arguments Py.str : simpl never.
#[local] Arguments Py.nonempty : simpl never.
#[local] Arguments map_field_name : simpl never.
#[local] Arguments row_get : simpl never.

Lemma row_get_set_eq (k v : string) (r : row) :
  row_get k (Py.set k v r) = v.
Proof. unfold row_get. now rewrite get_set_eq. Qed.

Lemma row_get_set_ne (k c v : string) (r : row) :
  c <> k -> row_get c (Py.set k v r) = row_get c r.
Proof. intros H. unfold row_get. rewrite get_set_ne; [reflexivity | congruence]. Qed.

Lemma has_standard_keys_set (k v : string) (r : row) :
  Py.mem k STANDARD_HEADERS = true ->
  has_standard_keys r -> has_standard_keys (Py.set k v r).
Proof.
  unfold has_standard_keys. intros Hk Hr.
  rewrite keys_set; [assumption|]. rewrite Hr. now apply mem_In.
Qed.

Create HintDb std.
#[local] Hint Resolve has_standard_keys_set : std.
#[local] Hint Extern 1 (Py.mem _ STANDARD_HEADERS = true) => reflexivity : std.

(** A step that is a cascade of tests ending in assignments to headers. *)
Ltac keys_step :=
  intros;
  repeat match goal with
         | |- context [match ?x with _ => _ end] => destruct x
         end;
  auto 8 with std.

Ltac frame_step :=
  intros;
  repeat match goal with
         | |- context [match ?x with _ => _ end] => destruct x
         end;
  rewrite ?row_get_set_ne by congruence; reflexivity.

Lemma blank_row_keys : has_standard_keys blank_row.
Proof. reflexivity. Qed.

Lemma set_defaults_keys (r : row) :
  has_standard_keys r -> has_standard_keys (set_defaults r).
Proof. unfold set_defaults. keys_step. Qed.

Lemma extract_item_id_keys (record : dict) (r : row) :
  has_standard_keys r -> has_standard_keys (extract_item_id record r).
Proof. unfold extract_item_id. keys_step. Qed.

Lemma extract_sku_keys (record : dict) (r : row) :
  has_standard_keys r -> has_standard_keys (extract_sku record r).
Proof. unfold extract_sku. keys_step. Qed.

Lemma extract_identifiers_keys (record : dict) (r : row) :
  has_standard_keys r -> has_standard_keys (extract_identifiers record r).
Proof. unfold extract_identifiers. keys_step. Qed.

Lemma extract_name_keys (record : dict) (r : row) :
  has_standard_keys r -> has_standard_keys (extract_name record r).
Proof. unfold extract_name. keys_step. Qed.

Lemma extract_description_keys (record : dict) (r : row) :
  has_standard_keys r -> has_standard_keys (extract_description record r).
Proof. unfold extract_description, set_description. keys_step. Qed.

Lemma set_price_keys (record : dict) (r : row) :
  has_standard_keys r -> has_standard_keys (set_price record r).
Proof. unfold set_price. keys_step. Qed.

Lemma extract_brand_keys (record : dict) (r : row) :
  has_standard_keys r -> has_standard_keys (extract_brand record r).
Proof. unfold extract_brand. keys_step. Qed.

Lemma extract_category_keys (record : dict) (r : row) :
  has_standard_keys r -> has_standard_keys (extract_category record r).
Proof. unfold extract_category. keys_step. Qed.

Lemma extract_url_keys (record : dict) (r : row) :
  has_standard_keys r -> has_standard_keys (extract_url record r).
Proof. unfold extract_url. keys_step. Qed.

Lemma scan_specifications_keys (specs : list json) (r r' : row) :
  scan_specifications specs r = Py.Ok r' ->
  has_standard_keys r -> has_standard_keys r'.
Proof.
  revert r. induction specs as [|spec specs IH]; intros r; simpl.
  - intros [= <-]. auto.
  - repeat match goal with
           | |- context [match ?x with _ => _ end] => destruct x
           end; try discriminate; intros H Hr; eapply IH; eauto with std.
Qed.

Lemma extract_material_keys (record : dict) (r r' : row) :
  extract_material record r = Py.Ok r' ->
  has_standard_keys r -> has_standard_keys r'.
Proof.
  unfold extract_material.
  repeat match goal with
         | |- context [match ?x with _ => _ end] => destruct x
         end; try (intros [= <-]; auto).
  apply scan_specifications_keys.
Qed.

Lemma map_remaining_keys (items : dict) (r : row) :
  has_standard_keys r -> has_standard_keys (map_remaining items r).
Proof.
  revert r. induction items as [|[field value] items IH]; intros r Hr; simpl.
  - assumption.
  - destruct (Py.mem field PROCESSED_FIELDS); [auto|].
    destruct (Py.mem (map_field_name field) STANDARD_HEADERS) eqn:Hmem;
      simpl; [|auto].
    destruct (negb (Py.nonempty (row_get (map_field_name field) r)));
      [|auto].
    apply IH. now apply has_standard_keys_set.
Qed.

Lemma extract_item_id_frame (c : string) (record : dict) (r : row) :
  c <> "Item ID" -> row_get c (extract_item_id record r) = row_get c r.
Proof. unfold extract_item_id. frame_step. Qed.

Lemma extract_sku_frame (c : string) (record : dict) (r : row) :
  c <> "SKU" -> row_get c (extract_sku record r) = row_get c r.
Proof. unfold extract_sku. frame_step. Qed.

Lemma extract_identifiers_frame (c : string) (record : dict) (r : row) :
  c <> "Item ID" -> c <> "SKU" ->
  row_get c (extract_identifiers record r) = row_get c r.
Proof. unfold extract_identifiers. frame_step. Qed.

Lemma extract_name_frame (c : string) (record : dict) (r : row) :
  c <> "Item Name" -> row_get c (extract_name record r) = row_get c r.
Proof. unfold extract_name. frame_step. Qed.

Lemma extract_description_frame (c : string) (record : dict) (r : row) :
  c <> "Description" -> c <> "CF.Description" ->
  row_get c (extract_description record r) = row_get c r.
Proof. unfold extract_description, set_description. frame_step. Qed.

Lemma set_price_frame (c : string) (record : dict) (r : row) :
  c <> "Rate" -> c <> "Purchase Rate" -> c <> "CF.Cost" ->
  row_get c (set_price record r) = row_get c r.
Proof. unfold set_price. frame_step. Qed.

Lemma extract_brand_frame (c : string) (record : dict) (r : row) :
  c <> "CF.Manufacturer" -> row_get c (extract_brand record r) = row_get c r.
Proof. unfold extract_brand. frame_step. Qed.

Lemma extract_category_frame (c : string) (record : dict) (r : row) :
  c <> "Item Type" -> row_get c (extract_category record r) = row_get c r.
Proof. unfold extract_category. frame_step. Qed.

Lemma extract_url_frame (c : string) (record : dict) (r : row) :
  c <> "CF.URL" -> row_get c (extract_url record r) = row_get c r.
Proof. unfold extract_url. frame_step. Qed.

Lemma scan_specifications_frame (c : string) (specs : list json) (r r' : row) :
  c <> "CF.Material" -> scan_specifications specs r = Py.Ok r' ->
  row_get c r' = row_get c r.
Proof.
  intros Hc. revert r. induction specs as [|spec specs IH]; intros r; simpl.
  - now intros [= <-].
  - repeat match goal with
           | |- context [match ?x with _ => _ end] => destruct x
           end; try discriminate; intros H; apply IH in H; try assumption.
    now rewrite H, row_get_set_ne.
Qed.

Lemma extract_material_frame (c : string) (record : dict) (r r' : row) :
  c <> "CF.Material" -> extract_material record r = Py.Ok r' ->
  row_get c r' = row_get c r.
Proof.
  intros Hc. unfold extract_material.
  repeat match goal with
         | |- context [match ?x with _ => _ end] => destruct x
         end; try (now intros [= <-]).
  now apply scan_specifications_frame.
Qed.

(** The loop over the remaining fields, read column by column. *)
Lemma map_remaining_get (c : string) (items : dict) (r : row) :
  Py.mem c STANDARD_HEADERS = true ->
  row_get c (map_remaining items r) =
    if Py.nonempty (row_get c r) then row_get c r else residual_fill c items.
Proof.
  intros Hc. revert r.
  induction items as [|[field value] items IH]; intros r; simpl.
  - unfold Py.nonempty. now destruct (String.eqb_spec (row_get c r) "").
  - destruct (Py.mem field PROCESSED_FIELDS); simpl; [apply IH|].
    destruct (String.eqb_spec (map_field_name field) c) as [->|Hne]; simpl.
    + rewrite Hc. simpl.
      destruct (Py.nonempty (row_get c r)) eqn:E; simpl.
      * now rewrite IH, E.
      * now rewrite IH, row_get_set_eq.
    + destruct (_ && _); rewrite IH; [|reflexivity].
      now rewrite row_get_set_ne by congruence.
Qed.

Lemma residual_fill_empty (c : string) (items : dict) :
  (forall field value, In (field, value) items ->
     Py.mem field PROCESSED_FIELDS = false -> map_field_name field <> c) ->
  residual_fill c items = "".
Proof.
  induction items as [|[field value] items IH]; intros H; simpl;
    [reflexivity|].
  assert (Hrest : residual_fill c items = "").
  { apply IH. intros f v Hin. apply (H f v). now right. }
  destruct (Py.mem field PROCESSED_FIELDS) eqn:E; simpl; [assumption|].
  destruct (String.eqb_spec (map_field_name field) c) as [Heq|_]; simpl;
    [|assumption].
  destruct (H field value); auto. now left.
Qed.

(** ** [standardize_record]: when it returns *)

Lemma scan_specifications_ok (specs : list json) (r : row) :
  (exists r', scan_specifications specs r = Py.Ok r') <->
  forallb spec_key_ok specs = true.
Proof.
  revert r. induction specs as [|spec specs IH]; intros r; simpl.
  - split; [reflexivity | eauto].
  - rewrite andb_true_iff, <- (IH r).
    destruct spec as [| | | | |xs|d]; try tauto. simpl.
    destruct (Py.get "key" d) as [key|]; [|tauto].
    destruct (Py.get "value" d) as [value|]; [|destruct key; tauto].
    destruct key; try (split; [intros [r' H]; discriminate | intros [H _]; discriminate]).
    destruct (Py.mem _ _); [|tauto].
    rewrite (IH (Py.set _ _ r)), <- (IH r). tauto.
Qed.

Lemma standardize_record_ok (record : dict) :
  (exists r, standardize_record record = Py.Ok r) <->
  specifications_ok record = true.
Proof.
  unfold standardize_record, specifications_ok, extract_material.
  set (st := extract_url _ _).
  destruct (Py.get "specifications" record) as [[| | | | |specs|d]|];
    simpl; try (split; [reflexivity | eauto]).
  rewrite <- (scan_specifications_ok specs st). split.
  - intros [r H]. destruct (scan_specifications specs st); [eauto | discriminate].
  - intros [r' H]. rewrite H. simpl. eauto.
Qed.

(** What every returned row satisfies, and what it holds in a column that
    the direct rules do not write. *)
Lemma standardize_record_inv (record : dict) (r : row) :
  standardize_record record = Py.Ok r ->
  has_standard_keys r /\
  (forall c v, In (c, v) CONSTANT_COLUMNS -> row_get c r = v).
Proof.
  unfold standardize_record.
  set (st := extract_url _ _).
  destruct (extract_material record st) as [st'|e] eqn:E; simpl;
    [|discriminate].
  intros [= <-]. split.
  - apply map_remaining_keys.
    apply (extract_material_keys _ _ _ E). subst st.
    apply extract_url_keys, extract_category_keys, extract_brand_keys,
      set_price_keys, extract_description_keys, extract_name_keys,
      extract_identifiers_keys, extract_sku_keys, extract_item_id_keys,
      set_defaults_keys, blank_row_keys.
  - intros c v Hin.
    assert (Hst : row_get c st' = v /\ Py.mem c STANDARD_HEADERS = true
                  /\ Py.nonempty v = true).
    { rewrite (extract_material_frame c _ _ _) with (2 := E); subst st;
        simpl in Hin;
        repeat (destruct Hin as [[= <- <-] | Hin]; [|]); try destruct Hin;
        (rewrite extract_url_frame, extract_category_frame,
           extract_brand_frame, set_price_frame, extract_description_frame,
           extract_name_frame, extract_identifiers_frame, extract_sku_frame,
           extract_item_id_frame by discriminate; now vm_compute) ||
        discriminate. }
    destruct Hst as (Hv & Hmem & Hne).
    rewrite map_remaining_get by assumption. now rewrite Hv, Hne.
Qed.

(** C2. [standardize_record] returns a row exactly when no entry of
    [specifications] makes the material scan fail (an entry with a [key] and
    a [value] must have a string key); every row it returns has exactly the
    20 standard headers as keys, each bound to a string, and carries the five
    fixed values whatever the input; on the empty record every other column
    is the empty string. *)
Theorem standardize_record_row (record : dict) :
  ((exists r, standardize_record record = Py.Ok r) <->
   specifications_ok record = true) /\
  (forall r, standardize_record record = Py.Ok r ->
     map fst r = STANDARD_HEADERS /\
     row_get "Source" r = "HD" /\ row_get "Purchase Account" r = "HD" /\
     row_get "Vendor" r = "HD" /\ row_get "CF.Markup" r = "43%" /\
     row_get "CF.Supplier" r = "HD") /\
  (length STANDARD_HEADERS = 20%nat /\ List.NoDup STANDARD_HEADERS) /\
  standardize_record [] =
    Py.Ok (map (fun header =>
                  (header, default "" (Py.get header CONSTANT_COLUMNS)))
               STANDARD_HEADERS).
Proof.
  split; [apply standardize_record_ok|]. split; [|split].
  - intros r Hr. apply standardize_record_inv in Hr as [Hkeys Hconst].
    split; [exact Hkeys|].
    repeat split; apply Hconst; apply (bool_decide_unpack _); now vm_compute.
  - split; [reflexivity|].
    apply NoDup_ListNoDup, (bool_decide_unpack _). now vm_compute.
  - now vm_compute.
Qed.

Lemma standardize_record_row_witness :
  exists r, standardize_record hammer = Py.Ok r /\
            map fst r = STANDARD_HEADERS /\ row_get "CF.Markup" r = "43%".
Proof.
  destruct (standardize_record_row hammer) as (Hok & Hrow & _).
  destruct (proj2 Hok eq_refl) as [r Hr]. exists r.
  destruct (Hrow r Hr) as (Hkeys & _ & _ & _ & Hmarkup & _). auto.
Defined.

(** C2, as stated, fails on a record whose [specifications] hold an entry
    with a key that is not a string: no row is returned. *)
Lemma standardize_record_raises :
  standardize_record numeric_spec_key =
    Py.Raise (Py.AttributeError "'int' object has no attribute 'lower'").
Proof. reflexivity. Qed.

(** ** The price columns *)

Lemma find_price_paths (record : dict) :
  find_price record =
    match nested_price record with
    | Some raw => Some (extract_price raw)
    | None =>
        match Py.get "price" record with
        | Some raw => Some (extract_price raw)
        | None => None
        end
    end.
Proof.
  unfold find_price, nested_price.
  destruct (Py.get "buybox_winner" record) as [[| | | | | |bw]|];
    try reflexivity.
  now destruct (Py.get "price" bw).
Qed.

Lemma standardize_record_price_column (record : dict) (r : row) (c : string) :
  standardize_record record = Py.Ok r ->
  In c ["Rate"; "Purchase Rate"; "CF.Cost"] ->
  row_get c r =
    match find_price record with
    | Some p => if Py.nonempty p then p else residual_fill c record
    | None => residual_fill c record
    end.
Proof.
  unfold standardize_record.
  set (st := extract_url _ _).
  destruct (extract_material record st) as [st'|e] eqn:E; simpl;
    [|discriminate].
  intros [= <-] Hc.
  assert (Hmem : Py.mem c STANDARD_HEADERS = true).
  { simpl in Hc. destruct Hc as [<-|[<-|[<-|[]]]]; reflexivity. }
  rewrite map_remaining_get by assumption.
  assert (Hst : row_get c st' =
                match find_price record with
                | Some p => if Py.nonempty p then p else ""
                | None => ""
                end).
  { rewrite (extract_material_frame c _ _ _) with (2 := E); subst st;
      simpl in Hc; destruct Hc as [<-|[<-|[<-|[]]]];
      (rewrite extract_url_frame, extract_category_frame,
         extract_brand_frame by discriminate;
       unfold set_price;
       destruct (find_price record) as [p|]; [destruct (Py.nonempty p)|];
       rewrite ?row_get_set_eq, ?row_get_set_ne by discriminate;
       rewrite ?row_get_set_eq; try reflexivity;
       rewrite extract_description_frame, extract_name_frame,
         extract_identifiers_frame, extract_sku_frame,
         extract_item_id_frame by discriminate; reflexivity) ||
      discriminate. }
  rewrite Hst.
  destruct (find_price record) as [p|]; [|reflexivity].
  destruct (Py.nonempty p) eqn:Hp; [now rewrite Hp | reflexivity].
Qed.

Lemma nonempty_true (s : string) : Py.nonempty s = true <-> s <> "".
Proof.
  unfold Py.nonempty. destruct (String.eqb_spec s ""); simpl; split;
    congruence.
Qed.

Lemma residual_fill_find (c : string) (items : dict) :
  residual_fill c items =
    match find (fills c) items with
    | Some item => Py.str (snd item)
    | None => ""
    end.
Proof.
  induction items as [|[field value] items IH]; [reflexivity|].
  cbn [residual_fill find]. unfold fills at 1. cbn [fst snd].
  now destruct (negb (Py.mem field PROCESSED_FIELDS)
                && String.eqb (map_field_name field) c
                && Py.nonempty (Py.str value)).
Qed.

(** C1, as the code has it.  When [standardize_record] returns (and it
    does unless a [specifications] key is not a string): a nested
    [buybox_winner] price whose extracted text is not empty fills Rate,
    Purchase Rate and CF.Cost; without a nested price, a top-level price
    whose extracted text is not empty fills them.  A nested price whose
    extracted text is empty is not replaced by the top-level price: in that
    case, and when there is no nested price and the top-level price is
    absent or gives an empty text, each of the three columns holds the
    string form of the first field of the record, outside the processed
    ones (of which [price] is one), that the field mapper sends to that
    column and whose string form is not empty; the column is empty exactly
    when the record has no such field. *)
Theorem standardize_record_price (record : dict) :
  specifications_ok record = true ->
  exists r, standardize_record record = Py.Ok r /\
    (forall raw, nested_price record = Some raw ->
       extract_price raw <> "" -> price_columns r (extract_price raw)) /\
    (forall raw, nested_price record = None ->
       Py.get "price" record = Some raw ->
       extract_price raw <> "" -> price_columns r (extract_price raw)) /\
    ((exists raw, nested_price record = Some raw /\ extract_price raw = "") \/
     (nested_price record = None /\
      forall raw, Py.get "price" record = Some raw -> extract_price raw = "") ->
     forall c, In c ["Rate"; "Purchase Rate"; "CF.Cost"] ->
       row_get c r = match find (fills c) record with
                     | Some item => Py.str (snd item)
                     | None => ""
                     end /\
       (row_get c r = "" <->
        forall item, In item record -> fills c item = false)).
Proof.
  intros Hok. apply standardize_record_ok in Hok as [r Hr]. exists r.
  split; [exact Hr|].
  assert (Hcol := standardize_record_price_column record r).
  assert (Hfound : forall p, find_price record = Some p -> p <> "" ->
                             price_columns r p).
  { intros p Hp Hne. apply nonempty_true in Hne.
    repeat split; rewrite (Hcol _ Hr), Hp, Hne; simpl; tauto. }
  split; [|split].
  - intros raw Hn. apply Hfound. now rewrite find_price_paths, Hn.
  - intros raw Hn Ht. apply Hfound. now rewrite find_price_paths, Hn, Ht.
  - intros Hnone c Hc.
    assert (Hres : row_get c r = residual_fill c record).
    { rewrite (Hcol _ Hr Hc), find_price_paths.
      destruct Hnone as [(raw & -> & ->) | [-> Htop]]; [reflexivity|].
      destruct (Py.get "price" record) as [raw|]; [|reflexivity].
      now rewrite (Htop raw eq_refl). }
    rewrite Hres, residual_fill_find. split; [reflexivity|].
    destruct (find (fills c) record) as [item|] eqn:E.
    + apply find_some in E as [Hin Hfills]. split.
      * intros Hempty. unfold fills in Hfills.
        apply andb_true_iff in Hfills as [_ Hne].
        apply nonempty_true in Hne. contradiction.
      * intros Hall. rewrite (Hall item Hin) in Hfills. discriminate.
    + split; [|reflexivity]. intros _ item Hin.
      apply (find_none _ _ E item Hin).
Qed.

Lemma standardize_record_price_witness :
  exists r, standardize_record hammer = Py.Ok r /\
            price_columns r "19.99".
Proof.
  destruct (standardize_record_price hammer eq_refl) as (r & Hr & Hnested & _).
  exists r. split; [exact Hr|].
  apply (Hnested (JStr "$19.99")); [reflexivity | discriminate].
Defined.

(** C1, as stated, fails twice: an empty nested price is not replaced by
    the top-level price, and a field such as [sale_price], which the field
    mapper sends to Rate, fills Rate alone when no price was found. *)
Lemma price_as_claimed_fails :
  (exists r, standardize_record empty_nested_price = Py.Ok r /\
             ~ price_as_claimed empty_nested_price r) /\
  (exists r, standardize_record sale_price_only = Py.Ok r /\
             ~ price_as_claimed sale_price_only r).
Proof.
  split; eexists; (split; [reflexivity|]);
    intros [H _]; vm_compute in H; discriminate.
Qed.

(** ** [standardize_record] on its own output *)

(** A row with the standard keys, cell by cell. *)
Lemma has_standard_keys_cells (r : row) :
  has_standard_keys r ->
  r = map (fun header => (header, row_get header r)) STANDARD_HEADERS.
Proof.
  unfold has_standard_keys. intros Hkeys.
  do 20 (destruct r as [|[? ?] r]; [discriminate Hkeys|]).
  destruct r; [|discriminate Hkeys].
  simpl in Hkeys. injection Hkeys as -> -> -> -> -> -> -> -> -> -> -> -> -> ->
                                     -> -> -> -> -> ->.
  reflexivity.
Qed.

(** The second pass over a row: the headers are not the field names the
    direct rules read, so only the loop over the remaining fields writes.
    Reference ID is read as an Item ID, Purchase Rate as a Rate and
    CF.Description as a Description, and nothing maps to these three. *)
Lemma standardize_row (id name sku desc rate ref unit prate type combo
                       maker url cfdesc material cost : string) :
  let r : row :=
    [ ("Item ID", id); ("Item Name", name); ("SKU", sku);
      ("Description", desc); ("Rate", rate); ("Source", "HD");
      ("Reference ID", ref); ("Usage unit", unit); ("Purchase Rate", prate);
      ("Purchase Account", "HD"); ("Vendor", "HD"); ("Item Type", type);
      ("Is Combo Product", combo); ("CF.Manufacturer", maker);
      ("CF.URL", url); ("CF.Markup", "43%"); ("CF.Description", cfdesc);
      ("CF.Supplier", "HD"); ("CF.Material", material); ("CF.Cost", cost) ] in
  exists r',
    standardize_record (row_to_record r) = Py.Ok r' /\
    (r' = r <-> ref = "" /\ prate = "" /\ cfdesc = "").
Proof.
  intros r. subst r.
  destruct id, desc, rate;
    (eexists; split; [vm_compute; reflexivity|]);
    (split;
     [ intros H; injection H; intros; subst; auto
     | intros (-> & -> & ->); reflexivity ]).
Qed.

(** C7, as the code has it.  Applying [standardize_record] to a row it
    returned always returns a row again, and that row is the same one
    exactly when the first row has an empty Reference ID, an empty Purchase
    Rate and an empty CF.Description. *)
Theorem standardize_record_twice (record : dict) (r : row) :
  standardize_record record = Py.Ok r ->
  exists r',
    standardize_record (row_to_record r) = Py.Ok r' /\
    (r' = r <->
     row_get "Reference ID" r = "" /\ row_get "Purchase Rate" r = "" /\
     row_get "CF.Description" r = "").
Proof.
  intros Hr. apply standardize_record_inv in Hr as [Hkeys Hconst].
  pose proof (standardize_row
                (row_get "Item ID" r) (row_get "Item Name" r)
                (row_get "SKU" r) (row_get "Description" r)
                (row_get "Rate" r) (row_get "Reference ID" r)
                (row_get "Usage unit" r) (row_get "Purchase Rate" r)
                (row_get "Item Type" r) (row_get "Is Combo Product" r)
                (row_get "CF.Manufacturer" r) (row_get "CF.URL" r)
                (row_get "CF.Description" r) (row_get "CF.Material" r)
                (row_get "CF.Cost" r)) as Hrow.
  cbv zeta in Hrow.
  assert (Hcells : has_standard_keys r) by exact Hkeys.
  apply has_standard_keys_cells in Hcells.
  cbn [map STANDARD_HEADERS] in Hcells.
  rewrite (Hconst "Source" "HD"), (Hconst "Purchase Account" "HD"),
    (Hconst "Vendor" "HD"), (Hconst "CF.Markup" "43%"),
    (Hconst "CF.Supplier" "HD") in Hcells
    by (apply (bool_decide_unpack _); now vm_compute).
  rewrite <- Hcells in Hrow. exact Hrow.
Qed.

Lemma standardize_record_twice_witness :
  exists r r',
    standardize_record sku_only = Py.Ok r /\
    standardize_record (row_to_record r) = Py.Ok r' /\ r' = r.
Proof.
  assert (Hr : standardize_record sku_only = Py.Ok sku_only_row)
    by (vm_compute; reflexivity).
  destruct (standardize_record_twice sku_only sku_only_row Hr)
    as (r' & Hr' & Hiff).
  exists sku_only_row, r'. split; [exact Hr|]. split; [exact Hr'|].
  apply Hiff. vm_compute. auto.
Defined.

(** C7, as stated, fails on a record with a title: the second pass loses
    CF.Description. *)
Lemma standardize_record_not_idempotent :
  exists r r',
    standardize_record title_only = Py.Ok r /\
    standardize_record (row_to_record r) = Py.Ok r' /\
    row_get "CF.Description" r = "Hammer" /\
    row_get "CF.Description" r' = "" /\ r' <> r.
Proof.
  do 2 eexists. split; [vm_compute; reflexivity|].
  split; [vm_compute; reflexivity|].
  split; [vm_compute; reflexivity|]. split; [vm_compute; reflexivity|].
  discriminate.
Qed.

(** ** The CSV file and the statistics *)

Lemma consume_fold (batch_size : nat) (results : list file_result) (s : sink) :
  let s' := fold_left (consume batch_size) results s in
  written s' ++ map csv_line (temp_data s') =
    written s ++ map csv_line
                   (temp_data s ++ concat (map standardized_data results)) /\
  all_errors s' = all_errors s ++ concat (map errors results) /\
  stats_errors (sink_stats s') = stats_errors (sink_stats s) /\
  files_processed (sink_stats s') =
    (files_processed (sink_stats s) + length results)%nat /\
  files_with_errors (sink_stats s') =
    (files_with_errors (sink_stats s)
     + length (List.filter (fun r => has_errors r) results))%nat /\
  records_processed (sink_stats s') =
    (records_processed (sink_stats s)
     + sum_list (map record_count results))%nat /\
  duplicates_skipped (sink_stats s') =
    (duplicates_skipped (sink_stats s)
     + sum_list (map duplicate_count results))%nat.
Proof.
  revert s. induction results as [|r results IH]; intros s; cbn zeta.
  - simpl. rewrite !app_nil_r. repeat split; lia.
  - cbn [fold_left]. specialize (IH (consume batch_size s r)).
    cbn zeta in IH. destruct IH as (Hw & He & Hs & Hf & Hfe & Hr & Hd).
    rewrite Hw, He, Hs, Hf, Hfe, Hr, Hd. clear Hw He Hs Hf Hfe Hr Hd.
    unfold consume, has_errors. cbn [filter map concat sum_list].
    split.
    { destruct (_ <=? _)%nat; cbn [written temp_data];
        rewrite ?app_nil_l, ?map_app, <- ?app_assoc; reflexivity. }
    split.
    { destruct (errors r) eqn:E, (_ <=? _)%nat; cbn [all_errors];
        rewrite ?app_nil_r, <- ?app_assoc; reflexivity. }
    destruct (errors r) eqn:E, (_ <=? _)%nat; cbn; rewrite ?E; cbn;
      repeat split; lia.
Qed.

(** The file and the statistics, in closed form. *)
Lemma write_csv_closed (batch_size : nat) (results : list file_result) :
  write_csv batch_size results =
    (mk_stats (length results)
              (length (List.filter (fun r => has_errors r) results))
              (sum_list (map record_count results))
              (sum_list (map duplicate_count results))
              (concat (map errors results)),
     STANDARD_HEADERS :: csv_line blank_row
       :: map csv_line (concat (map standardized_data results))).
Proof.
  unfold write_csv.
  destruct (consume_fold batch_size results
              (mk_sink (mk_stats 0 0 0 0 []) [] []
                       [STANDARD_HEADERS; csv_line blank_row]))
    as (Hw & He & Hs & Hf & Hfe & Hr & Hd).
  cbn zeta in *. rewrite Hw, He, Hs, Hf, Hfe, Hr, Hd. reflexivity.
Qed.

(** ** The worker pool *)

Section PoolProperties.

Variable read_text : string -> Py.result string.
Variable json_loads : string -> Py.result json.
Variable now : string.
Variable glob : string -> list string.

Lemma start_worker_counts (skip_duplicates : bool) (file_path : string) :
  counts_rows
    (w_result (start_worker read_text json_loads skip_duplicates file_path)).
Proof.
  unfold start_worker.
  destruct (load_items read_text json_loads file_path); reflexivity.
Qed.

Lemma worker_step_counts (known known' : gset string) (w w' : worker) :
  worker_step now known w = Some (known', w') ->
  counts_rows (w_result w) -> counts_rows (w_result w').
Proof.
  unfold worker_step, counts_rows.
  destruct (w_pending w) as [[key r]|].
  - intros [= <- <-] H. simpl. rewrite length_app, H. simpl. lia.
  - destruct (w_todo w) as [|item rest]; [discriminate|].
    destruct (attempt_item now (w_path w) item) as [msg|key r].
    + now intros [= <- <-].
    + destruct (bool_decide _); now intros [= <- <-].
Qed.

Lemma pool_step_counts (i : nat) (p p' : pool) :
  pool_step now i p = Some p' ->
  Forall (fun w => counts_rows (w_result w)) (workers p) ->
  Forall (fun w => counts_rows (w_result w)) (workers p').
Proof.
  unfold pool_step. intros Hstep Hall.
  destruct (workers p !! i) as [w|] eqn:Hw; [|discriminate].
  pose proof (Forall_lookup_1 _ _ _ _ Hall Hw) as Hcount.
  destruct (w_private w) as [own|];
    [destruct (worker_step now own w) as [[k' w']|] eqn:E
    |destruct (worker_step now (shared p) w) as [[k' w']|] eqn:E];
    try discriminate; injection Hstep as <-; simpl;
    apply Forall_insert; try assumption;
    apply (worker_step_counts _ _ _ _ E Hcount).
Qed.

Lemma run_pool_counts (schedule : list nat) (p p' : pool) :
  run_pool now schedule p = Some p' ->
  Forall (fun w => counts_rows (w_result w)) (workers p) ->
  Forall (fun w => counts_rows (w_result w)) (workers p').
Proof.
  revert p. induction schedule as [|i schedule IH]; intros p; simpl.
  - now intros [= <-].
  - destruct (pool_step now i p) as [p1|] eqn:E; [|discriminate].
    intros Hrun Hall. apply (IH p1 Hrun). now apply (pool_step_counts i p).
Qed.

Lemma run_batch_counts (skip_duplicates : bool) (json_files : list string)
      (schedule : list nat) (results : list file_result) :
  run_batch read_text json_loads now skip_duplicates json_files schedule
    = Some results ->
  Forall counts_rows results /\ length results = length json_files.
Proof.
  unfold run_batch.
  destruct (run_pool _ _ _) as [p|] eqn:E; [|discriminate].
  destruct (finished p); [|discriminate]. intros [= <-].
  assert (Hstart : Forall (fun w => counts_rows (w_result w))
            (workers (start_pool read_text json_loads skip_duplicates
                                 json_files))).
  { simpl. apply List.Forall_map, Forall_forall. intros f _.
    apply start_worker_counts. }
  split.
  - apply List.Forall_map. apply (run_pool_counts _ _ _ E Hstart).
  - rewrite length_map. clear Hstart.
    assert (Hlen : forall sch q q', run_pool now sch q = Some q' ->
                     length (workers q') = length (workers q)).
    { induction sch as [|i sch IH]; intros q q'; simpl.
      - now intros [= <-].
      - destruct (pool_step now i q) as [q1|] eqn:E1; [|discriminate].
        intros Hq. rewrite (IH _ _ Hq). unfold pool_step in E1.
        destruct (workers q !! i) as [w|]; [|discriminate].
        destruct (w_private w);
          [destruct (worker_step now g w) as [[? ?]|]
          |destruct (worker_step now (shared q) w) as [[? ?]|]];
          try discriminate; injection E1 as <-; simpl;
          apply length_insert. }
    rewrite (Hlen _ _ _ E). simpl. apply length_map.
Qed.

(** Every pool can be run to the end: its workers never wait. *)
Lemma worker_step_progress (known : gset string) (w : worker) :
  w_done w = false ->
  exists known' w',
    worker_step now known w = Some (known', w') /\
    (work_left w' < work_left w)%nat /\ w_private w' = w_private w.
Proof.
  unfold w_done, worker_step, work_left. intros Hdone.
  destruct (w_pending w) as [[key r]|].
  - do 2 eexists. split; [reflexivity|]. simpl. split; [lia | reflexivity].
  - destruct (w_todo w) as [|item rest]; [discriminate|].
    destruct (attempt_item now (w_path w) item) as [msg|key r];
      [|destruct (bool_decide _)];
      do 2 eexists; (split; [reflexivity|]); simpl; split; (lia || reflexivity).
Qed.

Lemma sum_list_insert {A : Type} (f : A -> nat) (l : list A) (i : nat)
      (x y : A) :
  l !! i = Some x ->
  (sum_list (map f (<[i := y]> l)) + f x = sum_list (map f l) + f y)%nat.
Proof.
  revert i. induction l as [|a l IH]; intros [|i]; simpl; try discriminate.
  - intros [= ->]. lia.
  - intros H. specialize (IH i H). lia.
Qed.

Lemma pool_step_progress (i : nat) (p : pool) (w : worker) :
  workers p !! i = Some w -> w_done w = false ->
  exists p',
    pool_step now i p = Some p' /\
    (sum_list (map work_left (workers p'))
     < sum_list (map work_left (workers p)))%nat.
Proof.
  intros Hw Hdone. unfold pool_step. rewrite Hw.
  destruct (w_private w) as [own|].
  - destruct (worker_step_progress own w Hdone) as (k' & w' & -> & Hlt & _).
    eexists. split; [reflexivity|]. simpl.
    pose proof (sum_list_insert work_left _ _ _ (set_private k' w') Hw) as H.
    unfold work_left in *. simpl in *. lia.
  - destruct (worker_step_progress (shared p) w Hdone)
      as (k' & w' & -> & Hlt & _).
    eexists. split; [reflexivity|]. simpl.
    pose proof (sum_list_insert work_left _ _ _ w' Hw) as H. lia.
Qed.

Lemma not_finished (p : pool) :
  finished p = false ->
  exists i w, workers p !! i = Some w /\ w_done w = false.
Proof.
  unfold finished. induction (workers p) as [|w ws IH]; simpl;
    [discriminate|].
  destruct (w_done w) eqn:E.
  - intros H. destruct (IH H) as (i & w' & Hi & Hd). now exists (S i), w'.
  - intros _. now exists 0%nat, w.
Qed.

Lemma pool_terminates (p : pool) :
  exists schedule p',
    run_pool now schedule p = Some p' /\ finished p' = true.
Proof.
  remember (sum_list (map work_left (workers p))) as n eqn:Hn.
  revert p Hn. induction n as [n IH] using lt_wf_ind. intros p ->.
  destruct (finished p) eqn:Hfin.
  - now exists [], p.
  - destruct (not_finished p Hfin) as (i & w & Hw & Hd).
    destruct (pool_step_progress i p w Hw Hd) as (p1 & Hstep & Hlt).
    destruct (IH _ Hlt p1 eq_refl) as (schedule & p' & Hrun & Hdone).
    exists (i :: schedule), p'. simpl. now rewrite Hstep.
Qed.

Lemma is_order_seq (n : nat) : is_order n (seq 0 n) = true.
Proof.
  unfold is_order. rewrite !andb_true_iff. repeat split.
  - apply bool_decide_eq_true_2, NoDup_seq.
  - rewrite length_seq. apply Nat.eqb_refl.
  - apply forallb_forall. intros i Hi. apply in_seq in Hi.
    apply Nat.ltb_lt. lia.
Qed.

Lemma sum_counts (results : list file_result) :
  Forall counts_rows results ->
  sum_list (map record_count results)
  = length (concat (map standardized_data results)).
Proof.
  induction 1 as [|r results Hr _ IH]; [reflexivity|].
  simpl. rewrite length_app, IH, Hr. reflexivity.
Qed.

Lemma omap_lookup_Forall {A : Type} (P : A -> Prop) (l : list A)
      (order : list nat) :
  Forall P l -> Forall P (omap (fun i => l !! i) order).
Proof.
  intros Hl. induction order as [|i order IH]; simpl; [constructor|].
  destruct (l !! i) as [x|] eqn:E; [|assumption].
  constructor; [|assumption]. apply (Forall_lookup_1 _ _ _ _ Hl E).
Qed.

Lemma omap_lookup_length {A : Type} (l : list A) (order : list nat) :
  forallb (fun i => (i <? length l)%nat) order = true ->
  length (omap (fun i => l !! i) order) = length order.
Proof.
  induction order as [|i order IH]; [reflexivity|]. cbn [forallb].
  intros H. apply andb_true_iff in H as [Hi Horder].
  apply Nat.ltb_lt in Hi. apply lookup_lt_is_Some_2 in Hi as [x Hx].
  cbn [omap list_omap]. rewrite Hx. cbn [length]. now rewrite IH.
Qed.

(** With files to process, [combine_json_to_csv] completes and opens the
    output. *)
Lemma combine_completes (input : input_path) (batch_size : nat)
      (skip_duplicates : bool) :
  resolve glob input <> [] ->
  exists schedule order st lines,
    combine_json_to_csv read_text json_loads now glob input batch_size
                        skip_duplicates schedule order
    = Some (st, Some lines).
Proof.
  intros Hfiles. unfold combine_json_to_csv.
  destruct (resolve glob input) as [|file files] eqn:Hres; [congruence|].
  destruct (pool_terminates
              (start_pool read_text json_loads skip_duplicates
                          (file :: files)))
    as (schedule & p & Hrun & Hfin).
  exists schedule, (seq 0 (length (file :: files))).
  unfold run_batch. rewrite Hrun, Hfin, is_order_seq.
  destruct (write_csv _ _) as [st lines]. now exists st, lines.
Qed.

(** C9. When [combine_json_to_csv] has files to process, it completes
    and opens the output; and in every run the first line of the output is
    the header, the second line is entirely blank (one empty cell for each
    of the 20 columns), the data rows follow, and [records_processed] counts
    the data rows only. *)
Theorem blank_row_after_header (input : input_path) (batch_size : nat)
        (skip_duplicates : bool) :
  resolve glob input <> [] ->
  (exists schedule order st lines,
      combine_json_to_csv read_text json_loads now glob input batch_size
                          skip_duplicates schedule order
      = Some (st, Some lines)) /\
  (forall schedule order st out,
      combine_json_to_csv read_text json_loads now glob input batch_size
                          skip_duplicates schedule order
      = Some (st, out) ->
      exists rows,
        out = Some (STANDARD_HEADERS :: repeat "" 20 :: map csv_line rows) /\
        records_processed st = length rows).
Proof.
  intros Hfiles. split; [now apply combine_completes|].
  unfold combine_json_to_csv.
  destruct (resolve glob input) as [|file files] eqn:Hres; [congruence|].
  clear Hfiles. intros schedule order st out.
  destruct (run_batch _ _ _ _ _ _) as [results|] eqn:Hrun; [|discriminate].
  destruct (is_order _ _); [|discriminate].
  rewrite write_csv_closed. intros [= <- <-].
  eexists. split; [reflexivity|]. simpl.
  apply sum_counts, omap_lookup_Forall.
  now apply run_batch_counts in Hrun as [Hc _].
Qed.

End PoolProperties.

(** ** A file that is not valid JSON *)

Section InvalidFile.

Variable read_text : string -> Py.result string.
Variable json_loads : string -> Py.result json.
Variable now : string.
Variable glob : string -> list string.









End InvalidFile.

Lemma blank_row_after_header_witness :
  exists st rows,
    combine_json_to_csv example_read_text example_json_loads "0" example_glob
                        (Pattern "*.json") 2 true [0; 0; 1] [2; 1; 0]%nat
    = Some (st, Some (STANDARD_HEADERS :: repeat "" 20 :: map csv_line rows))
    /\ records_processed st = length rows.
Proof.
  assert (Hfiles : resolve example_glob (Pattern "*.json") <> [])
    by discriminate.
  destruct (combine_json_to_csv _ _ _ _ _ _ _ _ _) as [[st out]|] eqn:E;
    [|vm_compute in E; discriminate].
  pose proof (proj2 (blank_row_after_header example_read_text
                       example_json_loads "0" example_glob (Pattern "*.json")
                       2 true Hfiles) _ _ _ _ E) as H.
  destruct H as (rows & -> & Hcount).
  exists st, rows. split; [reflexivity | assumption].
Defined.


(** ** The shared dict of known keys *)

Section KnownKeys.

Variable read_text : string -> Py.result string.
Variable json_loads : string -> Py.result json.
Variable now : string.

Lemma attempt_item_key (path : string) (item : json) (k : string) (r : row) :
  attempt_item now path item = Keyed k r -> k = generate_record_key now r.
Proof.
  unfold attempt_item. destruct item; try discriminate.
  destruct (standardize_record kvs); [|discriminate]. now intros [= <- <-].
Qed.

Lemma accepted_keys_workers (ws : list worker) :
  accepted_keys now (map w_result ws) =
    concat (map (fun w => map (generate_record_key now)
                              (standardized_data (w_result w))) ws).
Proof. unfold accepted_keys. now rewrite map_map. Qed.

(** The accepted keys when worker [i] is replaced. *)
Lemma pool_keys_insert (known known' : gset string) (ws : list worker)
      (i : nat) (w w' : worker) (new : list row) :
  ws !! i = Some w ->
  standardized_data (w_result w') = standardized_data (w_result w) ++ new ->
  pool_keys now (mk_pool known' (<[i := w']> ws))
  ≡ₚ map (generate_record_key now) new ++ pool_keys now (mk_pool known ws).
Proof.
  intros Hw Hdata. unfold pool_keys. cbn [workers].
  rewrite !accepted_keys_workers.
  rewrite insert_take_drop by (eapply lookup_lt_Some; eassumption).
  rewrite <- (take_drop_middle ws i w Hw) at 3.
  rewrite !map_app. cbn [map]. rewrite !concat_app. cbn [concat].
  rewrite Hdata, map_app.
  set (A := concat _). set (B := concat _).
  set (F := map _ (standardized_data (w_result w))).
  set (N := map _ new).
  rewrite <- !app_assoc.
  rewrite (Permutation_app_comm N (A ++ F ++ B)).
  rewrite <- !app_assoc. apply Permutation_app_head, Permutation_app_head.
  apply Permutation_app_comm.
Qed.

Lemma start_pool_settled (json_files : list string) :
  settled now (start_pool read_text json_loads true json_files).
Proof.
  unfold settled, start_pool, pool_keys. cbn [workers shared].
  assert (Hkeys : accepted_keys now
            (map w_result
               (map (start_worker read_text json_loads true) json_files))
          = []).
  { rewrite accepted_keys_workers.
    induction json_files as [|f fs IH]; [reflexivity|].
    cbn [map concat]. rewrite IH. unfold start_worker.
    now destruct (load_items read_text json_loads f). }
  rewrite Hkeys. split; [|split].
  - apply List.Forall_map, Forall_forall. intros f _. unfold start_worker.
    now destruct (load_items read_text json_loads f).
  - constructor.
  - intros k Hk. inversion Hk.
Qed.

(** A settled pool stays settled over a turn that keeps test and store
    together. *)
Lemma atomic_step_settled (i : nat) (p p' : pool) :
  settled now p -> atomic_step now i p = Some p' -> settled now p'.
Proof.
  intros (Hall & Hnd & Hsub). unfold atomic_step, pool_step.
  destruct p as [known ws]. cbn [workers shared] in *.
  destruct (ws !! i) as [w|] eqn:Hw; [|discriminate].
  destruct (Forall_lookup_1 _ _ _ _ Hall Hw) as [Hpend Hown].
  pose proof (lookup_lt_Some _ _ _ Hw) as Hi.
  rewrite Hown. unfold worker_step at 1. rewrite Hpend.
  destruct (w_todo w) as [|item rest]; [discriminate|].
  assert (Hsame : forall w1,
             w_pending w1 = None -> w_private w1 = None ->
             standardized_data (w_result w1) = standardized_data (w_result w) ->
             settled now (mk_pool known (<[i := w1]> ws))).
  { intros w1 Hp1 Ho1 Hd1. unfold settled. cbn [workers shared].
    assert (Hperm : pool_keys now (mk_pool known (<[i := w1]> ws))
                    ≡ₚ pool_keys now (mk_pool known ws)).
    { rewrite (pool_keys_insert known known ws i w w1 []) by
        (try assumption; now rewrite app_nil_r).
      reflexivity. }
    split; [now apply Forall_insert|]. split.
    - now rewrite Hperm.
    - intros k Hk. apply Hsub. now rewrite <- Hperm. }
  destruct (attempt_item now (w_path w) item) as [msg|k r] eqn:Hitem.
  - cbn [workers]. rewrite list_lookup_insert_eq by assumption.
    cbn [w_pending]. intros [= <-]. now apply Hsame.
  - destruct (bool_decide (k ∈ known)) eqn:Hk.
    + cbn [workers]. rewrite list_lookup_insert_eq by assumption.
      cbn [w_pending]. intros [= <-]. now apply Hsame.
    + apply bool_decide_eq_false in Hk.
      cbn [workers shared]. rewrite list_lookup_insert_eq by assumption.
      cbn [w_pending w_private]. rewrite Hown.
      unfold worker_step. cbn [w_pending w_path w_todo w_private w_result].
      intros [= <-]. rewrite list_insert_insert_eq.
      unfold settled. cbn [workers shared].
      apply attempt_item_key in Hitem.
      assert (Hperm :
        pool_keys now
          (mk_pool ({[k]} ∪ known)
             (<[i := mk_worker (w_path w) rest None None
                               (add_record r (w_result w))]> ws))
        ≡ₚ k :: pool_keys now (mk_pool known ws)).
      { rewrite (pool_keys_insert known _ ws i w _ [r]) by
          (try assumption; reflexivity).
        cbn [map app]. now rewrite <- Hitem. }
      split; [now apply Forall_insert|]. split.
      * rewrite Hperm. apply NoDup_cons. split; [|assumption].
        intros Hin. apply Hk, Hsub, Hin.
      * intros k' Hk'. rewrite Hperm in Hk'.
        apply elem_of_cons in Hk' as [-> | Hk']; [set_solver|].
        apply Hsub in Hk'. set_solver.
Qed.

Lemma run_atomic_settled (schedule : list nat) (p p' : pool) :
  settled now p -> run_atomic now schedule p = Some p' -> settled now p'.
Proof.
  revert p. induction schedule as [|i schedule IH]; intros p Hp; simpl.
  - now intros [= <-].
  - destruct (atomic_step now i p) as [p1|] eqn:E; [|discriminate].
    apply IH. now apply (atomic_step_settled i p).
Qed.

(** A run of such turns is a run of the pool. *)
Lemma run_pool_app (s1 s2 : list nat) (p : pool) :
  run_pool now (s1 ++ s2) p =
    match run_pool now s1 p with
    | Some p' => run_pool now s2 p'
    | None => None
    end.
Proof.
  revert p. induction s1 as [|i s1 IH]; intros p; simpl; [reflexivity|].
  destruct (pool_step now i p); [apply IH | reflexivity].
Qed.

Lemma run_atomic_is_run (schedule : list nat) (p p' : pool) :
  run_atomic now schedule p = Some p' ->
  exists schedule', run_pool now schedule' p = Some p'.
Proof.
  revert p. induction schedule as [|i schedule IH]; intros p; simpl.
  - intros [= <-]. now exists [].
  - destruct (atomic_step now i p) as [p1|] eqn:E; [|discriminate].
    intros Hrun. destruct (IH _ Hrun) as [s Hs].
    unfold atomic_step in E.
    destruct (pool_step now i p) as [q|] eqn:Hq; [|discriminate].
    assert (Hone : q = p1 -> exists s', run_pool now s' p = Some p').
    { intros ->. exists (i :: s). simpl. now rewrite Hq. }
    destruct (workers q !! i) as [w|]; [|injection E; auto].
    destruct (w_pending w); [|injection E; auto].
    exists (i :: i :: s). simpl. now rewrite Hq, E.
Qed.

(** Such runs reach the end from every pool. *)
Lemma atomic_step_progress (i : nat) (p : pool) (w : worker) :
  workers p !! i = Some w -> w_done w = false ->
  exists p',
    atomic_step now i p = Some p' /\
    (sum_list (map work_left (workers p'))
     < sum_list (map work_left (workers p)))%nat.
Proof.
  intros Hw Hdone. unfold atomic_step.
  destruct (pool_step_progress now i p w Hw Hdone) as (p1 & -> & Hlt).
  destruct (workers p1 !! i) as [w1|] eqn:Hw1; [|eauto].
  destruct (w_pending w1) as [pending|] eqn:Hp; [|eauto].
  assert (Hd1 : w_done w1 = false).
  { unfold w_done. rewrite Hp. now destruct (w_todo w1). }
  destruct (pool_step_progress now i p1 w1 Hw1 Hd1) as (p2 & -> & Hlt2).
  exists p2. split; [reflexivity | lia].
Qed.

Lemma atomic_terminates (p : pool) :
  exists schedule p',
    run_atomic now schedule p = Some p' /\ finished p' = true.
Proof.
  remember (sum_list (map work_left (workers p))) as n eqn:Hn.
  revert p Hn. induction n as [n IH] using lt_wf_ind. intros p ->.
  destruct (finished p) eqn:Hfin.
  - now exists [], p.
  - destruct (not_finished p Hfin) as (i & w & Hw & Hd).
    destruct (atomic_step_progress i p w Hw Hd) as (p1 & Hstep & Hlt).
    destruct (IH _ Hlt p1 eq_refl) as (schedule & p' & Hrun & Hdone).
    exists (i :: schedule), p'. simpl. now rewrite Hstep.
Qed.

(** C8, as the code has it.  The workers share [known_records] without a
    lock: the membership test and the store are two accesses.  The batch can
    always be run to the end with every test followed at once by its store;
    every such run is a run of the pool, and in it no key is accepted as new
    twice and every accepted key is in the shared dict. *)
Theorem undivided_runs_accept_a_key_once (json_files : list string) :
  (exists schedule p,
      run_atomic now schedule (start_pool read_text json_loads true json_files)
      = Some p /\ finished p = true) /\
  (forall schedule p,
      run_atomic now schedule (start_pool read_text json_loads true json_files)
      = Some p ->
      (exists schedule',
          run_pool now schedule'
                   (start_pool read_text json_loads true json_files)
          = Some p) /\
      NoDup (accepted_keys now (map w_result (workers p))) /\
      (forall k, k ∈ accepted_keys now (map w_result (workers p)) ->
                 k ∈ shared p)).
Proof.
  split; [apply atomic_terminates|].
  intros schedule p Hrun. split; [now apply (run_atomic_is_run schedule)|].
  pose proof (run_atomic_settled schedule _ p
                (start_pool_settled json_files) Hrun) as (_ & Hnd & Hsub).
  now split.
Qed.

End KnownKeys.

Lemma undivided_runs_accept_a_key_once_witness :
  exists p,
    run_atomic "0" [0; 1]%nat
               (start_pool example_read_text example_json_loads true
                           ["a.json"; "b.json"]) = Some p /\
    NoDup (accepted_keys "0" (map w_result (workers p))) /\
    map duplicate_count (map w_result (workers p)) = [0; 1]%nat.
Proof.
  destruct (run_atomic "0" [0; 1]%nat _) as [p|] eqn:E;
    [|vm_compute in E; discriminate].
  pose proof (proj2 (undivided_runs_accept_a_key_once example_read_text
                       example_json_loads "0" ["a.json"; "b.json"])
                    [0; 1]%nat p E) as (_ & Hnd & _).
  exists p. split; [reflexivity|]. split; [exact Hnd|].
  vm_compute in E. injection E as <-. reflexivity.
Defined.

(** C8, as stated, fails: when the second worker tests the key between the
    first worker's test and store, both accept the product 42 as new and no
    duplicate is counted; run one after the other, the second is a
    duplicate. *)
Lemma both_workers_accept_the_key :
  exists divided undivided,
    run_batch example_read_text example_json_loads "0" true
              ["a.json"; "b.json"] [0; 1; 0; 1]%nat = Some divided /\
    accepted_keys "0" divided = ["id:42"; "id:42"] /\
    map record_count divided = [1; 1]%nat /\
    map duplicate_count divided = [0; 0]%nat /\
    run_batch example_read_text example_json_loads "0" true
              ["a.json"; "b.json"] [0; 0; 1]%nat = Some undivided /\
    accepted_keys "0" undivided = ["id:42"] /\
    map record_count undivided = [1; 0]%nat /\
    map duplicate_count undivided = [0; 1]%nat.
Proof.
  do 2 eexists.
  split; [vm_compute; reflexivity|]. split; [vm_compute; reflexivity|].
  split; [vm_compute; reflexivity|]. split; [vm_compute; reflexivity|].
  split; [vm_compute; reflexivity|]. split; [vm_compute; reflexivity|].
  split; vm_compute; reflexivity.
Qed.

(** ** The description of a search result *)

Lemma log_preview_ok (v : json) :
  can_preview v = true -> log_preview v = Py.Ok tt.
Proof. now destruct v. Qed.

Lemma log_preview_raises (v : json) :
  can_preview v = false -> exists e, log_preview v = Py.Raise e.
Proof. destruct v; try discriminate; intros _; eexists; reflexivity. Qed.

Lemma lacks_description_set (v : json) (pd : dict) :
  Py.truthy v = true ->
  lacks_description (Py.set "description" v pd) = false.
Proof.
  intros Hv. unfold lacks_description, get_truthy.
  now rewrite get_set_eq, Hv.
Qed.

Lemma get_truthy_truthy (k : string) (d : dict) (v : json) :
  get_truthy k d = Some v -> Py.truthy v = true.
Proof.
  unfold get_truthy. destruct (Py.get k d) as [x|]; [|discriminate].
  destruct (Py.truthy x) eqn:E; [|discriminate]. now intros [= <-].
Qed.

Lemma spec_description_truthy (specs : list json) (v : json) :
  spec_description specs = Some v -> Py.truthy v = true.
Proof.
  induction specs as [|spec specs IH]; simpl; [discriminate|].
  destruct spec as [| | | | | |d]; try assumption.
  destruct (Py.get "key" d) as [key|]; [|assumption].
  destruct (Py.get "value" d) as [value|]; [|assumption].
  destruct (is_description_key key && Py.truthy value) eqn:E; [|assumption].
  intros [= <-]. now apply andb_true_iff in E.
Qed.

Lemma price_from_offers_frame (k : string) (product pd : dict) :
  k <> "price" -> Py.get k (price_from_offers product pd) = Py.get k pd.
Proof.
  intros Hk. unfold price_from_offers.
  repeat match goal with
         | |- context [match ?x with _ => _ end] => destruct x
         end;
    rewrite ?get_set_ne by congruence; reflexivity.
Qed.

Lemma lacks_description_price (product pd : dict) :
  lacks_description (price_from_offers product pd) = lacks_description pd /\
  Py.get "description" (price_from_offers product pd)
  = Py.get "description" pd /\
  Py.get "title" (price_from_offers product pd) = Py.get "title" pd.
Proof.
  unfold lacks_description, get_truthy.
  rewrite !price_from_offers_frame by discriminate. auto.
Qed.

(** One probe found a value: the log line, then the copy if the description
    is still missing. *)
Lemma offer_description_ok (v : json) (pd : dict) :
  can_preview v = true ->
  offer_description v pd =
    Py.Ok (if lacks_description pd then Py.set "description" v pd else pd).
Proof.
  intros Hv. unfold offer_description. rewrite (log_preview_ok v Hv). simpl.
  now destruct (lacks_description pd).
Qed.

Lemma offer_description_raises (v : json) (pd : dict) :
  can_preview v = false -> exists e, offer_description v pd = Py.Raise e.
Proof.
  intros Hv. unfold offer_description.
  destruct (log_preview_raises v Hv) as [e ->]. now exists e.
Qed.

(** The loop over the specifications. *)
Lemma scan_description_specs_ok (specs : list json) (pd : dict) :
  specs_preview_ok specs = true ->
  scan_description_specs specs pd =
    Py.Ok (match (if lacks_description pd then spec_description specs
                  else None) with
           | Some v => Py.set "description" v pd
           | None => pd
           end).
Proof.
  revert pd. induction specs as [|spec specs IH]; intros pd; simpl.
  - now destruct (lacks_description pd).
  - destruct spec as [| | | | | |d]; try apply IH.
    destruct (Py.get "key" d) as [key|]; [|apply IH].
    destruct (Py.get "value" d) as [value|]; [|apply IH].
    destruct (is_description_key key && Py.truthy value) eqn:E; [|apply IH].
    intros Hok. apply andb_true_iff in Hok as [Hvalue Hrest].
    apply andb_true_iff in E as [_ Htruthy].
    rewrite (offer_description_ok value pd Hvalue). simpl.
    rewrite (IH _ Hrest).
    destruct (lacks_description pd) eqn:Hl.
    + now rewrite (lacks_description_set value pd Htruthy).
    + now rewrite Hl.
Qed.

Lemma scan_description_specs_raises (specs : list json) (pd : dict) :
  specs_preview_ok specs = false ->
  exists e, scan_description_specs specs pd = Py.Raise e.
Proof.
  revert pd. induction specs as [|spec specs IH]; intros pd; simpl;
    [discriminate|].
  destruct spec as [| | | | | |d]; try apply IH.
  destruct (Py.get "key" d) as [key|]; [|apply IH].
  destruct (Py.get "value" d) as [value|]; [|apply IH].
  destruct (is_description_key key && Py.truthy value) eqn:E; [|apply IH].
  destruct (can_preview value) eqn:Hvalue; simpl.
  - intros Hrest. rewrite (offer_description_ok value pd Hvalue). simpl.
    now apply IH.
  - intros _. destruct (offer_description_raises value pd Hvalue) as [e ->].
    now exists e.
Qed.

(** The copy a probe makes: its value becomes the description when the
    description is still missing. *)
Lemma probe_step (probe : option json) (pd : dict) :
  probe_ok probe = true ->
  match probe with
  | Some v => offer_description v pd
  | None => Py.Ok pd
  end = Py.Ok (copy_if_missing probe pd).
Proof.
  unfold copy_if_missing. destruct probe as [v|]; cbn [probe_ok].
  - intros Hv. rewrite (offer_description_ok v pd Hv).
    now destruct (lacks_description pd).
  - intros _. now destruct (lacks_description pd).
Qed.

Lemma probe_step_raises (probe : option json) (pd : dict) :
  probe_ok probe = false ->
  exists e, match probe with
            | Some v => offer_description v pd
            | None => Py.Ok pd
            end = Py.Raise e.
Proof.
  destruct probe as [v|]; cbn [probe_ok]; [|discriminate].
  apply offer_description_raises.
Qed.

Lemma description_from_content_spec_probe (product pd : dict) :
  description_from_content_spec product pd =
    match probe_content_spec product with
    | Some v => offer_description v pd
    | None => Py.Ok pd
    end.
Proof.
  unfold description_from_content_spec, probe_content_spec.
  destruct (Py.get "content_spec" product) as [[| | | | | |cs]|];
    try reflexivity.
Qed.

Lemma description_from_specifications_ok (product pd : dict) :
  match Py.get "specifications" product with
  | Some (JList specs) => specs_preview_ok specs
  | _ => true
  end = true ->
  description_from_specifications product pd =
    Py.Ok (copy_if_missing (probe_specifications product) pd).
Proof.
  unfold description_from_specifications, probe_specifications,
    copy_if_missing.
  destruct (Py.get "specifications" product) as [[| | | | |specs|]|];
    try (intros _; now destruct (lacks_description pd)).
  apply scan_description_specs_ok.
Qed.

Lemma description_from_specifications_raises (product pd : dict) :
  match Py.get "specifications" product with
  | Some (JList specs) => specs_preview_ok specs
  | _ => true
  end = false ->
  exists e, description_from_specifications product pd = Py.Raise e.
Proof.
  unfold description_from_specifications.
  destruct (Py.get "specifications" product) as [[| | | | |specs|]|];
    try discriminate.
  apply scan_description_specs_raises.
Qed.

Lemma probe_content_spec_truthy (product : dict) (v : json) :
  probe_content_spec product = Some v -> Py.truthy v = true.
Proof.
  unfold probe_content_spec.
  destruct (Py.get "content_spec" product) as [[| | | | | |cs]|];
    try discriminate.
  apply get_truthy_truthy.
Qed.

Lemma probe_specifications_truthy (product : dict) (v : json) :
  probe_specifications product = Some v -> Py.truthy v = true.
Proof.
  unfold probe_specifications.
  destruct (Py.get "specifications" product) as [[| | | | |specs|]|];
    try discriminate.
  apply spec_description_truthy.
Qed.

(** The description after the three copies and the title rule. *)
Lemma copies_description (p1 p2 p3 : option json) (pd : dict) :
  (forall v, p1 = Some v -> Py.truthy v = true) ->
  (forall v, p2 = Some v -> Py.truthy v = true) ->
  (forall v, p3 = Some v -> Py.truthy v = true) ->
  Py.get "description"
    (description_from_title
       (copy_if_missing p3 (copy_if_missing p2 (copy_if_missing p1 pd)))) =
    if lacks_description pd then
      match first_hit [p1; p2; p3] with
      | Some v => Some v
      | None =>
          match Py.get "title" pd with
          | Some title => Some title
          | None => Py.get "description" pd
          end
      end
    else Py.get "description" pd.
Proof.
  intros H1 H2 H3.
  assert (Hkeep : forall p q,
            lacks_description q = false -> copy_if_missing p q = q).
  { intros p q Hq. unfold copy_if_missing. now rewrite Hq. }
  assert (Hset : forall p v q,
            p = Some v -> (forall v, p = Some v -> Py.truthy v = true) ->
            lacks_description q = true ->
            copy_if_missing p q = Py.set "description" v q /\
            lacks_description (Py.set "description" v q) = false).
  { intros p v q -> Hp Hq. unfold copy_if_missing. rewrite Hq.
    split; [reflexivity|]. now apply lacks_description_set, Hp. }
  assert (Hnone : forall q, copy_if_missing None q = q).
  { intros q. unfold copy_if_missing. now destruct (lacks_description q). }
  assert (Htitle : forall q,
            lacks_description q = false -> description_from_title q = q).
  { intros q Hq. unfold description_from_title. now rewrite Hq. }
  destruct (lacks_description pd) eqn:Hl.
  - cbn [first_hit].
    destruct p1 as [v1|].
    { destruct (Hset _ v1 pd eq_refl H1 Hl) as [-> Hl1].
      rewrite (Hkeep p2 _ Hl1), (Hkeep p3 _ Hl1), Htitle by assumption.
      apply get_set_eq. }
    rewrite Hnone. destruct p2 as [v2|].
    { destruct (Hset _ v2 pd eq_refl H2 Hl) as [-> Hl2].
      rewrite (Hkeep p3 _ Hl2), Htitle by assumption. apply get_set_eq. }
    rewrite Hnone. destruct p3 as [v3|].
    { destruct (Hset _ v3 pd eq_refl H3 Hl) as [-> Hl3].
      rewrite Htitle by assumption. apply get_set_eq. }
    rewrite Hnone. unfold description_from_title. rewrite Hl.
    destruct (Py.get "title" pd); [apply get_set_eq | reflexivity].
  - now rewrite (Hkeep p1 _ Hl), (Hkeep p2 _ Hl), (Hkeep p3 _ Hl), Htitle.
Qed.

(** The steps of the enrichment, when every log line can be printed. *)
Lemma enrich_search_product_ok (product product_data : dict) :
  previews_ok product = true ->
  exists pd',
    enrich_search_product product product_data = Py.Ok pd' /\
    Py.get "description" pd' = enriched_description product product_data.
Proof.
  unfold previews_ok. rewrite !andb_true_iff.
  intros [[[Hdesc Hsnip] Hcs] Hspecs].
  unfold enrich_search_product, enriched_description.
  destruct (lacks_description_price product product_data)
    as (Hlacks & Hget & Htitle).
  set (pd1 := price_from_offers product product_data) in *.
  rewrite <- Hlacks, <- Hget, <- Htitle. clear Hlacks Hget Htitle.
  assert (Htail : forall pd,
    Py.bind (description_from_snippet product pd) (fun pd =>
    Py.bind (description_from_content_spec product pd) (fun pd =>
    Py.bind (description_from_specifications product pd) (fun pd =>
    Py.Ok (description_from_title pd)))) =
    Py.Ok (description_from_title
             (copy_if_missing (probe_specifications product)
                (copy_if_missing (probe_content_spec product)
                   (copy_if_missing (probe_snippet product) pd))))).
  { intros pd. unfold description_from_snippet.
    fold (probe_snippet product).
    rewrite (probe_step _ pd Hsnip). cbn [Py.bind].
    rewrite description_from_content_spec_probe, (probe_step _ _ Hcs).
    cbn [Py.bind].
    now rewrite (description_from_specifications_ok _ _ Hspecs). }
  unfold description_from_product.
  destruct (get_truthy "description" product) as [d|] eqn:Hd.
  - cbn [probe_ok] in Hdesc. rewrite (log_preview_ok d Hdesc).
    cbn [Py.bind]. rewrite Htail. eexists. split; [reflexivity|].
    rewrite copies_description;
      [| apply get_truthy_truthy | apply probe_content_spec_truthy
       | apply probe_specifications_truthy ].
    rewrite lacks_description_set by (apply (get_truthy_truthy _ _ _ Hd)).
    apply get_set_eq.
  - cbn [Py.bind]. rewrite Htail. eexists. split; [reflexivity|].
    apply copies_description;
      [ apply get_truthy_truthy | apply probe_content_spec_truthy
      | apply probe_specifications_truthy ].
Qed.

Lemma enrich_search_product_raises (product product_data : dict) :
  previews_ok product = false ->
  exists e, enrich_search_product product product_data = Py.Raise e.
Proof.
  unfold previews_ok, enrich_search_product.
  set (pd1 := price_from_offers product product_data).
  destruct (probe_ok (get_truthy "description" product)) eqn:Hdesc.
  2: { intros _. unfold description_from_product.
       destruct (get_truthy "description" product) as [d|];
         [|discriminate].
       destruct (log_preview_raises d Hdesc) as [e ->]. now exists e. }
  assert (Hfirst : exists pd2,
            description_from_product product pd1 = Py.Ok pd2).
  { unfold description_from_product.
    destruct (get_truthy "description" product) as [d|]; [|eauto].
    cbn [probe_ok] in Hdesc. rewrite (log_preview_ok d Hdesc). simpl. eauto. }
  destruct Hfirst as [pd2 ->]. cbn [Py.bind andb].
  unfold description_from_snippet. fold (probe_snippet product).
  destruct (probe_ok (probe_snippet product)) eqn:Hsnip.
  2: { intros _. destruct (probe_step_raises _ pd2 Hsnip) as [e ->].
       now exists e. }
  rewrite (probe_step _ pd2 Hsnip). cbn [Py.bind andb].
  rewrite description_from_content_spec_probe.
  destruct (probe_ok (probe_content_spec product)) eqn:Hcs.
  2: { intros _. destruct (probe_step_raises _ (copy_if_missing
                             (probe_snippet product) pd2) Hcs) as [e ->].
       now exists e. }
  rewrite (probe_step _ _ Hcs). cbn [Py.bind andb].
  intros Hspecs.
  destruct (description_from_specifications_raises product
              (copy_if_missing (probe_content_spec product)
                 (copy_if_missing (probe_snippet product) pd2)) Hspecs)
    as [e ->].
  now exists e.
Qed.

(** C3, as the code has it.  The enrichment is made by [run_conversion]
    of [app.py], on a search result that holds a nested [product] dict: it
    returns unless a log line fails on a value that cannot be sliced, and the
    dict it hands to [standardize_record] has for description the search
    result's own truthy description if there is one; otherwise, when the
    nested product lacks a truthy description, the first value found by the
    snippet, [content_spec.description] and the first truthy [Description]
    specification, in this order, and failing these the product's title if
    it has one; otherwise the description is unchanged.
    [process_json_file] makes no such copy: for a search-results array it
    standardizes the merged products as they are. *)
Theorem search_result_description (product product_data : dict) :
  ((exists pd', enrich_search_product product product_data = Py.Ok pd') <->
   previews_ok product = true) /\
  (forall pd',
      enrich_search_product product product_data = Py.Ok pd' ->
      Py.get "description" pd' = enriched_description product product_data) /\
  (forall r,
      Py.get "product" product = Some (JDict product_data) ->
      convert_search_result (JDict product) = Py.Ok (Some r) ->
      exists pd',
        enrich_search_product product product_data = Py.Ok pd' /\
        standardize_record pd' = Py.Ok r) /\
  (forall document results,
      Py.get "product" document = None ->
      Py.get "search_results" document = Some (JList results) ->
      omap merge_search_result results <> [] ->
      items_of_document (JDict document)
      = Py.Ok (omap merge_search_result results)).
Proof.
  split; [|split; [|split]].
  - split.
    + intros [pd' Hpd']. destruct (previews_ok product) eqn:E; [reflexivity|].
      destruct (enrich_search_product_raises product product_data E)
        as [e He]. congruence.
    + intros Hok.
      destruct (enrich_search_product_ok product product_data Hok)
        as (pd' & Hpd' & _). now exists pd'.
  - intros pd' Hpd'. destruct (previews_ok product) eqn:E.
    + destruct (enrich_search_product_ok product product_data E)
        as (pd'' & Hpd'' & Hdesc). congruence.
    + destruct (enrich_search_product_raises product product_data E)
        as [e He]. congruence.
  - intros r Hproduct. unfold convert_search_result. rewrite Hproduct.
    destruct (enrich_search_product product product_data) as [pd'|];
      [|discriminate].
    cbn [Py.bind].
    destruct (standardize_record pd') as [r'|] eqn:Hr'; [|discriminate].
    cbn [Py.bind]. intros [= <-]. exists pd'. now split.
  - intros document results Hproduct Hresults Hmerged.
    unfold items_of_document, extract_product_data, get_field, contains_key,
      index_key, Py.has.
    rewrite Hproduct, Hresults. cbn [Py.bind].
    destruct (omap merge_search_result results) as [|item items];
      [congruence | reflexivity].
Qed.

Lemma search_result_description_witness :
  exists pd' r,
    enrich_search_product pipe_result [("item_id", JStr "7")] = Py.Ok pd' /\
    Py.get "description" pd' = Some (JStr "Galvanized pipe") /\
    convert_search_result (JDict pipe_result) = Py.Ok (Some r) /\
    standardize_record pd' = Py.Ok r.
Proof.
  destruct (search_result_description pipe_result [("item_id", JStr "7")])
    as (Hok & Hdesc & Hrow & _).
  destruct (proj2 Hok eq_refl) as [pd' Hpd'].
  destruct (convert_search_result (JDict pipe_result)) as [[r|]|] eqn:E;
    try (vm_compute in E; discriminate).
  destruct (Hrow r eq_refl eq_refl) as (pd'' & Hpd'' & Hr).
  exists pd', r. split; [exact Hpd'|]. split.
  - rewrite (Hdesc pd' Hpd'). reflexivity.
  - split; [reflexivity|]. congruence.
Defined.

(** C3, as stated, fails: [process_json_file] standardizes the product of
    a search result without looking at the snippet beside it, so the
    description stays empty, where [run_conversion] copies the snippet. *)
Lemma process_json_file_does_not_enrich :
  exists r r',
    fst (process_json_file example_read_text example_json_loads "0"
                           "s.json" ∅)
    = mk_file_result [r] 1 0 [] /\
    row_get "Description" r = "" /\
    convert_search_result (JDict pipe_result) = Py.Ok (Some r') /\
    row_get "Description" r' = "Galvanized pipe".
Proof.
  do 2 eexists.
  split; [vm_compute; reflexivity|]. split; [vm_compute; reflexivity|].
  split; vm_compute; reflexivity.
Qed.

#[local] Set Warnings "-clear-no-such-hyp".

(** ** The entries of the table that [map_field_name] uses *)

Lemma all_chars_app (p : ascii -> bool) (a b : string) :
  all_chars p (a +:+ b) = all_chars p a && all_chars p b.
Proof.
  induction a as [|c a IH]; [reflexivity|].
  rewrite append_cons. simpl. now rewrite IH, andb_assoc.
Qed.

Lemma is_lower_text (gs : list string) :
  forallb is_lower gs = true -> is_lower (Py.text gs) = true.
Proof.
  induction gs as [|g gs IH]; [reflexivity|]. simpl.
  intros H. apply andb_true_iff in H as [Hg Hgs]. unfold is_lower in *.
  fold (Py.text gs). now rewrite all_chars_app, Hg, IH.
Qed.

Lemma is_capital_byte (k : N) :
  (k < 256)%N -> (k < 65 \/ 90 < k)%N -> is_capital (ascii_of_N k) = false.
Proof.
  intros Hk Hout. unfold is_capital. rewrite (byte_of_N k Hk).
  destruct (N.leb_spec 65 k), (N.leb_spec k 90); try reflexivity. lia.
Qed.

Lemma is_capital_lead (hi a b : N) :
  (128 <= hi)%N -> (b <> 0)%N -> (a < b * (256 - hi))%N ->
  is_capital (ascii_of_N (hi + a / b)) = false.
Proof.
  intros Hhi Hb Ha.
  assert (Hq : (a / b < 256 - hi)%N) by now apply N.Div0.div_lt_upper_bound.
  revert Hq. generalize (a / b)%N. intros q Hq. apply is_capital_byte; lia.
Qed.

Lemma is_capital_continuation (a : N) :
  is_capital (ascii_of_N (128 + a mod 64)) = false.
Proof.
  assert (Hr : (a mod 64 < 64)%N) by now apply N.mod_lt.
  revert Hr. generalize (a mod 64)%N. intros r Hr. apply is_capital_byte; lia.
Qed.

(** The bytes of a code point other than a capital letter of the ASCII
    alphabet hold no such letter. *)
Lemma utf8_is_lower (v : N) :
  (v < 65 \/ 90 < v)%N -> is_lower (Py.utf8 v) = true.
Proof.
  intros Hv. unfold Py.utf8, is_lower.
  destruct (N.ltb_spec v 128) as [H1|H1].
  { cbn [all_chars]. rewrite (is_capital_byte v) by lia. reflexivity. }
  destruct (N.ltb_spec v 2048) as [H2|H2].
  { cbn [all_chars].
    rewrite is_capital_lead, is_capital_continuation by lia. reflexivity. }
  destruct (N.ltb_spec v 65536) as [H3|H3].
  { destruct ((55296 <=? v)%N && (v <? 57344)%N); [reflexivity|].
    cbn [all_chars].
    rewrite is_capital_lead, !is_capital_continuation by lia. reflexivity. }
  destruct (N.ltb_spec v 1114112) as [H4|H4]; [|reflexivity].
  cbn [all_chars].
  rewrite is_capital_lead, !is_capital_continuation by lia. reflexivity.
Qed.

(** No entry of the mapping gives a capital letter of the ASCII alphabet,
    and these letters are all mapped. *)
Lemma LOWER_images :
  forallb (fun r : N * N * N * N =>
             let '(first, last, _, image) := r in
             (90 <? image)%N || (image + (last - first) <? 65)%N)
          Py.LOWER = true.
Proof. vm_compute. reflexivity. Qed.

Lemma lower_point_is_lower (n : N) :
  forallb is_lower (map Py.utf8 (Py.lower_point n)) = true.
Proof.
  unfold Py.lower_point. destruct (n =? 304)%N; [vm_compute; reflexivity|].
  destruct (find _ Py.LOWER) as [[[[first last] step] image]|] eqn:E.
  - apply find_some in E as [Hin Hn].
    pose proof LOWER_images as Himg. rewrite forallb_forall in Himg.
    apply Himg in Hin. cbn beta iota in Hin.
    apply andb_true_iff in Hn as [Hn _]. apply andb_true_iff in Hn as [H1 H2].
    apply N.leb_le in H1, H2. simpl. rewrite utf8_is_lower; [reflexivity|].
    apply orb_true_iff in Hin as [H|H]; apply N.ltb_lt in H; lia.
  - simpl. rewrite utf8_is_lower; [reflexivity|].
    destruct (N.leb_spec 65 n) as [H1|H1]; [|lia].
    destruct (N.leb_spec n 90) as [H2|H2]; [|lia].
    pose proof (find_none _ _ E (65, 90, 1, 97)%N ltac:(now left)) as Hrun.
    cbn beta iota in Hrun.
    apply N.leb_le in H1, H2. rewrite H1, H2, N.mod_1_r in Hrun.
    discriminate.
Qed.

Lemma lower_char_is_lower (g : string) :
  (exists c, g = String c "" /\ Py.is_ascii c = true) \/
  all_chars (fun c => negb (Py.is_ascii c)) g = true ->
  is_lower (Py.lower_char g) = true.
Proof.
  intros Hg. unfold Py.lower_char. destruct (Py.point g) as [n|] eqn:E.
  - apply is_lower_text, lower_point_is_lower.
  - destruct Hg as [(c & -> & Hc) | Hg].
    + rewrite (point_ascii c Hc) in E. discriminate.
    + unfold is_lower. revert Hg. clear E.
      induction g as [|c g IH]; [reflexivity|]. simpl.
      intros H. apply andb_true_iff in H as [Hc Hg].
      rewrite (IH Hg), andb_true_r. apply negb_true_iff in Hc.
      unfold Py.is_ascii in Hc. apply N.ltb_ge in Hc.
      unfold is_capital. destruct (N.leb_spec (Py.byte c) 90); [lia|].
      now rewrite andb_false_r.
Qed.

(** A lower-cased text holds no capital letter of the ASCII alphabet. *)
Lemma lower_is_lower (s : string) : is_lower (Py.lower s) = true.
Proof.
  unfold Py.lower. apply is_lower_text.
  pose proof (chars_shape s) as Hs. generalize false.
  induction Hs as [|g gs Hg Hgs IH]; intros after_cased; [reflexivity|].
  cbn [Py.lower_chars forallb]. rewrite IH, andb_true_r.
  destruct (Py.is_point 931 g); [|now apply lower_char_is_lower].
  destruct (after_cased && negb (Py.before_cased gs));
    vm_compute; reflexivity.
Qed.

(** What occurs in a lower-cased name is in lower case. *)
Lemma occurs_in_lower (sub s : string) :
  Py.contains sub (Py.lower s) = true -> is_lower sub = true.
Proof.
  intros H. apply contains_spec in H as (before & after & H).
  pose proof (lower_is_lower s) as Hall. unfold is_lower in *.
  rewrite H, !all_chars_app in Hall.
  apply andb_true_iff in Hall as [_ Hall].
  now apply andb_true_iff in Hall as [Hall _].
Qed.

Lemma get_lowercase {V : Type} (k : string) (table : list (string * V)) :
  is_lower k = true ->
  Py.get k (List.filter (fun st => is_lower (fst st)) table) = Py.get k table.
Proof.
  intros Hk. unfold Py.get.
  induction table as [|[k' v] table IH]; [reflexivity|]. simpl.
  destruct (String.eqb_spec k k') as [<-|Hne].
  - rewrite Hk. simpl. now rewrite String.eqb_refl.
  - destruct (is_lower k'); simpl; [|exact IH].
    destruct (String.eqb_spec k k'); [congruence | exact IH].
Qed.

Lemma find_filter {A : Type} (f keep : A -> bool) (l : list A) :
  (forall x, f x = true -> keep x = true) ->
  find f (List.filter keep l) = find f l.
Proof.
  intros H. induction l as [|x l IH]; [reflexivity|]. simpl.
  destruct (f x) eqn:Hf.
  - rewrite (H x Hf). simpl. now rewrite Hf.
  - destruct (keep x); simpl; [now rewrite Hf | exact IH].
Qed.

Lemma map_field_name_lowercase (field_name : string) :
  map_field_name field_name =
    match Py.get (Py.lower field_name) lowercase_entries with
    | Some target => target
    | None =>
        match find (fun st => Py.contains (fst st) (Py.lower field_name))
                   lowercase_entries with
        | Some (_, target) => target
        | None => field_name
        end
    end.
Proof.
  unfold map_field_name, lowercase_entries.
  rewrite get_lowercase.
  - rewrite find_filter; [reflexivity|].
    intros [s t]. simpl. apply occurs_in_lower.
  - apply lower_is_lower.
Qed.

(** X1. [map_field_name] compares the lower-cased name with the keys of
    the table, so the 28 keys written in camel case never match: on every
    name the function gives what it gives with the 46 lower-case entries
    alone.  Eight camel-case keys are therefore not mapped to the canonical
    name the table gives them: [referenceId] becomes an Item ID,
    [purchasePrice] a Rate, and [itemType] is left unmapped. *)
Theorem map_field_name_lowercase_entries :
  (forall field_name,
      map_field_name field_name =
        match Py.get (Py.lower field_name) lowercase_entries with
        | Some target => target
        | None =>
            match find (fun st => Py.contains (fst st) (Py.lower field_name))
                       lowercase_entries with
            | Some (_, target) => target
            | None => field_name
            end
        end) /\
  length FIELD_MAPPING = 74%nat /\ length lowercase_entries = 46%nat /\
  List.filter (fun st => negb (String.eqb (map_field_name (fst st)) (snd st)))
              FIELD_MAPPING
  = [ ("referenceId", "Reference ID"); ("refId", "Reference ID");
      ("externalId", "Reference ID"); ("purchasePrice", "Purchase Rate");
      ("costPrice", "Purchase Rate"); ("wholesalePrice", "Purchase Rate");
      ("itemType", "Item Type"); ("productType", "Item Type") ] /\
  map map_field_name [ "referenceId"; "purchasePrice"; "itemType" ]
  = [ "Item ID"; "Rate"; "itemType" ].
Proof.
  split; [exact map_field_name_lowercase|].
  repeat split; vm_compute; reflexivity.
Qed.

Lemma contains_trans (a b c : string) :
  Py.contains a b = true -> Py.contains b c = true -> Py.contains a c = true.
Proof.
  rewrite !contains_spec. intros (x & y & ->) (u & v & ->).
  exists (u +:+ x), (y +:+ v). now rewrite !append_assoc.
Qed.

Lemma find_scan_entries (name : string) (earlier : list string)
      (table : list (string * string)) :
  (forall e, In e earlier -> Py.contains e name = false) ->
  find (fun st => Py.contains (fst st) name) (scan_entries earlier table)
  = find (fun st => Py.contains (fst st) name) table.
Proof.
  revert earlier. induction table as [|[s t] table IH]; intros earlier He;
    [reflexivity|].
  cbn [scan_entries find fst].
  destruct (Py.contains s name) eqn:Hs.
  - destruct (existsb _ earlier) eqn:Hex.
    + apply existsb_exists in Hex as (e & Hin & Hes).
      pose proof (contains_trans e s name Hes Hs) as Hen.
      rewrite (He e Hin) in Hen. discriminate.
    + cbn [find fst]. now rewrite Hs.
  - assert (He' : forall e, In e (s :: earlier) -> Py.contains e name = false).
    { intros e [<-|Hin]; auto. }
    destruct (existsb _ earlier); [now apply IH|].
    cbn [find fst]. rewrite Hs. now apply IH.
Qed.

Lemma get_Some_In {V : Type} (k : string) (v : V) (d : list (string * V)) :
  Py.get k d = Some v -> In (k, v) d.
Proof.
  unfold Py.get. induction d as [|[k' v'] d IH]; [discriminate|]. simpl.
  destruct (String.eqb_spec k k') as [->|_].
  - intros [= ->]. now left.
  - intros H. right. now apply IH.
Qed.

Lemma map_field_name_scan (field_name : string) :
  map_field_name field_name =
    match Py.get (Py.lower field_name) FIELD_MAPPING with
    | Some target => target
    | None =>
        match find (fun st => Py.contains (fst st) (Py.lower field_name))
                   effective_entries with
        | Some (_, target) => target
        | None => field_name
        end
    end.
Proof.
  rewrite map_field_name_lowercase.
  unfold lowercase_entries at 1. rewrite get_lowercase by apply lower_is_lower.
  unfold effective_entries. now rewrite find_scan_entries by intros e [].
Qed.

(** How a name gets its canonical name. *)
Lemma map_field_name_cases (field_name target : string) :
  map_field_name field_name = target ->
  In (Py.lower field_name, target) FIELD_MAPPING \/
  (exists source, In (source, target) effective_entries /\
                  Py.contains source (Py.lower field_name) = true) \/
  (target = field_name /\
   find (fun st => Py.contains (fst st) (Py.lower field_name))
        effective_entries = None).
Proof.
  rewrite map_field_name_scan.
  destruct (Py.get _ FIELD_MAPPING) as [t|] eqn:Hget.
  - intros <-. left. now apply get_Some_In.
  - destruct (find _ effective_entries) as [[s t]|] eqn:Hfind.
    + intros <-. right. left. apply find_some in Hfind as [Hin Hs].
      now exists s.
    + intros <-. right. right. now split.
Qed.

Lemma lowercase_entries_filter :
  lowercase_entries
  = List.filter (fun st : string * string => is_lower (fst st)) FIELD_MAPPING.
Proof. reflexivity. Qed.

Lemma effective_entries_eq :
  effective_entries =
    [ ("id", "Item ID"); ("name", "Item Name"); ("title", "Item Name");
      ("sku", "SKU"); ("model", "SKU"); ("description", "Description");
      ("details", "Description"); ("price", "Rate"); ("rate", "Rate");
      ("unit", "Usage unit"); ("category", "Item Type");
      ("item_type", "Item Type"); ("product_type", "Item Type");
      ("manufacturer", "CF.Manufacturer"); ("brand", "CF.Manufacturer");
      ("maker", "CF.Manufacturer"); ("url", "CF.URL"); ("link", "CF.URL");
      ("material", "CF.Material") ].
Proof. vm_compute. reflexivity. Qed.

(** The names that get a canonical name no entry of the scan carries. *)
Lemma map_field_name_exact_only (field_name target : string)
      (names : list string) :
  forallb (fun st => negb (String.eqb (snd st) target)) effective_entries
  = true ->
  map_field_name target <> target ->
  map (fun st => fst st)
      (List.filter (fun st => String.eqb (snd st) target) lowercase_entries)
  = names ->
  map_field_name field_name = target <-> In (Py.lower field_name) names.
Proof.
  intros Hscan Hself Hnames. split.
  - intros H. pose proof H as Hmap.
    apply map_field_name_cases in H as [Hin | [(s & Hin & _) | [-> _]]].
    + rewrite <- Hnames. apply in_map_iff.
      exists (Py.lower field_name, target). split; [reflexivity|].
      apply filter_In. split; [|simpl; apply String.eqb_refl].
      rewrite lowercase_entries_filter.
      apply filter_In. split; [assumption|]. apply lower_is_lower.
    + rewrite forallb_forall in Hscan. apply Hscan in Hin. simpl in Hin.
      rewrite String.eqb_refl in Hin. discriminate Hin.
    + destruct (Hself Hmap).
  - intros Hin. rewrite <- Hnames in Hin. apply in_map_iff in Hin
      as ([k t] & Hk & Hin). simpl in Hk. subst k.
    apply filter_In in Hin as [Hin Ht]. simpl in Ht.
    apply String.eqb_eq in Ht. subst t.
    rewrite lowercase_entries_filter in Hin.
    apply filter_In in Hin as [Hin _].
    unfold map_field_name.
    rewrite (get_In _ _ _ FIELD_MAPPING_keys_NoDup Hin). reflexivity.
Qed.

(** X2. When the lower-cased name is not a key of the table,
    [map_field_name] returns the first entry whose key occurs in it, so an
    entry whose key holds an earlier key is never returned: the scan gives
    what it gives on 19 entries.  None of them carries Reference ID or
    Purchase Rate: a name is mapped to Reference ID only when it is
    [reference_id], [ref_id] or [external_id] up to case, and to Purchase
    Rate only when it is [purchase_price], [cost_price] or
    [wholesale_price] up to case. *)
Theorem map_field_name_effective_entries :
  (forall field_name,
      map_field_name field_name =
        match Py.get (Py.lower field_name) FIELD_MAPPING with
        | Some target => target
        | None =>
            match find (fun st => Py.contains (fst st) (Py.lower field_name))
                       effective_entries with
            | Some (_, target) => target
            | None => field_name
            end
        end) /\
  map fst effective_entries =
    [ "id"; "name"; "title"; "sku"; "model"; "description"; "details";
      "price"; "rate"; "unit"; "category"; "item_type"; "product_type";
      "manufacturer"; "brand"; "maker"; "url"; "link"; "material" ] /\
  (forall field_name,
      map_field_name field_name = "Reference ID" <->
      In (Py.lower field_name) ["reference_id"; "ref_id"; "external_id"]) /\
  (forall field_name,
      map_field_name field_name = "Purchase Rate" <->
      In (Py.lower field_name)
         ["purchase_price"; "cost_price"; "wholesale_price"]).
Proof.
  split; [exact map_field_name_scan|].
  split; [now rewrite effective_entries_eq|].
  split; intros field_name; apply map_field_name_exact_only;
    try (vm_compute; reflexivity); vm_compute; discriminate.
Qed.

(** ** [generate_record_key] *)

Lemma row_get_In (h v : string) (r : row) :
  row_get h r = v -> v <> "" -> In (h, v) r.
Proof.
  unfold row_get. destruct (Py.get h r) as [s|] eqn:E; simpl.
  - intros -> _. now apply get_Some_In.
  - congruence.
Qed.

(** A row with a value under a standard header never gets the key made of
    the time. *)
Lemma generate_record_key_clock (now now' h v : string) (r : row) :
  Py.mem h STANDARD_HEADERS = true -> row_get h r = v -> v <> "" ->
  generate_record_key now r = generate_record_key now' r /\
  String.prefix "unknown:" (generate_record_key now r) = false.
Proof.
  intros Hh Hv Hne. unfold generate_record_key.
  destruct (Py.nonempty (row_get "Item ID" r)); [now split|].
  destruct (Py.nonempty (row_get "SKU" r)); [now split|].
  destruct (_ && _); [now split|].
  destruct (map snd _) as [|value values] eqn:E; [|now split].
  exfalso. apply (row_get_In _ _ _ Hv) in Hne as Hin.
  assert (Hv' : In v (map snd (List.filter
             (fun kv : string * string =>
                Py.nonempty (snd kv) && Py.mem (fst kv) STANDARD_HEADERS) r))).
  { apply in_map_iff. exists (h, v). split; [reflexivity|].
    apply filter_In. split; [assumption|]. simpl.
    rewrite Hh, andb_true_r. now apply nonempty_true. }
  rewrite E in Hv'. destruct Hv'.
Qed.

Lemma standardize_record_attempt (now now' path : string) (item : json) :
  attempt_item now path item = attempt_item now' path item.
Proof.
  unfold attempt_item. destruct item; try reflexivity.
  destruct (standardize_record kvs) as [r|e] eqn:Hr; [|reflexivity].
  apply standardize_record_inv in Hr as [_ Hconst].
  f_equal.
  apply (generate_record_key_clock now now' "Source" "HD");
    [reflexivity | | discriminate].
  apply Hconst. now left.
Qed.

Lemma process_json_file_clock (read_text : string -> Py.result string)
      (json_loads : string -> Py.result json) (now now' file_path : string)
      (known_records : gset string) :
  process_json_file read_text json_loads now file_path known_records
  = process_json_file read_text json_loads now' file_path known_records.
Proof.
  unfold process_json_file.
  destruct (load_items read_text json_loads file_path) as [items|msg];
    [|reflexivity].
  generalize (empty_result, known_records).
  induction items as [|item items IH]; intros st; [reflexivity|].
  cbn [fold_left]. rewrite IH. f_equal.
  unfold process_item. destruct st as [res known].
  now rewrite (standardize_record_attempt now now').
Qed.

(** X3. The time-stamped key of the last resort is never given to a row
    that [standardize_record] returned: such a row always carries the five
    fixed values, so its key is built from the row alone, does not start
    with [unknown:] and is the same at every time of the clock.  What
    [process_json_file] returns does not depend on the clock either. *)
Theorem generate_record_key_clock_free (record : dict) (r : row)
        (now now' : string) :
  standardize_record record = Py.Ok r ->
  generate_record_key now r = generate_record_key now' r /\
  String.prefix "unknown:" (generate_record_key now r) = false /\
  (forall read_text json_loads file_path known_records,
      process_json_file read_text json_loads now file_path known_records
      = process_json_file read_text json_loads now' file_path known_records).
Proof.
  intros Hr. apply standardize_record_inv in Hr as [_ Hconst].
  destruct (generate_record_key_clock now now' "Source" "HD" r)
    as [Hkey Hprefix]; [reflexivity | apply Hconst; now left | discriminate |].
  split; [exact Hkey|]. split; [exact Hprefix|].
  intros. apply process_json_file_clock.
Qed.

Lemma generate_record_key_clock_free_witness :
  generate_record_key "1700000000.0" constants_row = "hash:HD_HD_HD_43%_HD" /\
  generate_record_key "1700000001.5" constants_row = "hash:HD_HD_HD_43%_HD".
Proof.
  destruct (generate_record_key_clock_free [] constants_row
              "1700000000.0" "1700000001.5" eq_refl) as (Hkey & _).
  split; [reflexivity|]. rewrite <- Hkey. reflexivity.
Defined.

Lemma append_inj_l (p a b : string) : p +:+ a = p +:+ b -> a = b.
Proof.
  induction p as [|c p IH]; [now rewrite !append_nil_l|].
  rewrite !append_cons. intros [= H]. now apply IH.
Qed.

Lemma prefix_append (p s : string) : String.prefix p (p +:+ s) = true.
Proof. apply prefix_spec. now exists s. Qed.

(** The keys of the tiers below the Item ID do not start as an ["id:"] key
    does. *)
Lemma generate_record_key_no_id (now : string) (r : row) :
  row_get "Item ID" r = "" ->
  String.prefix "id:" (generate_record_key now r) = false.
Proof.
  intros Hid. unfold generate_record_key. rewrite Hid.
  change (Py.nonempty "") with false. cbv iota.
  destruct (Py.nonempty (row_get "SKU" r)); [reflexivity|].
  destruct (_ && _); [reflexivity|].
  now destruct (map snd _).
Qed.

Lemma generate_record_key_no_sku (now : string) (r : row) :
  row_get "Item ID" r = "" -> row_get "SKU" r = "" ->
  String.prefix "sku:" (generate_record_key now r) = false.
Proof.
  intros Hid Hsku. unfold generate_record_key. rewrite Hid, Hsku.
  change (Py.nonempty "") with false. cbv iota.
  destruct (_ && _); [reflexivity|].
  now destruct (map snd _).
Qed.

Lemma generate_record_key_id (now : string) (r : row) :
  row_get "Item ID" r <> "" ->
  generate_record_key now r = "id:" +:+ row_get "Item ID" r.
Proof.
  intros Hid. apply nonempty_true in Hid. unfold generate_record_key.
  now rewrite Hid.
Qed.

Lemma generate_record_key_sku (now : string) (r : row) :
  row_get "Item ID" r = "" -> row_get "SKU" r <> "" ->
  generate_record_key now r = "sku:" +:+ row_get "SKU" r.
Proof.
  intros Hid Hsku. apply nonempty_true in Hsku. unfold generate_record_key.
  rewrite Hid, Hsku. reflexivity.
Qed.

(** X4. Two rows that both have an Item ID have the same key exactly when
    their Item IDs are equal, whatever their other columns hold, and a row
    with an Item ID never shares its key with a row without one.  Among
    rows without Item ID the same holds of the SKU. *)
Theorem generate_record_key_by_id (now now' : string) (r1 r2 : row) :
  (row_get "Item ID" r1 <> "" -> row_get "Item ID" r2 <> "" ->
   (generate_record_key now r1 = generate_record_key now' r2 <->
    row_get "Item ID" r1 = row_get "Item ID" r2)) /\
  (row_get "Item ID" r1 <> "" -> row_get "Item ID" r2 = "" ->
   generate_record_key now r1 <> generate_record_key now' r2) /\
  (row_get "Item ID" r1 = "" -> row_get "Item ID" r2 = "" ->
   row_get "SKU" r1 <> "" -> row_get "SKU" r2 <> "" ->
   (generate_record_key now r1 = generate_record_key now' r2 <->
    row_get "SKU" r1 = row_get "SKU" r2)) /\
  (row_get "Item ID" r1 = "" -> row_get "Item ID" r2 = "" ->
   row_get "SKU" r1 <> "" -> row_get "SKU" r2 = "" ->
   generate_record_key now r1 <> generate_record_key now' r2).
Proof.
  split; [|split; [|split]].
  - intros H1 H2. rewrite !generate_record_key_id by assumption. split.
    + apply append_inj_l.
    + now intros ->.
  - intros H1 H2 Heq.
    pose proof (generate_record_key_no_id now' r2 H2) as Hno.
    rewrite <- Heq, generate_record_key_id, prefix_append in Hno
      by assumption.
    discriminate Hno.
  - intros H1 H2 S1 S2. rewrite !generate_record_key_sku by assumption. split.
    + apply append_inj_l.
    + now intros ->.
  - intros H1 H2 S1 S2 Heq.
    pose proof (generate_record_key_no_sku now' r2 H2 S2) as Hno.
    rewrite <- Heq, generate_record_key_sku, prefix_append in Hno
      by assumption.
    discriminate Hno.
Qed.

Lemma generate_record_key_by_id_witness :
  generate_record_key "0" (row_with_id "42")
  <> generate_record_key "1" (row_with_id "43") /\
  generate_record_key "0" (row_with_id "42")
  <> generate_record_key "1" constants_row.
Proof.
  destruct (generate_record_key_by_id "0" "1" (row_with_id "42")
                                      (row_with_id "43")) as (Hsame & _).
  destruct (generate_record_key_by_id "0" "1" (row_with_id "42")
                                      constants_row) as (_ & Hdiff & _).
  split.
  - intros Heq. apply Hsame in Heq; [discriminate Heq | discriminate ..].
  - apply Hdiff; [discriminate | reflexivity].
Defined.

(** ** The description in the key *)

Lemma rev_app_acc (s acc : string) :
  String.rev_app s acc = String.rev s +:+ acc.
Proof.
  unfold String.rev. revert acc.
  induction s as [|c s IH]; intros acc; [reflexivity|]. simpl.
  rewrite (IH (String c acc)), (IH (String c "")), append_assoc.
  reflexivity.
Qed.

Lemma rev_cons (c : ascii) (s : string) :
  String.rev (String c s) = String.rev s +:+ String c "".
Proof. unfold String.rev at 1. simpl. apply rev_app_acc. Qed.

Lemma rev_app (a b : string) :
  String.rev (a +:+ b) = String.rev b +:+ String.rev a.
Proof.
  induction a as [|c a IH].
  - now rewrite append_nil_l, append_nil_r.
  - now rewrite append_cons, !rev_cons, IH, append_assoc.
Qed.

Lemma rev_rev (s : string) : String.rev (String.rev s) = s.
Proof.
  induction s as [|c s IH]; [reflexivity|].
  now rewrite rev_cons, rev_app, IH.
Qed.

Lemma text_letters (s : string) : Py.text (letters s) = s.
Proof.
  induction s as [|c s IH]; [reflexivity|]. cbn [letters Py.text fold_right].
  fold (Py.text (letters s)). now rewrite IH.
Qed.

Lemma length_letters (s : string) : length (letters s) = String.length s.
Proof. induction s as [|c s IH]; simpl; congruence. Qed.

Lemma letters_app (a b : string) : letters (a +:+ b) = letters a ++ letters b.
Proof.
  induction a as [|c a IH]; [reflexivity|].
  rewrite append_cons. simpl. now rewrite IH.
Qed.

Lemma letters_rev (s : string) : letters (String.rev s) = List.rev (letters s).
Proof.
  induction s as [|c s IH]; [reflexivity|].
  now rewrite rev_cons, letters_app, IH.
Qed.

(** An ASCII text is cut into its bytes, whatever follows it. *)
Lemma chars_ascii (head s : string) :
  all_chars Py.is_ascii head = true ->
  Py.chars (head +:+ s) = letters head ++ Py.chars s.
Proof.
  induction head as [|c head IH]; [reflexivity|].
  intros H. cbn [all_chars] in H. apply andb_true_iff in H as [Hc Hhead].
  rewrite append_cons, chars_cons_ascii by assumption.
  cbn [letters app]. now rewrite IH.
Qed.

Lemma begins_letters (p : ascii -> bool) (s : string) :
  begins (fun g => match g with
                   | String c _ => p c
                   | EmptyString => false
                   end) (letters s)
  = starts_with p s.
Proof. now destruct s. Qed.

Lemma lstrip_chars_kept (gs : list string) :
  begins (fun g => negb (Py.is_space g)) gs = true ->
  Py.lstrip_chars gs = gs.
Proof.
  destruct gs as [|g gs]; [discriminate|]. simpl.
  now destruct (Py.is_space g).
Qed.

Lemma lstrip_chars_before (before gs : list string) :
  begins (fun g => negb (Py.is_space g)) gs = true ->
  exists rest, Py.lstrip_chars (before ++ gs) = rest ++ gs.
Proof.
  intros Hgs. induction before as [|g before IH].
  - exists []. now rewrite lstrip_chars_kept.
  - cbn [app Py.lstrip_chars]. destruct (Py.is_space g); [exact IH|].
    now exists (g :: before).
Qed.

Lemma begins_not_space (s : string) :
  starts_with not_space s = true ->
  begins (fun g => negb (Py.is_space g)) (letters s) = true.
Proof. now destruct s. Qed.

(** [strip] keeps an ASCII head that starts and ends with characters other
    than white space. *)
Lemma strip_head (head tail : string) :
  all_chars Py.is_ascii head = true ->
  starts_with not_space head = true ->
  starts_with not_space (String.rev head) = true ->
  exists rest, Py.strip (head +:+ tail) = head +:+ rest.
Proof.
  intros Hascii Hfirst Hlast. unfold Py.strip.
  rewrite (chars_ascii head tail Hascii).
  rewrite (lstrip_chars_kept (letters head ++ Py.chars tail)).
  - rewrite rev_app_distr.
    apply begins_not_space in Hlast. rewrite letters_rev in Hlast.
    destruct (lstrip_chars_before (List.rev (Py.chars tail))
                                  (List.rev (letters head)) Hlast)
      as [rest ->].
    exists (Py.text (List.rev rest)).
    now rewrite rev_app_distr, rev_involutive, text_app, text_letters.
  - apply begins_not_space in Hfirst.
    destruct (letters head); [discriminate | exact Hfirst].
Qed.

(** The entries of the mapping below 128 are those of the capital
    letters. *)
Lemma LOWER_ascii :
  forallb (fun r : N * N * N * N =>
             let '(first, last, _, image) := r in
             (128 <=? first)%N
             || ((first =? 65)%N && (last =? 90)%N && (image =? 97)%N))
          Py.LOWER = true.
Proof. vm_compute. reflexivity. Qed.

Lemma lower_char_ascii (c : ascii) :
  Py.is_ascii c = true ->
  exists c', Py.lower_char (String c "") = String c' "" /\
             Py.is_ascii c' = true.
Proof.
  intros Hc. unfold Py.lower_char. rewrite (point_ascii c Hc).
  unfold Py.is_ascii in Hc. apply N.ltb_lt in Hc.
  assert (Hone : forall v, (v < 128)%N ->
             exists c', Py.text (map Py.utf8 [v]) = String c' "" /\
                        Py.is_ascii c' = true).
  { intros v Hv. exists (ascii_of_N v). cbn [map Py.text fold_right].
    unfold Py.utf8. apply N.ltb_lt in Hv as Hlt. rewrite Hlt.
    split; [reflexivity|].
    unfold Py.is_ascii. rewrite byte_of_N by lia. exact Hlt. }
  unfold Py.lower_point.
  destruct (N.eqb_spec (Py.byte c) 304) as [E|_]; [lia|].
  destruct (find _ Py.LOWER) as [[[[first last] step] image]|] eqn:E;
    [|now apply Hone].
  apply find_some in E as [Hin Hn].
  pose proof LOWER_ascii as Htable. rewrite forallb_forall in Htable.
  apply Htable in Hin. cbn beta iota in Hin.
  apply andb_true_iff in Hn as [Hn _]. apply andb_true_iff in Hn as [H1 H2].
  apply N.leb_le in H1, H2. apply Hone.
  apply orb_true_iff in Hin as [H|H]; [apply N.leb_le in H; lia|].
  apply andb_true_iff in H as [H H97]. apply andb_true_iff in H as [H65 H90].
  apply N.eqb_eq in H65, H90, H97. lia.
Qed.

Lemma is_point_ascii (n : N) (c : ascii) :
  Py.is_ascii c = true -> (128 <= n)%N -> Py.is_point n (String c "") = false.
Proof.
  intros Hc Hn. unfold Py.is_point. rewrite (point_ascii c Hc).
  unfold Py.is_ascii in Hc. apply N.ltb_lt in Hc. apply N.eqb_neq. lia.
Qed.

(** [lower] on an ASCII text: byte by byte, whatever follows the text. *)
Lemma lower_chars_letters (head : string) :
  all_chars Py.is_ascii head = true ->
  forall after_cased,
  exists low,
    all_chars Py.is_ascii low = true /\
    String.length low = String.length head /\
    forall gs, exists after_cased',
      Py.lower_chars after_cased (letters head ++ gs)
      = letters low ++ Py.lower_chars after_cased' gs.
Proof.
  induction head as [|c head IH]; intros Hascii after_cased.
  - exists "". repeat split. intros gs. now exists after_cased.
  - simpl in Hascii. apply andb_true_iff in Hascii as [Hc Hhead].
    destruct (lower_char_ascii c Hc) as (c' & Hlow & Hc').
    set (st := if Py.in_class Py.CASE_IGNORABLE (String c "")
               then after_cased else Py.in_class Py.CASED (String c "")).
    destruct (IH Hhead st) as (low & Hlowa & Hlen & Hgs).
    exists (String c' low). split; [simpl; now rewrite Hc', Hlowa|].
    split; [simpl; now rewrite Hlen|].
    intros gs. destruct (Hgs gs) as [st' Hst']. exists st'.
    cbn [letters app Py.lower_chars].
    rewrite (is_point_ascii 931 c Hc) by lia. fold st.
    now rewrite Hlow, Hst'.
Qed.

Lemma lower_ascii_head (head rest : string) :
  all_chars Py.is_ascii head = true ->
  exists low more,
    all_chars Py.is_ascii low = true /\
    String.length low = String.length head /\
    Py.lower head = low /\ Py.lower (head +:+ rest) = low +:+ more.
Proof.
  intros Hascii.
  destruct (lower_chars_letters head Hascii false) as (low & Hlow & Hlen & Hgs).
  destruct (Hgs []) as [st0 H0]. destruct (Hgs (Py.chars rest)) as [st1 H1].
  exists low, (Py.text (Py.lower_chars st1 (Py.chars rest))).
  split; [assumption|]. split; [assumption|]. unfold Py.lower. split.
  - rewrite <- (append_nil_r head) at 1. rewrite (chars_ascii head "" Hascii).
    cbn [Py.chars]. rewrite H0. cbn [Py.lower_chars].
    now rewrite app_nil_r, text_letters.
  - rewrite (chars_ascii head rest Hascii), H1.
    now rewrite text_app, text_letters.
Qed.

Lemma take_str_ascii (n : nat) (a b : string) :
  all_chars Py.is_ascii a = true -> (n <= String.length a)%nat ->
  Py.take_str n (a +:+ b) = Py.take_str n a.
Proof.
  intros Hascii Hn. unfold Py.take_str.
  rewrite <- (append_nil_r a) at 2.
  rewrite !(chars_ascii a) by assumption. cbn [Py.chars].
  rewrite app_nil_r, firstn_app, length_letters.
  replace (n - String.length a)%nat with 0%nat by lia.
  now rewrite firstn_O, app_nil_r.
Qed.

(** X5. Rows without Item ID and SKU are told apart by their name and the
    first 50 characters of their description only: two rows with the same
    name whose descriptions start with the same ASCII text of 50 characters
    or more (a text that begins and ends with something else than white
    space) have the same key, whatever follows that text. *)
Theorem generate_record_key_truncates (now now' : string) (r1 r2 : row)
        (name head tail1 tail2 : string) :
  row_get "Item ID" r1 = "" -> row_get "SKU" r1 = "" ->
  row_get "Item ID" r2 = "" -> row_get "SKU" r2 = "" ->
  row_get "Item Name" r1 = name -> row_get "Item Name" r2 = name ->
  name <> "" ->
  row_get "Description" r1 = head +:+ tail1 ->
  row_get "Description" r2 = head +:+ tail2 ->
  all_chars Py.is_ascii head = true ->
  (50 <= String.length head)%nat ->
  starts_with not_space head = true ->
  starts_with not_space (String.rev head) = true ->
  generate_record_key now r1 = generate_record_key now' r2 /\
  generate_record_key now r1 =
    "name_desc:" +:+ Py.lower (Py.strip name) +:+ "_"
                 +:+ Py.take_str 50 (Py.lower head).
Proof.
  intros Hid1 Hsku1 Hid2 Hsku2 Hname1 Hname2 Hname Hd1 Hd2 Hascii Hlen
         Hfirst Hlast.
  assert (Hkey : forall now r tail,
             row_get "Item ID" r = "" -> row_get "SKU" r = "" ->
             row_get "Item Name" r = name ->
             row_get "Description" r = head +:+ tail ->
             generate_record_key now r =
               "name_desc:" +:+ Py.lower (Py.strip name) +:+ "_"
                            +:+ Py.take_str 50 (Py.lower head)).
  { intros t r tail Hid Hsku Hn Hd. unfold generate_record_key.
    rewrite Hid, Hsku, Hn, Hd. change (Py.nonempty "") with false. cbv iota.
    apply nonempty_true in Hname. rewrite Hname.
    assert (Hdesc : Py.nonempty (head +:+ tail) = true).
    { apply nonempty_true. destruct head; [discriminate|].
      now rewrite append_cons. }
    rewrite Hdesc. cbn [andb].
    destruct (strip_head head tail Hascii Hfirst Hlast) as [rest ->].
    destruct (lower_ascii_head head rest Hascii)
      as (low & more & Hlow & Hlowlen & -> & ->).
    rewrite take_str_ascii; [reflexivity | assumption | lia]. }
  split; [|now apply (Hkey now r1 tail1)].
  now rewrite (Hkey now r1 tail1), (Hkey now' r2 tail2).
Qed.

Lemma generate_record_key_truncates_witness :
  generate_record_key "0"
    (row_described "PVC pipe" (fifty_characters +:+ ", 2 in. diameter"))
  = generate_record_key "1"
      (row_described "PVC pipe" (fifty_characters +:+ ", 4 in. diameter")).
Proof.
  apply (generate_record_key_truncates "0" "1"
           (row_described "PVC pipe" (fifty_characters +:+ ", 2 in. diameter"))
           (row_described "PVC pipe" (fifty_characters +:+ ", 4 in. diameter"))
           "PVC pipe" fifty_characters ", 2 in. diameter" ", 4 in. diameter");
    first [reflexivity | discriminate | vm_compute; reflexivity
          | vm_compute; lia].
Defined.

(** ** [standardize_record], column by column *)

Lemma nonempty_false (s : string) : Py.nonempty s = false <-> s = "".
Proof.
  unfold Py.nonempty. destruct (String.eqb_spec s ""); simpl; split;
    congruence.
Qed.

Lemma first_nonempty_cons (s : string) (rest : list string) :
  first_nonempty (s :: rest) =
    if Py.nonempty s then s else first_nonempty rest.
Proof. reflexivity. Qed.

Lemma first_nonempty_last (s : string) : first_nonempty [s] = s.
Proof.
  simpl. destruct (Py.nonempty s) eqn:E; [reflexivity|].
  now apply nonempty_false in E.
Qed.

(** Every column of a returned row: what the material scan left there
    or, when that is empty, what the loop over the remaining fields found. *)
Lemma standardize_record_columns (record : dict) (r : row) :
  standardize_record record = Py.Ok r ->
  exists scanned,
    extract_material record (extracted record) = Py.Ok scanned /\
    forall c, Py.mem c STANDARD_HEADERS = true ->
      row_get c r = first_nonempty [row_get c scanned; residual_fill c record].
Proof.
  change (standardize_record record)
    with (Py.bind (extract_material record (extracted record))
                  (fun st => Py.Ok (map_remaining record st))).
  destruct (extract_material record (extracted record)) as [scanned|e];
    [|discriminate].
  cbn [Py.bind]. intros [= <-]. exists scanned. split; [reflexivity|].
  intros c Hc. rewrite map_remaining_get by assumption.
  rewrite first_nonempty_cons, first_nonempty_last. reflexivity.
Qed.

(** A column the material scan does not write. *)
Lemma standardize_record_column (record : dict) (r : row) (c : string) :
  standardize_record record = Py.Ok r ->
  Py.mem c STANDARD_HEADERS = true -> c <> "CF.Material" ->
  row_get c r =
    first_nonempty [row_get c (extracted record); residual_fill c record].
Proof.
  intros Hr Hc Hne.
  destruct (standardize_record_columns record r Hr) as (scanned & Hs & Hcol).
  rewrite (Hcol c Hc).
  now rewrite (extract_material_frame c _ _ _ Hne Hs).
Qed.

Lemma blank_get (c : string) : row_get c (set_defaults blank_row) =
  default "" (Py.get c CONSTANT_COLUMNS).
Proof.
  unfold row_get, set_defaults.
  destruct (String.eqb_spec c "CF.Supplier") as [->|H1]; [reflexivity|].
  rewrite get_set_ne by congruence.
  destruct (String.eqb_spec c "CF.Markup") as [->|H2]; [reflexivity|].
  rewrite get_set_ne by congruence.
  destruct (String.eqb_spec c "Vendor") as [->|H3]; [reflexivity|].
  rewrite get_set_ne by congruence.
  destruct (String.eqb_spec c "Purchase Account") as [->|H4]; [reflexivity|].
  rewrite get_set_ne by congruence.
  destruct (String.eqb_spec c "Source") as [->|H5]; [reflexivity|].
  rewrite get_set_ne by congruence.
  assert (Hc : Py.get c CONSTANT_COLUMNS = None).
  { apply get_None. simpl. intuition congruence. }
  rewrite Hc. simpl.
  destruct (Py.get c blank_row) as [v|] eqn:E; [|reflexivity].
  apply get_Some_In in E. unfold blank_row in E.
  apply in_map_iff in E as (h & [= _ <-] & _). reflexivity.
Qed.

Lemma extract_item_id_value (record : dict) (st : row) :
  row_get "Item ID" st = "" ->
  row_get "Item ID" (extract_item_id record st)
  = text_of (first_present ["item_id"; "model_number"] record).
Proof.
  intros Hst. unfold extract_item_id. simpl.
  destruct (Py.get "item_id" record); [apply row_get_set_eq|].
  destruct (Py.get "model_number" record); [apply row_get_set_eq|].
  exact Hst.
Qed.

Lemma extract_sku_value (record : dict) (st : row) :
  row_get "SKU" st = "" ->
  row_get "SKU" (extract_sku record st)
  = text_of (first_present ["model_number"; "store_sku"] record).
Proof.
  intros Hst. unfold extract_sku. simpl.
  destruct (Py.get "model_number" record); [apply row_get_set_eq|].
  destruct (Py.get "store_sku" record); [apply row_get_set_eq|].
  exact Hst.
Qed.

Lemma first_nonempty_two (a b : string) :
  first_nonempty [a; b] = if Py.nonempty a then a else b.
Proof. rewrite first_nonempty_cons, first_nonempty_last. reflexivity. Qed.

Lemma extract_identifiers_item_id (record : dict) (st : row) :
  row_get "Item ID" (extract_identifiers record st)
  = first_nonempty
      [ row_get "Item ID" st;
        text_of (first_present ["product_id"; "item_id"]
                               (nested_identifiers record)) ].
Proof.
  rewrite first_nonempty_two.
  unfold extract_identifiers, nested_identifiers.
  destruct (Py.get "identifiers" record) as [[| | | | | |ids]|];
    try (destruct (Py.nonempty (row_get "Item ID" st)) eqn:E;
         [reflexivity | now apply nonempty_false in E]).
  simpl.
  destruct (Py.nonempty (row_get "Item ID" st)) eqn:E.
  - destruct (Py.nonempty (row_get "SKU" st)); [reflexivity|].
    destruct (Py.get "sku" ids); [now rewrite row_get_set_ne|].
    destruct (Py.get "model_number" ids); [now rewrite row_get_set_ne|].
    reflexivity.
  - apply nonempty_false in E.
    assert (H : forall st', row_get "Item ID"
                  (if Py.nonempty (row_get "SKU" st') then st'
                   else match Py.get "sku" ids with
                        | Some v => Py.set "SKU" (Py.str v) st'
                        | None =>
                            match Py.get "model_number" ids with
                            | Some v => Py.set "SKU" (Py.str v) st'
                            | None => st'
                            end
                        end) = row_get "Item ID" st').
    { intros st'. destruct (Py.nonempty (row_get "SKU" st')); [reflexivity|].
      destruct (Py.get "sku" ids); [now rewrite row_get_set_ne|].
      destruct (Py.get "model_number" ids); [now rewrite row_get_set_ne|].
      reflexivity. }
    rewrite H.
    destruct (Py.get "product_id" ids); [apply row_get_set_eq|].
    destruct (Py.get "item_id" ids); [apply row_get_set_eq|].
    exact E.
Qed.

Lemma extract_identifiers_sku (record : dict) (st : row) :
  row_get "SKU" (extract_identifiers record st)
  = first_nonempty
      [ row_get "SKU" st;
        text_of (first_present ["sku"; "model_number"]
                               (nested_identifiers record)) ].
Proof.
  rewrite first_nonempty_two.
  unfold extract_identifiers, nested_identifiers.
  destruct (Py.get "identifiers" record) as [[| | | | | |ids]|];
    try (destruct (Py.nonempty (row_get "SKU" st)) eqn:E;
         [reflexivity | now apply nonempty_false in E]).
  simpl.
  set (st' := if Py.nonempty (row_get "Item ID" st) then st else _).
  assert (Hst' : row_get "SKU" st' = row_get "SKU" st).
  { subst st'. destruct (Py.nonempty (row_get "Item ID" st)); [reflexivity|].
    destruct (Py.get "product_id" ids); [now rewrite row_get_set_ne|].
    destruct (Py.get "item_id" ids); [now rewrite row_get_set_ne|].
    reflexivity. }
  rewrite Hst'.
  destruct (Py.nonempty (row_get "SKU" st)) eqn:E; [exact Hst'|].
  apply nonempty_false in E.
  destruct (Py.get "sku" ids); [apply row_get_set_eq|].
  destruct (Py.get "model_number" ids); [apply row_get_set_eq|].
  now rewrite Hst'.
Qed.

Lemma first_nonempty_nested (a b c : string) :
  first_nonempty [first_nonempty [a; b]; c] = first_nonempty [a; b; c].
Proof.
  cbn [first_nonempty].
  destruct (Py.nonempty a) eqn:Ea, (Py.nonempty b) eqn:Eb;
    rewrite ?Ea, ?Eb; reflexivity.
Qed.

(** X6. The Item ID of a standardized row is the first text that is not
    empty among: [str] of the record's [item_id], or of its [model_number]
    when there is no [item_id]; [str] of the [product_id], or else the
    [item_id], of the dict under [identifiers]; and what the remaining
    fields give the column.  The SKU is read in the same way from
    [model_number] or else [store_sku], then from the [sku] or else the
    [model_number] of the identifiers.  A record whose [item_id] has a text
    is therefore keyed [id:] followed by that text. *)
Theorem standardize_record_identifiers (record : dict) (r : row) :
  standardize_record record = Py.Ok r ->
  row_get "Item ID" r =
    first_nonempty
      [ text_of (first_present ["item_id"; "model_number"] record);
        text_of (first_present ["product_id"; "item_id"]
                               (nested_identifiers record));
        residual_fill "Item ID" record ] /\
  row_get "SKU" r =
    first_nonempty
      [ text_of (first_present ["model_number"; "store_sku"] record);
        text_of (first_present ["sku"; "model_number"]
                               (nested_identifiers record));
        residual_fill "SKU" record ] /\
  (forall v now,
      Py.get "item_id" record = Some v -> Py.str v <> "" ->
      row_get "Item ID" r = Py.str v /\
      generate_record_key now r = "id:" +:+ Py.str v).
Proof.
  intros Hr.
  assert (Hid : row_get "Item ID" r =
    first_nonempty
      [ text_of (first_present ["item_id"; "model_number"] record);
        text_of (first_present ["product_id"; "item_id"]
                               (nested_identifiers record));
        residual_fill "Item ID" record ]).
  { rewrite (standardize_record_column record r "Item ID" Hr)
      by (reflexivity || discriminate).
    unfold extracted.
    rewrite extract_url_frame, extract_category_frame, extract_brand_frame,
      set_price_frame, extract_description_frame, extract_name_frame
      by discriminate.
    rewrite extract_identifiers_item_id, extract_sku_frame by discriminate.
    rewrite extract_item_id_value by (rewrite blank_get; reflexivity).
    apply first_nonempty_nested. }
  split; [exact Hid|]. split.
  - rewrite (standardize_record_column record r "SKU" Hr)
      by (reflexivity || discriminate).
    unfold extracted.
    rewrite extract_url_frame, extract_category_frame, extract_brand_frame,
      set_price_frame, extract_description_frame, extract_name_frame
      by discriminate.
    rewrite extract_identifiers_sku.
    rewrite extract_sku_value
      by (rewrite extract_item_id_frame, blank_get by discriminate;
          reflexivity).
    apply first_nonempty_nested.
  - intros v now Hv Hne.
    assert (Hrow : row_get "Item ID" r = Py.str v).
    { rewrite Hid. simpl. rewrite Hv. simpl.
      apply nonempty_true in Hne. now rewrite Hne. }
    split; [exact Hrow|].
    rewrite generate_record_key_id by congruence. now rewrite Hrow.
Qed.

Lemma standardize_record_identifiers_witness :
  exists r, standardize_record hammer = Py.Ok r /\
            row_get "Item ID" r = "42" /\
            generate_record_key "0" r = "id:42".
Proof.
  destruct (proj2 (standardize_record_ok hammer) eq_refl) as [r Hr].
  exists r. split; [exact Hr|].
  destruct (standardize_record_identifiers hammer r Hr) as (_ & _ & Hid).
  apply (Hid (JStr "42") "0"); [reflexivity | discriminate].
Defined.

Lemma extract_name_value (record : dict) (st : row) :
  row_get "Item Name" st = "" ->
  row_get "Item Name" (extract_name record st)
  = text_of (first_present ["title"; "name"] record).
Proof.
  intros Hst. unfold extract_name. simpl.
  destruct (Py.get "title" record); [apply row_get_set_eq|].
  destruct (Py.get "name" record); [apply row_get_set_eq|].
  exact Hst.
Qed.

Lemma extract_description_value (c : string) (record : dict) (st : row) :
  c = "Description" \/ c = "CF.Description" ->
  row_get c st = "" ->
  row_get c (extract_description record st)
  = match first_truthy ["description"; "details"; "title"] record with
    | Some v => Py.str v
    | None => row_get "Item Name" st
    end.
Proof.
  intros Hc Hst. unfold extract_description, set_description. simpl.
  assert (Hset : forall text,
             row_get c (Py.set "CF.Description" text
                               (Py.set "Description" text st)) = text).
  { intros text. destruct Hc as [-> | ->].
    - rewrite row_get_set_ne by discriminate. apply row_get_set_eq.
    - apply row_get_set_eq. }
  destruct (get_truthy "description" record); [apply Hset|].
  destruct (get_truthy "details" record); [apply Hset|].
  destruct (get_truthy "title" record); [apply Hset|].
  destruct (Py.nonempty (row_get "Item Name" st)) eqn:E; [apply Hset|].
  apply nonempty_false in E. congruence.
Qed.

Lemma scan_entries_In (x : string * string) (earlier : list string)
      (table : list (string * string)) :
  In x (scan_entries earlier table) -> In x table.
Proof.
  revert earlier. induction table as [|[s t] table IH]; intros earlier Hin;
    [destruct Hin|].
  cbn [scan_entries] in Hin. destruct (existsb _ earlier).
  - right. now apply (IH (s :: earlier)).
  - destruct Hin as [Heq | Hin]; [now left|].
    right. now apply (IH (s :: earlier)).
Qed.

Lemma effective_entries_scan :
  effective_entries = scan_entries [] lowercase_entries.
Proof. reflexivity. Qed.

Lemma effective_entries_In (x : string * string) :
  In x effective_entries -> In x FIELD_MAPPING.
Proof.
  rewrite effective_entries_scan. intros Hin.
  apply scan_entries_In in Hin. rewrite lowercase_entries_filter in Hin.
  now apply filter_In in Hin.
Qed.

(** No field name is mapped to a header that the table does not carry and
    that is itself mapped elsewhere. *)
Lemma map_field_name_never (target : string) :
  forallb (fun st => negb (String.eqb (snd st) target)) FIELD_MAPPING = true ->
  map_field_name target <> target ->
  forall field_name, map_field_name field_name <> target.
Proof.
  intros Htable Hself field_name H. pose proof H as Hmap.
  assert (Hno : forall s, ~ In (s, target) FIELD_MAPPING).
  { intros s Hin. rewrite forallb_forall in Htable. apply Htable in Hin.
    simpl in Hin. rewrite String.eqb_refl in Hin. discriminate Hin. }
  apply map_field_name_cases in H as [Hin | [(s & Hin & _) | [-> _]]].
  - now apply Hno in Hin.
  - apply (Hno s). now apply effective_entries_In.
  - exact (Hself Hmap).
Qed.

Lemma extracted_item_name (record : dict) :
  row_get "Item Name"
          (extract_name record
             (extract_identifiers record
                (extract_sku record
                   (extract_item_id record (set_defaults blank_row)))))
  = text_of (first_present ["title"; "name"] record).
Proof.
  apply extract_name_value.
  now rewrite extract_identifiers_frame, extract_sku_frame,
    extract_item_id_frame, blank_get by discriminate.
Qed.

Lemma extracted_description (c : string) (record : dict) :
  c = "Description" \/ c = "CF.Description" ->
  row_get c (extracted record) = description_of record.
Proof.
  intros Hc. unfold extracted.
  rewrite extract_url_frame, extract_category_frame, extract_brand_frame,
    set_price_frame by (destruct Hc as [-> | ->]; discriminate).
  rewrite (extract_description_value c) by
    (try assumption;
     rewrite extract_name_frame, extract_identifiers_frame,
       extract_sku_frame, extract_item_id_frame, blank_get
       by (destruct Hc as [-> | ->]; discriminate);
     destruct Hc as [-> | ->]; reflexivity).
  unfold description_of. now rewrite extracted_item_name.
Qed.

(** CF.Description is written by the direct rule alone. *)
Lemma standardize_record_cf_description (record : dict) (r : row) :
  standardize_record record = Py.Ok r ->
  row_get "CF.Description" r = description_of record.
Proof.
  intros Hr.
  rewrite (standardize_record_column record r "CF.Description" Hr)
    by (reflexivity || discriminate).
  rewrite (extracted_description "CF.Description") by now right.
  rewrite residual_fill_empty.
  - rewrite first_nonempty_two.
    destruct (Py.nonempty (description_of record)) eqn:E; [reflexivity|].
    now apply nonempty_false in E.
  - intros field value _ _. apply map_field_name_never.
    + vm_compute. reflexivity.
    + vm_compute. discriminate.
Qed.

(** X7. The Item Name of a standardized row is [str] of the record's
    [title] when the record has that key, even with a null value, and of
    its [name] otherwise; the remaining fields fill it only when that text
    is empty.  CF.Description is [str] of the first truthy value among
    [description], [details] and [title], or else the Item Name so read;
    Description is the same text, filled from the remaining fields only
    when it is empty.  So CF.Description is empty or equal to
    Description. *)
Theorem standardize_record_description (record : dict) (r : row) :
  standardize_record record = Py.Ok r ->
  row_get "Item Name" r =
    first_nonempty [ text_of (first_present ["title"; "name"] record);
                     residual_fill "Item Name" record ] /\
  row_get "CF.Description" r = description_of record /\
  row_get "Description" r =
    first_nonempty [ description_of record;
                     residual_fill "Description" record ] /\
  (row_get "CF.Description" r = "" \/
   row_get "CF.Description" r = row_get "Description" r).
Proof.
  intros Hr.
  pose proof (standardize_record_cf_description record r Hr) as Hcf.
  assert (Hd : row_get "Description" r =
               first_nonempty [ description_of record;
                                residual_fill "Description" record ]).
  { rewrite (standardize_record_column record r "Description" Hr)
      by (reflexivity || discriminate).
    now rewrite (extracted_description "Description") by now left. }
  split; [|split; [exact Hcf | split; [exact Hd|]]].
  - rewrite (standardize_record_column record r "Item Name" Hr)
      by (reflexivity || discriminate).
    unfold extracted.
    rewrite extract_url_frame, extract_category_frame, extract_brand_frame,
      set_price_frame, extract_description_frame by discriminate.
    now rewrite extracted_item_name.
  - rewrite Hcf, Hd, first_nonempty_two.
    destruct (Py.nonempty (description_of record)) eqn:E; [now right|].
    left. now apply nonempty_false in E.
Qed.

Lemma standardize_record_description_witness :
  exists r, standardize_record null_title = Py.Ok r /\
            row_get "Item Name" r = "None" /\
            row_get "CF.Description" r = "None" /\
            row_get "Description" r = "None".
Proof.
  destruct (proj2 (standardize_record_ok null_title) eq_refl) as [r Hr].
  exists r. split; [exact Hr|].
  destruct (standardize_record_description null_title r Hr)
    as (Hname & Hcf & Hd & _).
  rewrite Hname, Hcf, Hd. split; [|split]; reflexivity.
Defined.

Lemma extract_brand_value (record : dict) (st : row) :
  row_get "CF.Manufacturer" st = "" ->
  row_get "CF.Manufacturer" (extract_brand record st)
  = text_of (get_truthy "brand" record).
Proof.
  intros Hst. unfold extract_brand.
  destruct (get_truthy "brand" record); [apply row_get_set_eq | exact Hst].
Qed.

Lemma extract_category_value (record : dict) (st : row) :
  row_get "Item Type" st = "" ->
  row_get "Item Type" (extract_category record st)
  = text_of (category_of record).
Proof.
  intros Hst. unfold extract_category, category_of.
  destruct (get_truthy "category" record); [apply row_get_set_eq|].
  destruct (get_truthy "categories" record) as [[| | | | |[|first rest]|]|];
    try exact Hst.
  apply row_get_set_eq.
Qed.

Lemma extract_url_value (record : dict) (st : row) :
  row_get "CF.URL" st = "" ->
  row_get "CF.URL" (extract_url record st)
  = text_of (first_truthy ["link"; "url"] record).
Proof.
  intros Hst. unfold extract_url. simpl.
  destruct (get_truthy "link" record); [apply row_get_set_eq|].
  destruct (get_truthy "url" record); [apply row_get_set_eq | exact Hst].
Qed.

(** X8. CF.Manufacturer, Item Type and CF.URL hold [str] of the record's
    truthy [brand], of its truthy [category] or else the first element of
    its [categories], and of its truthy [link] or else its truthy [url];
    the remaining fields of the record fill one of these columns only when
    that text is empty. *)
Theorem standardize_record_brand_category_url (record : dict) (r : row) :
  standardize_record record = Py.Ok r ->
  row_get "CF.Manufacturer" r =
    first_nonempty [ text_of (get_truthy "brand" record);
                     residual_fill "CF.Manufacturer" record ] /\
  row_get "Item Type" r =
    first_nonempty [ text_of (category_of record);
                     residual_fill "Item Type" record ] /\
  row_get "CF.URL" r =
    first_nonempty [ text_of (first_truthy ["link"; "url"] record);
                     residual_fill "CF.URL" record ].
Proof.
  intros Hr. split; [|split].
  - rewrite (standardize_record_column record r "CF.Manufacturer" Hr)
      by (reflexivity || discriminate).
    unfold extracted.
    rewrite extract_url_frame, extract_category_frame by discriminate.
    rewrite extract_brand_value; [reflexivity|].
    now rewrite set_price_frame, extract_description_frame,
      extract_name_frame, extract_identifiers_frame, extract_sku_frame,
      extract_item_id_frame, blank_get by discriminate.
  - rewrite (standardize_record_column record r "Item Type" Hr)
      by (reflexivity || discriminate).
    unfold extracted. rewrite extract_url_frame by discriminate.
    rewrite extract_category_value; [reflexivity|].
    now rewrite extract_brand_frame, set_price_frame,
      extract_description_frame, extract_name_frame,
      extract_identifiers_frame, extract_sku_frame, extract_item_id_frame,
      blank_get by discriminate.
  - rewrite (standardize_record_column record r "CF.URL" Hr)
      by (reflexivity || discriminate).
    unfold extracted.
    rewrite extract_url_value; [reflexivity|].
    now rewrite extract_category_frame, extract_brand_frame, set_price_frame,
      extract_description_frame, extract_name_frame,
      extract_identifiers_frame, extract_sku_frame, extract_item_id_frame,
      blank_get by discriminate.
Qed.

Lemma standardize_record_brand_category_url_witness :
  exists r, standardize_record branded = Py.Ok r /\
            row_get "CF.Manufacturer" r = "Acme" /\
            row_get "Item Type" r = "Tools" /\
            row_get "CF.URL" r = "https://example.com/p/1".
Proof.
  destruct (proj2 (standardize_record_ok branded) eq_refl) as [r Hr].
  exists r. split; [exact Hr|].
  destruct (standardize_record_brand_category_url branded r Hr)
    as (Hm & Ht & Hu).
  rewrite Hm, Ht, Hu. split; [|split]; reflexivity.
Defined.

Lemma scan_specifications_material (specs : list json) (st scanned : row) :
  scan_specifications specs st = Py.Ok scanned ->
  row_get "CF.Material" scanned =
    match last_material specs with
    | Some v => Py.str v
    | None => row_get "CF.Material" st
    end.
Proof.
  revert st. induction specs as [|spec specs IH]; intros st;
    cbn [scan_specifications last_material].
  - now intros [= <-].
  - unfold material_value.
    destruct spec as [| | | | | |spec];
      try (intros H; rewrite (IH st H); now destruct (last_material specs)).
    destruct (Py.get "key" spec) as [key|];
      [|intros H; rewrite (IH st H); now destruct (last_material specs)].
    destruct (Py.get "value" spec) as [value|];
      [|intros H; rewrite (IH st H); destruct (last_material specs);
        [reflexivity | now destruct key]].
    destruct key as [| | | |key| |]; try discriminate.
    destruct (Py.mem (Py.lower key) ["material"; "materials"]).
    + intros H. rewrite (IH _ H).
      destruct (last_material specs); [reflexivity | apply row_get_set_eq].
    + intros H. rewrite (IH st H). now destruct (last_material specs).
Qed.

Lemma last_material_app (before after : list json) :
  last_material (before ++ after) =
    match last_material after with
    | Some v => Some v
    | None => last_material before
    end.
Proof.
  induction before as [|spec before IH]; simpl.
  - now destruct (last_material after).
  - rewrite IH. now destruct (last_material after).
Qed.

Lemma last_material_none (specs : list json) :
  Forall (fun spec => material_value spec = None) specs ->
  last_material specs = None.
Proof.
  induction 1 as [|spec specs Hspec _ IH]; [reflexivity|].
  cbn [last_material]. now rewrite IH.
Qed.

(** X9. CF.Material is [str] of the value of the last specification whose
    key reads [material] or [materials] in any case: a later specification
    overwrites an earlier one, and the remaining fields of the record (a
    [material] field, say) fill the column only when the specifications
    leave it empty. *)
Theorem standardize_record_material (record : dict) (r : row) :
  standardize_record record = Py.Ok r ->
  row_get "CF.Material" r =
    first_nonempty
      [ text_of (last_material (specifications_of record));
        residual_fill "CF.Material" record ] /\
  (forall before spec after value,
      specifications_of record = before ++ spec :: after ->
      material_value spec = Some value ->
      Forall (fun later => material_value later = None) after ->
      Py.str value <> "" ->
      row_get "CF.Material" r = Py.str value).
Proof.
  intros Hr.
  assert (Hcol : row_get "CF.Material" r =
    first_nonempty
      [ text_of (last_material (specifications_of record));
        residual_fill "CF.Material" record ]).
  { destruct (standardize_record_columns record r Hr) as (scanned & Hs & Hcol).
    rewrite (Hcol "CF.Material") by reflexivity. f_equal. f_equal.
    assert (Hblank : row_get "CF.Material" (extracted record) = "").
    { unfold extracted.
      now rewrite extract_url_frame, extract_category_frame,
        extract_brand_frame, set_price_frame, extract_description_frame,
        extract_name_frame, extract_identifiers_frame, extract_sku_frame,
        extract_item_id_frame, blank_get by discriminate. }
    revert Hs. unfold extract_material, specifications_of.
    destruct (Py.get "specifications" record) as [[| | | | |specs|]|];
      try (intros [= <-]; exact Hblank).
    intros Hs. rewrite (scan_specifications_material _ _ _ Hs), Hblank.
    now destruct (last_material specs). }
  split; [exact Hcol|].
  intros before spec after value Hspecs Hvalue Hafter Hne.
  rewrite Hcol, Hspecs, last_material_app. cbn [last_material].
  rewrite (last_material_none after Hafter), Hvalue. simpl.
  apply nonempty_true in Hne. now rewrite Hne.
Qed.

Lemma standardize_record_material_witness :
  exists r, standardize_record two_materials = Py.Ok r /\
            row_get "CF.Material" r = "Wood".
Proof.
  destruct (proj2 (standardize_record_ok two_materials) eq_refl) as [r Hr].
  exists r. split; [exact Hr|].
  destruct (standardize_record_material two_materials r Hr) as (_ & Hlast).
  apply (Hlast
           [ JDict [("key", JStr "Material"); ("value", JStr "Steel")];
             JDict [("key", JStr "Color"); ("value", JStr "Black")] ]
           (JDict [("key", JStr "materials"); ("value", JStr "Wood")])
           [] (JStr "Wood"));
    [reflexivity | reflexivity | constructor | discriminate].
Defined.

(** What the loop over the remaining fields found comes from a field. *)
Lemma residual_fill_found (c : string) (items : dict) :
  residual_fill c items <> "" ->
  exists field value,
    In (field, value) items /\ Py.mem field PROCESSED_FIELDS = false /\
    map_field_name field = c /\ residual_fill c items = Py.str value.
Proof.
  induction items as [|[field value] items IH]; cbn [residual_fill];
    [congruence|].
  destruct (negb (Py.mem field PROCESSED_FIELDS)
            && String.eqb (map_field_name field) c
            && Py.nonempty (Py.str value)) eqn:E.
  - intros _. apply andb_true_iff in E as [E _].
    apply andb_true_iff in E as [Hp Hc].
    apply negb_true_iff in Hp. apply String.eqb_eq in Hc.
    exists field, value. split; [now left | auto].
  - intros H. destruct (IH H) as (f & v & Hin & Hp & Hc & Hv).
    exists f, v. split; [now right | auto].
Qed.

(** X10. Reference ID, Usage unit and Is Combo Product have no rule of their
    own: they hold what the loop over the remaining fields gives them.  A
    Reference ID that is not empty is [str] of a field whose name is
    [reference_id], [ref_id] or [external_id] up to case, never of
    [referenceId], [refId] or [externalId]; Is Combo Product is filled only
    by a field of exactly that name. *)
Theorem standardize_record_other_columns (record : dict) (r : row) :
  standardize_record record = Py.Ok r ->
  (forall c, In c ["Reference ID"; "Usage unit"; "Is Combo Product"] ->
     row_get c r = residual_fill c record) /\
  (row_get "Reference ID" r <> "" ->
   exists field value,
     In (field, value) record /\
     In (Py.lower field) ["reference_id"; "ref_id"; "external_id"] /\
     row_get "Reference ID" r = Py.str value) /\
  (row_get "Is Combo Product" r <> "" ->
   exists value,
     In ("Is Combo Product", value) record /\
     row_get "Is Combo Product" r = Py.str value).
Proof.
  intros Hr.
  assert (Hcol : forall c,
             In c ["Reference ID"; "Usage unit"; "Is Combo Product"] ->
             row_get c r = residual_fill c record).
  { intros c Hc.
    assert (Hmem : Py.mem c STANDARD_HEADERS = true /\ c <> "CF.Material" /\
                   row_get c (extracted record) = "").
    { simpl in Hc. destruct Hc as [<-|[<-|[<-|[]]]];
        (split; [reflexivity|]; split; [discriminate|]); unfold extracted;
        now rewrite extract_url_frame, extract_category_frame,
          extract_brand_frame, set_price_frame, extract_description_frame,
          extract_name_frame, extract_identifiers_frame, extract_sku_frame,
          extract_item_id_frame, blank_get by discriminate. }
    destruct Hmem as (Hmem & Hne & Hblank).
    rewrite (standardize_record_column record r c Hr Hmem Hne), Hblank.
    apply first_nonempty_last. }
  split; [exact Hcol|]. split.
  - rewrite (Hcol "Reference ID") by (simpl; tauto). intros Hne.
    destruct (residual_fill_found _ _ Hne) as (f & v & Hin & _ & Hmap & Hv).
    exists f, v. split; [exact Hin|]. split; [|exact Hv].
    apply (map_field_name_exact_only f "Reference ID");
      try assumption; try (vm_compute; reflexivity).
    vm_compute. discriminate.
  - rewrite (Hcol "Is Combo Product") by (simpl; tauto). intros Hne.
    destruct (residual_fill_found _ _ Hne) as (f & v & Hin & _ & Hmap & Hv).
    exists v. split; [|exact Hv].
    assert (Hno : forall s, ~ In (s, "Is Combo Product") FIELD_MAPPING).
    { intros s Hs.
      assert (Hall : forallb (fun st : string * string =>
                                negb (String.eqb (snd st) "Is Combo Product"))
                             FIELD_MAPPING = true) by (vm_compute; reflexivity).
      rewrite forallb_forall in Hall. apply Hall in Hs. simpl in Hs.
      discriminate Hs. }
    apply map_field_name_cases in Hmap
      as [Hm | [(s & Hm & _) | [<- _]]].
    + now apply Hno in Hm.
    + apply effective_entries_In in Hm. now apply Hno in Hm.
    + exact Hin.
Qed.

Lemma standardize_record_other_columns_witness :
  exists r, standardize_record with_reference = Py.Ok r /\
            row_get "Reference ID" r = "R-2" /\
            row_get "Is Combo Product" r = "False".
Proof.
  destruct (proj2 (standardize_record_ok with_reference) eq_refl) as [r Hr].
  exists r. split; [exact Hr|].
  destruct (standardize_record_other_columns with_reference r Hr)
    as (Hcol & _).
  rewrite (Hcol "Reference ID"), (Hcol "Is Combo Product") by (simpl; tauto).
  split; vm_compute; reflexivity.
Defined.

(** ** [extract_product_data] *)

Lemma existsb_shape_key (k : string) (xs : list json) :
  Py.mem k ["product"; "search_results"; "products"] = true ->
  existsb names_shape_key xs = false ->
  existsb (fun x => match x with
                    | JStr s => String.eqb s k
                    | _ => false
                    end) xs = false.
Proof.
  intros Hk. induction xs as [|x xs IH]; [reflexivity|]. simpl.
  intros H. apply orb_false_iff in H as [Hx Hxs]. rewrite (IH Hxs).
  destruct x; try reflexivity. simpl in Hx.
  destruct (String.eqb_spec s k) as [->|]; [congruence | reflexivity].
Qed.

Lemma existsb_shape_key_found (xs : list json) :
  existsb names_shape_key xs = true ->
  existsb (fun x => match x with
                    | JStr s => String.eqb s "product"
                    | _ => false
                    end) xs = true \/
  existsb (fun x => match x with
                    | JStr s => String.eqb s "search_results"
                    | _ => false
                    end) xs = true \/
  existsb (fun x => match x with
                    | JStr s => String.eqb s "products"
                    | _ => false
                    end) xs = true.
Proof.
  induction xs as [|x xs IH]; [discriminate|]. simpl.
  intros H. apply orb_true_iff in H as [Hx | Hxs].
  - destruct x; try discriminate. unfold names_shape_key in Hx.
    apply mem_In in Hx. simpl in Hx.
    destruct Hx as [<-|[<-|[<-|[]]]]; simpl; auto.
  - destruct (IH Hxs) as [H | [H | H]]; rewrite H, ?orb_true_r; auto.
Qed.

Lemma get_field_list (k : string) (xs : list json) :
  Py.mem k ["product"; "search_results"; "products"] = true ->
  existsb names_shape_key xs = false ->
  get_field k (JList xs) = Py.Ok None.
Proof.
  intros Hk Hxs. unfold get_field, contains_key.
  now rewrite (existsb_shape_key k xs Hk Hxs).
Qed.

Lemma extract_product_data_list (xs : list json) :
  existsb names_shape_key xs = false ->
  extract_product_data (JList xs) = Py.Ok None.
Proof.
  intros Hxs. unfold extract_product_data.
  now rewrite !get_field_list by (assumption || reflexivity).
Qed.

(** X11. [extract_product_data] never raises on a JSON object.  On a
    number, a boolean or null it raises the [TypeError] of its first test,
    ['product' in json_data].  On a list it returns [None] unless an
    element is the string [product], [search_results] or [products], in
    which case indexing the list by that string raises a [TypeError]; on a
    string it returns [None] unless the string holds [product] or
    [search_results], and then it raises a [TypeError] as well. *)
Theorem extract_product_data_errors :
  (forall document, exists found,
      extract_product_data (JDict document) = Py.Ok found) /\
  (forall v, is_scalar v = true ->
      extract_product_data v =
        Py.Raise (Py.TypeError ("argument of type '" +:+ type_name v
                                  +:+ "' is not iterable"))) /\
  (forall xs,
      (existsb names_shape_key xs = false ->
       extract_product_data (JList xs) = Py.Ok None) /\
      (existsb names_shape_key xs = true ->
       exists msg, extract_product_data (JList xs)
                   = Py.Raise (Py.TypeError msg))) /\
  (forall s,
      (Py.contains "product" s || Py.contains "search_results" s = false ->
       extract_product_data (JStr s) = Py.Ok None) /\
      (Py.contains "product" s || Py.contains "search_results" s = true ->
       exists msg, extract_product_data (JStr s)
                   = Py.Raise (Py.TypeError msg))).
Proof.
  split; [|split; [|split]].
  - intros document.
    unfold extract_product_data, get_field, contains_key, index_key, Py.has.
    cbn [Py.bind].
    repeat (match goal with
            | |- context [match Py.get ?k ?d with _ => _ end] =>
                destruct (Py.get k d) as [[| | | | | |?]|]
            end; cbn [Py.bind]); eauto.
  - intros v Hv. destruct v; try discriminate; reflexivity.
  - intros xs. split.
    + apply extract_product_data_list.
    + intros Hxs.
      unfold extract_product_data, get_field, contains_key, index_key.
      destruct (existsb _ xs) eqn:E1 at 1; cbn [Py.bind]; [eauto|].
      destruct (existsb (fun x => match x with
                                  | JStr s => String.eqb s "search_results"
                                  | _ => false
                                  end) xs) eqn:E2; cbn [Py.bind]; [eauto|].
      destruct (existsb (fun x => match x with
                                  | JStr s => String.eqb s "products"
                                  | _ => false
                                  end) xs) eqn:E3; cbn [Py.bind]; [eauto|].
      apply existsb_shape_key_found in Hxs as [H | [H | H]]; congruence.
  - intros s. split.
    + intros Hs. apply orb_false_iff in Hs as [Hp Hr].
      assert (Hps : Py.contains "products" s = false).
      { destruct (Py.contains "products" s) eqn:E; [|reflexivity].
        rewrite <- Hp. symmetry.
        apply (contains_trans "product" "products" s); [reflexivity | exact E]. }
      unfold extract_product_data, get_field, contains_key.
      rewrite Hp. cbn [Py.bind]. rewrite Hr. cbn [Py.bind]. rewrite Hps.
      reflexivity.
    + intros Hs.
      unfold extract_product_data, get_field, contains_key, index_key.
      destruct (Py.contains "product" s); cbn [Py.bind]; [eauto|].
      simpl in Hs. rewrite Hs. cbn [Py.bind]. eauto.
Qed.

(** ** The price copied beside the product *)

Lemma set_cons {V : Type} (k k' : string) (v v' : V)
      (d : list (string * V)) :
  Py.set k v ((k', v') :: d) =
    if String.eqb k k' then (k', v) :: d else (k', v') :: Py.set k v d.
Proof. reflexivity. Qed.

Lemma get_cons {V : Type} (k k' : string) (v' : V) (d : list (string * V)) :
  Py.get k ((k', v') :: d) = if String.eqb k k' then Some v' else Py.get k d.
Proof. reflexivity. Qed.

Lemma without_price_cons (k : string) (v : json) (record : dict) :
  without_price ((k, v) :: record) =
    if String.eqb k "price" then without_price record
    else (k, v) :: without_price record.
Proof.
  unfold without_price. simpl. now destruct (String.eqb k "price").
Qed.

Lemma get_without_price (k : string) (record : dict) :
  k <> "price" -> Py.get k (without_price record) = Py.get k record.
Proof.
  intros Hk. induction record as [|[k' v] record IH]; [reflexivity|].
  rewrite without_price_cons, get_cons.
  destruct (String.eqb_spec k' "price") as [->|Hne].
  - destruct (String.eqb_spec k "price"); [congruence | exact IH].
  - now rewrite get_cons, IH.
Qed.

Lemma get_truthy_without_price (k : string) (record : dict) :
  k <> "price" -> get_truthy k (without_price record) = get_truthy k record.
Proof. intros Hk. unfold get_truthy. now rewrite get_without_price. Qed.

Lemma map_remaining_without_price (record : dict) (st : row) :
  map_remaining (without_price record) st = map_remaining record st.
Proof.
  revert st. induction record as [|[k v] record IH]; intros st;
    [reflexivity|].
  rewrite without_price_cons.
  destruct (String.eqb_spec k "price") as [->|Hne].
  - cbn [map_remaining].
    change (Py.mem "price" PROCESSED_FIELDS) with true. cbv iota.
    apply IH.
  - cbn [map_remaining].
    destruct (Py.mem k PROCESSED_FIELDS); [apply IH|].
    destruct (_ && _); apply IH.
Qed.

Lemma without_price_set_price (p : json) (record : dict) :
  without_price (Py.set "price" p record) = without_price record.
Proof.
  induction record as [|[k v] record IH]; [reflexivity|].
  rewrite set_cons, (without_price_cons k v).
  destruct (String.eqb_spec "price" k) as [<-|Hne].
  - now rewrite without_price_cons.
  - rewrite without_price_cons, IH. reflexivity.
Qed.

Lemma without_price_set (k : string) (v : json) (record : dict) :
  k <> "price" ->
  without_price (Py.set k v record) = Py.set k v (without_price record).
Proof.
  intros Hk. induction record as [|[k' v'] record IH].
  - change (Py.set k v []) with [(k, v)]. rewrite without_price_cons.
    now destruct (String.eqb_spec k "price").
  - rewrite set_cons, (without_price_cons k' v').
    destruct (String.eqb_spec k k') as [<-|Hne].
    + rewrite without_price_cons.
      destruct (String.eqb_spec k "price"); [congruence|].
      now rewrite set_cons, String.eqb_refl.
    + rewrite without_price_cons.
      destruct (String.eqb_spec k' "price"); [exact IH|].
      rewrite set_cons.
      destruct (String.eqb_spec k k'); [congruence|]. now rewrite IH.
Qed.

Lemma nested_price_without_price (record : dict) :
  nested_price (without_price record) = nested_price record.
Proof. unfold nested_price. now rewrite get_without_price. Qed.

Ltac without_price_step :=
  intros;
  rewrite ?get_truthy_without_price, ?get_without_price by discriminate;
  reflexivity.

Lemma extract_item_id_without_price (record : dict) (st : row) :
  extract_item_id (without_price record) st = extract_item_id record st.
Proof. unfold extract_item_id. without_price_step. Qed.

Lemma extract_sku_without_price (record : dict) (st : row) :
  extract_sku (without_price record) st = extract_sku record st.
Proof. unfold extract_sku. without_price_step. Qed.

Lemma extract_identifiers_without_price (record : dict) (st : row) :
  extract_identifiers (without_price record) st
  = extract_identifiers record st.
Proof. unfold extract_identifiers. without_price_step. Qed.

Lemma extract_name_without_price (record : dict) (st : row) :
  extract_name (without_price record) st = extract_name record st.
Proof. unfold extract_name. without_price_step. Qed.

Lemma extract_description_without_price (record : dict) (st : row) :
  extract_description (without_price record) st
  = extract_description record st.
Proof. unfold extract_description. without_price_step. Qed.

Lemma extract_brand_without_price (record : dict) (st : row) :
  extract_brand (without_price record) st = extract_brand record st.
Proof. unfold extract_brand. without_price_step. Qed.

Lemma extract_category_without_price (record : dict) (st : row) :
  extract_category (without_price record) st = extract_category record st.
Proof. unfold extract_category. without_price_step. Qed.

Lemma extract_url_without_price (record : dict) (st : row) :
  extract_url (without_price record) st = extract_url record st.
Proof. unfold extract_url. without_price_step. Qed.

Lemma extract_material_without_price (record : dict) (st : row) :
  extract_material (without_price record) st = extract_material record st.
Proof. unfold extract_material. without_price_step. Qed.

Lemma set_price_without_price (record : dict) (st : row) :
  nested_price record <> None ->
  set_price (without_price record) st = set_price record st.
Proof.
  intros Hnested. unfold set_price.
  rewrite !find_price_paths, nested_price_without_price.
  now destruct (nested_price record).
Qed.

(** When the record has a nested price, its top-level [price] is not
    read. *)
Lemma standardize_record_without_price (record : dict) :
  nested_price record <> None ->
  standardize_record (without_price record) = standardize_record record.
Proof.
  intros Hnested. unfold standardize_record.
  rewrite extract_item_id_without_price, extract_sku_without_price,
    extract_identifiers_without_price, extract_name_without_price,
    extract_description_without_price, set_price_without_price,
    extract_brand_without_price, extract_category_without_price,
    extract_url_without_price, extract_material_without_price
    by assumption.
  destruct (extract_material record _); [|reflexivity].
  cbn [Py.bind]. now rewrite map_remaining_without_price.
Qed.

(** X12. For a document whose [product] is a dict, [extract_product_data]
    returns one dict and [process_json_file] treats one record of its own
    making.  The two may differ in their [price] (only
    [extract_product_data] copies the price of [buybox_winner] over it),
    yet [standardize_record] gives both the same row or the same
    exception. *)
Theorem product_document_one_row (document product : dict) :
  Py.get "product" document = Some (JDict product) ->
  exists merged direct,
    extract_product_data (JDict document) = Py.Ok (Some (JDict merged)) /\
    items_of_document (JDict document) = Py.Ok [JDict direct] /\
    standardize_record merged = standardize_record direct.
Proof.
  intros Hproduct.
  unfold extract_product_data, items_of_document, get_field, contains_key,
    index_key, Py.has.
  rewrite Hproduct. cbn [Py.bind].
  destruct (Py.get "buybox_winner" document) as [[| | | | | |bw]|];
    cbn [Py.bind];
    try (destruct (Py.get "buybox_winner" product)
           as [[| | | | | |nested]|] eqn:Hnested;
         try (destruct (Py.get "price" nested) as [price|] eqn:Hprice);
         try (do 2 eexists; split; [reflexivity|]; split; reflexivity);
         do 2 eexists; split; [reflexivity|]; split; [reflexivity|];
         rewrite <- (standardize_record_without_price
                       (Py.set "price" price product)),
           <- (standardize_record_without_price product),
           without_price_set_price;
         try reflexivity;
         unfold nested_price;
         rewrite ?get_set_ne by discriminate;
         rewrite Hnested, Hprice; discriminate).
  destruct (Py.get "price" bw) as [price|] eqn:Hprice;
    [|do 2 eexists; split; [reflexivity|]; split; reflexivity].
  do 2 eexists. split; [reflexivity|]. split; [reflexivity|].
  rewrite <- (standardize_record_without_price
                (Py.set "buybox_winner" (JDict bw)
                        (Py.set "price" price product))),
    <- (standardize_record_without_price
          (Py.set "buybox_winner" (JDict bw) product)).
  - now rewrite !(without_price_set "buybox_winner"), without_price_set_price
      by discriminate.
  - unfold nested_price. rewrite get_set_eq, Hprice. discriminate.
  - unfold nested_price. rewrite get_set_eq, Hprice. discriminate.
Qed.

Lemma product_document_one_row_witness :
  exists merged direct r,
    extract_product_data (JDict priced_document)
    = Py.Ok (Some (JDict merged)) /\
    items_of_document (JDict priced_document) = Py.Ok [JDict direct] /\
    Py.get "price" merged = Some (JStr "$19.99") /\
    Py.get "price" direct = Some (JStr "1.00") /\
    standardize_record merged = Py.Ok r /\
    standardize_record direct = Py.Ok r /\ row_get "Rate" r = "19.99".
Proof.
  destruct (product_document_one_row priced_document
              [("item_id", JStr "42"); ("price", JStr "1.00")] eq_refl)
    as (merged & direct & Hmerged & Hdirect & Hrow).
  exists merged, direct.
  injection Hmerged as <-. injection Hdirect as <-.
  eexists. split; [reflexivity|]. split; [reflexivity|].
  split; [reflexivity|]. split; [reflexivity|].
  split; [|split]; [| rewrite <- Hrow |]; vm_compute; reflexivity.
Defined.

(** ** The products of a page of search results *)

Lemma set_new {V : Type} (k : string) (v : V) (d : list (string * V)) :
  ~ In k (map fst d) -> Py.set k v d = d ++ [(k, v)].
Proof.
  induction d as [|[k' v'] d IH]; [reflexivity|]. simpl. intros Hk.
  rewrite set_cons. destruct (String.eqb_spec k k') as [->|Hne]; [tauto|].
  rewrite IH; [reflexivity | tauto].
Qed.

(** [dict.update] with the items of a dict builds that dict again. *)
Lemma update_from_items (product acc : dict) :
  List.NoDup (map fst (acc ++ product)) ->
  fold_left (fun acc kv => Py.set (fst kv) (snd kv) acc) product acc
  = acc ++ product.
Proof.
  revert acc. induction product as [|[k v] product IH]; intros acc Hnd.
  - now rewrite app_nil_r.
  - cbn [fold_left fst snd]. rewrite set_new.
    + rewrite IH; rewrite <- app_assoc; [reflexivity | exact Hnd].
    + rewrite map_app in Hnd. apply List.NoDup_remove_2 in Hnd.
      intros Hin. apply Hnd. apply in_or_app. now left.
Qed.

Lemma merge_search_result_dict (result : json) (merged : json) :
  merge_search_result result = Some merged ->
  exists d, merged = JDict d /\ d <> [].
Proof.
  unfold merge_search_result. destruct result; try discriminate.
  destruct (match Py.get "offers" kvs with
            | Some (JDict offers) => _
            | _ => _
            end) as [|kv d]; [discriminate|].
  intros [= <-]. now exists (kv :: d).
Qed.

Lemma omap_merge_dicts (results : list json) :
  Forall (fun p => exists d, p = JDict d /\ d <> [])
         (omap merge_search_result results).
Proof.
  induction results as [|result results IH]; [constructor|].
  cbn [omap list_omap].
  destruct (merge_search_result result) as [merged|] eqn:E; [|exact IH].
  constructor; [|exact IH]. now apply (merge_search_result_dict result).
Qed.

(** X13. On a document whose [product] is not a dict: when
    [search_results] is a list, [extract_product_data] returns the merged
    results, each of them a dict that is not empty, or [None] when there is
    none, and never an empty list; when [search_results] is a dict with a
    list of [products], it returns the dicts among them, or [None].  A
    result whose [product] is a dict is merged into the product with the
    result's [offers] added, or into the product alone when it is not
    empty. *)
Theorem search_results_products (document : dict) :
  no_dict_under "product" document = true ->
  (forall results,
      Py.get "search_results" document = Some (JList results) ->
      extract_product_data (JDict document)
      = Py.Ok (if_nonempty (omap merge_search_result results)) /\
      Forall (fun p => exists d, p = JDict d /\ d <> [])
             (omap merge_search_result results)) /\
  (forall search_results products,
      Py.get "search_results" document = Some (JDict search_results) ->
      Py.get "products" search_results = Some (JList products) ->
      extract_product_data (JDict document)
      = Py.Ok (if_nonempty (List.filter (fun p => is_dict p) products))) /\
  (forall products, if_nonempty products <> Some (JList [])) /\
  (forall result product,
      Py.get "product" result = Some (JDict product) ->
      List.NoDup (map fst product) ->
      merge_search_result (JDict result) =
        match Py.get "offers" result with
        | Some (JDict offers) =>
            Some (JDict (Py.set "offers" (JDict offers) product))
        | _ => match product with
               | [] => None
               | _ => Some (JDict product)
               end
        end).
Proof.
  intros Hproduct. unfold no_dict_under in Hproduct.
  split; [|split; [|split]].
  - intros results Hresults. split; [|apply omap_merge_dicts].
    unfold extract_product_data, get_field, contains_key, index_key, Py.has.
    destruct (Py.get "product" document) as [[| | | | | |product]|];
      try discriminate; cbn [Py.bind]; rewrite Hresults; reflexivity.
  - intros search_results products Hsr Hproducts.
    unfold extract_product_data, get_field, contains_key, index_key, Py.has.
    destruct (Py.get "product" document) as [[| | | | | |product]|];
      try discriminate; cbn [Py.bind]; rewrite Hsr; cbn [Py.bind];
      rewrite Hproducts; reflexivity.
  - intros [|p products]; discriminate.
  - intros result product Hp Hnd. unfold merge_search_result.
    rewrite Hp, (update_from_items product []) by exact Hnd.
    rewrite app_nil_l.
    destruct (Py.get "offers" result) as [[| | | | | |offers]|];
      try reflexivity.
    destruct (Py.set "offers" (JDict offers) product) eqn:E; [|reflexivity].
    destruct product as [|[k v] product]; [discriminate|].
    rewrite set_cons in E. now destruct (String.eqb "offers" k).
Qed.

Lemma search_results_products_witness :
  extract_product_data (JDict offers_page)
  = Py.Ok (Some (JList
      [ JDict [ ("item_id", JStr "7");
                ("offers", JDict [("primary", JDict [("price", JInt 3)])]) ] ])).
Proof.
  destruct (search_results_products offers_page eq_refl) as (Harray & _).
  destruct (Harray _ eq_refl) as [-> _]. reflexivity.
Defined.

(** ** [process_json_file] *)

Lemma process_json_file_items (read_text : string -> Py.result string)
      (json_loads : string -> Py.result json) (now file_path : string)
      (known_records : gset string) :
  process_json_file read_text json_loads now file_path known_records =
    match load_items read_text json_loads file_path with
    | inr msg => (add_error msg empty_result, known_records)
    | inl items =>
        process_items now file_path items (empty_result, known_records)
    end.
Proof. reflexivity. Qed.

Lemma process_items_cons (now file_path : string) (item : json)
      (items : list json) (st : file_result * gset string) :
  process_items now file_path (item :: items) st
  = process_items now file_path items (process_item now file_path item st).
Proof. reflexivity. Qed.

(** One item: an error, a duplicate or a new row. *)
Lemma process_item_cases (now file_path : string) (item : json)
      (res : file_result) (known : gset string) :
  (exists msg, attempt_item now file_path item = Failed msg /\
     process_item now file_path item (res, known)
     = (add_error msg res, known)) \/
  (exists standardized,
     attempt_item now file_path item
     = Keyed (generate_record_key now standardized) standardized /\
     (generate_record_key now standardized ∈ known) /\
     process_item now file_path item (res, known)
     = (add_duplicate res, known)) \/
  (exists standardized,
     attempt_item now file_path item
     = Keyed (generate_record_key now standardized) standardized /\
     (generate_record_key now standardized ∉ known) /\
     process_item now file_path item (res, known)
     = (add_record standardized res,
        {[generate_record_key now standardized]} ∪ known)).
Proof.
  unfold process_item.
  destruct (attempt_item now file_path item) as [msg|k standardized] eqn:E.
  - left. now exists msg.
  - right. apply attempt_item_key in E as Hk. subst k.
    case_bool_decide; [left | right]; now exists standardized.
Qed.

Lemma process_items_counts (now file_path : string) (items : list json)
      (res res' : file_result) (known known' : gset string) :
  process_items now file_path items (res, known) = (res', known') ->
  (record_count res' + duplicate_count res' + length (errors res')
   = record_count res + duplicate_count res + length (errors res)
     + length items)%nat /\
  (counts_rows res -> counts_rows res').
Proof.
  revert res known. induction items as [|item items IH]; intros res known.
  - intros [= <- <-]. simpl. split; [lia | auto].
  - rewrite process_items_cons.
    destruct (process_item_cases now file_path item res known)
      as [(msg & _ & ->) | [(s & _ & _ & ->) | (s & _ & _ & ->)]];
      intros H; apply IH in H as [Hsum Hrows]; unfold counts_rows in *;
      simpl in *; rewrite ?length_app in *; simpl in *;
      (split; [lia | intros; apply Hrows; lia]).
Qed.

(** X14. The record count that [process_json_file] returns is the number of
    rows it returns, and every item of a file that loads is counted exactly
    once, as a record, as a duplicate or as an error.  A file that does not
    load gives its one error and nothing else. *)
Theorem process_json_file_counts (read_text : string -> Py.result string)
        (json_loads : string -> Py.result json) (now file_path : string)
        (known_records : gset string) :
  let r := fst (process_json_file read_text json_loads now file_path
                                  known_records) in
  record_count r = length (standardized_data r) /\
  match load_items read_text json_loads file_path with
  | inl items =>
      (record_count r + duplicate_count r + length (errors r)
       = length items)%nat
  | inr msg => r = mk_file_result [] 0 0 [msg]
  end.
Proof.
  cbn zeta. rewrite process_json_file_items.
  destruct (load_items read_text json_loads file_path) as [items|msg];
    [|now split].
  destruct (process_items now file_path items (empty_result, known_records))
    as [res' known'] eqn:E.
  apply process_items_counts in E as [Hsum Hrows]. simpl in *.
  split; [now apply Hrows | lia].
Qed.

Lemma process_items_known (now file_path : string) (items : list json)
      (res res' : file_result) (known known' : gset string) :
  process_items now file_path items (res, known) = (res', known') ->
  exists rows,
    standardized_data res' = standardized_data res ++ rows /\
    known' = list_to_set (row_keys now rows) ∪ known /\
    NoDup (row_keys now rows) /\
    (forall k, k ∈ row_keys now rows -> k ∉ known).
Proof.
  revert res known. induction items as [|item items IH]; intros res known.
  - intros [= <- <-]. exists []. rewrite app_nil_r. simpl.
    split; [reflexivity|]. split; [set_solver|]. split; [constructor|].
    intros k Hk. inversion Hk.
  - rewrite process_items_cons.
    destruct (process_item_cases now file_path item res known)
      as [(msg & _ & ->) | [(s & _ & _ & ->) | (s & _ & Hnew & ->)]];
      intros H; apply IH in H as (rows & Hrows & Hknown & Hnd & Hfresh);
      try (now exists rows).
    exists (s :: rows). simpl in Hrows. rewrite <- app_assoc in Hrows.
    split; [exact Hrows|]. cbn [row_keys map list_to_set].
    fold (row_keys now rows).
    split; [set_solver|]. split.
    + constructor; [|exact Hnd]. intros Hin. apply Hfresh in Hin. set_solver.
    + intros k Hk. apply elem_of_cons in Hk as [-> | Hk]; [exact Hnew|].
      apply Hfresh in Hk. set_solver.
Qed.

(** X15. The dict of known keys after [process_json_file] is the dict before
    it with the keys of the returned rows added: nothing is removed, the
    returned rows have keys that differ from one another, and none of them
    was known before. *)
Theorem process_json_file_known_records
        (read_text : string -> Py.result string)
        (json_loads : string -> Py.result json) (now file_path : string)
        (known_records known' : gset string) (r : file_result) :
  process_json_file read_text json_loads now file_path known_records
  = (r, known') ->
  known' = list_to_set (row_keys now (standardized_data r)) ∪ known_records /\
  known_records ⊆ known' /\
  NoDup (row_keys now (standardized_data r)) /\
  (forall k, k ∈ row_keys now (standardized_data r) -> k ∉ known_records).
Proof.
  rewrite process_json_file_items.
  destruct (load_items read_text json_loads file_path) as [items|msg].
  - intros H. apply process_items_known in H
      as (rows & Hrows & Hknown & Hnd & Hfresh).
    simpl in Hrows. subst rows.
    split; [exact Hknown|]. split; [set_solver|]. now split.
  - intros [= <- <-]. simpl. split; [set_solver|]. split; [set_solver|].
    split; [constructor|]. intros k Hk. inversion Hk.
Qed.

Lemma process_items_final_keys (now file_path : string) (items : list json)
      (res res' : file_result) (known known' : gset string) :
  process_items now file_path items (res, known) = (res', known') ->
  known ⊆ known' /\
  (forall item k standardized,
      In item items ->
      attempt_item now file_path item = Keyed k standardized -> k ∈ known').
Proof.
  revert res known. induction items as [|item items IH]; intros res known.
  - intros [= <- <-]. split; [set_solver | intros ? ? ? []].
  - rewrite process_items_cons.
    destruct (process_item_cases now file_path item res known)
      as [(msg & Hi & ->) | [(s & Hi & Hk & ->) | (s & Hi & Hk & ->)]];
      intros H; apply IH in H as [Hsub Hkeys];
      (split; [set_solver|]); intros item' k st [<- | Hin] Hitem;
      try (now apply (Hkeys item' k st));
      rewrite Hi in Hitem; try discriminate;
      injection Hitem as <- <-; set_solver.
Qed.

Lemma process_items_tally (now file_path : string) (items : list json)
      (res res' : file_result) (known known' : gset string) :
  process_items now file_path items (res, known) = (res', known') ->
  (record_count res' + duplicate_count res'
   = record_count res + duplicate_count res
     + length (List.filter (is_keyed now file_path) items))%nat /\
  errors res' = errors res ++ omap (failure_of now file_path) items.
Proof.
  revert res known. induction items as [|item items IH]; intros res known.
  - intros [= <- <-]. simpl. rewrite app_nil_r. split; [lia | reflexivity].
  - rewrite process_items_cons. cbn [List.filter omap list_omap].
    unfold is_keyed at 1, failure_of at 1.
    destruct (process_item_cases now file_path item res known)
      as [(msg & Hi & ->) | [(s & Hi & _ & ->) | (s & Hi & _ & ->)]];
      rewrite Hi; intros H; apply IH in H as [Hsum Herr]; simpl in *;
      rewrite Herr, <- ?app_assoc; (split; [lia | reflexivity]).
Qed.

Lemma process_items_closed (now file_path : string) (items : list json)
      (res : file_result) (known : gset string) :
  (forall item k standardized,
      In item items ->
      attempt_item now file_path item = Keyed k standardized -> k ∈ known) ->
  process_items now file_path items (res, known)
  = (mk_file_result (standardized_data res) (record_count res)
       (duplicate_count res
        + length (List.filter (is_keyed now file_path) items))
       (errors res ++ omap (failure_of now file_path) items),
     known).
Proof.
  revert res. induction items as [|item items IH]; intros res Hkeys.
  - simpl. rewrite app_nil_r, Nat.add_0_r. now destruct res.
  - rewrite process_items_cons. cbn [List.filter omap list_omap].
    unfold is_keyed at 1, failure_of at 1.
    destruct (process_item_cases now file_path item res known)
      as [(msg & Hi & ->) | [(s & Hi & _ & ->) | (s & Hi & Hnew & _)]];
      rewrite Hi.
    + rewrite IH by (intros ? ? ? ?; apply Hkeys; now right).
      simpl. now rewrite <- app_assoc.
    + rewrite IH by (intros ? ? ? ?; apply Hkeys; now right).
      simpl. f_equal. f_equal. lia.
    + destruct Hnew. apply (Hkeys item _ s); [now left | exact Hi].
Qed.

(** X16. Processing a file again on the dict that the first run left returns
    no row: every record of the first run is a duplicate of the second,
    the duplicates and the errors of the first run are found again, and the
    dict is left as it is, at whatever time the second run happens. *)
Theorem process_json_file_again (read_text : string -> Py.result string)
        (json_loads : string -> Py.result json) (now now' file_path : string)
        (known_records known' : gset string) (r : file_result) :
  process_json_file read_text json_loads now file_path known_records
  = (r, known') ->
  process_json_file read_text json_loads now' file_path known'
  = (mk_file_result [] 0 (record_count r + duplicate_count r) (errors r),
     known').
Proof.
  rewrite (process_json_file_clock read_text json_loads now' now).
  rewrite !process_json_file_items.
  destruct (load_items read_text json_loads file_path) as [items|msg].
  - intros H.
    pose proof (process_items_final_keys _ _ _ _ _ _ _ H) as [_ Hkeys].
    apply process_items_tally in H as [Hsum Herr].
    rewrite (process_items_closed now file_path items empty_result known')
      by exact Hkeys.
    simpl in *. now rewrite Hsum, Herr.
  - now intros [= <- <-].
Qed.

Lemma process_json_file_again_witness :
  exists r known',
    process_json_file example_read_text example_json_loads "0" "a.json" ∅
    = (r, known') /\
    record_count r = 1%nat /\
    process_json_file example_read_text example_json_loads "1" "a.json" known'
    = (mk_file_result [] 0 1 [], known').
Proof.
  destruct (process_json_file example_read_text example_json_loads "0"
                              "a.json" ∅) as [r known'] eqn:E.
  exists r, known'. split; [reflexivity|].
  pose proof (process_json_file_again _ _ "0" "1" _ _ _ _ E) as Hagain.
  assert (Hr : record_count r = 1%nat /\ duplicate_count r = 0%nat
               /\ errors r = []).
  { change r with (fst (r, known')). rewrite <- E. vm_compute. auto. }
  destruct Hr as (Hrc & Hdc & Herr).
  rewrite Hrc, Hdc, Herr in Hagain. split; [exact Hrc | exact Hagain].
Defined.

Lemma process_json_file_known_records_witness :
  exists r known',
    process_json_file example_read_text example_json_loads "0" "a.json" ∅
    = (r, known') /\
    known' = list_to_set (row_keys "0" (standardized_data r)) ∪ ∅ /\
    row_keys "0" (standardized_data r) = ["id:42"].
Proof.
  destruct (process_json_file example_read_text example_json_loads "0"
                              "a.json" ∅) as [r known'] eqn:E.
  exists r, known'. split; [reflexivity|].
  destruct (process_json_file_known_records _ _ _ _ _ _ _ E) as (Hk & _).
  split; [exact Hk|].
  change r with (fst (r, known')). rewrite <- E. vm_compute. reflexivity.
Defined.

Lemma process_items_not_dicts (now file_path : string) (items : list json)
      (res : file_result) (known : gset string) :
  forallb (fun x => negb (is_dict x)) items = true ->
  process_items now file_path items (res, known)
  = (mk_file_result (standardized_data res) (record_count res)
       (duplicate_count res)
       (errors res
        ++ map (fun _ => "Skipped non-dictionary item in " +:+ file_path)
               items),
     known).
Proof.
  revert res. induction items as [|item items IH]; intros res Hitems.
  - simpl. rewrite app_nil_r. now destruct res.
  - simpl in Hitems. apply andb_true_iff in Hitems as [Hitem Hitems].
    rewrite process_items_cons.
    assert (Hstep : process_item now file_path item (res, known)
                    = (add_error ("Skipped non-dictionary item in "
                                  +:+ file_path) res, known)).
    { unfold process_item, attempt_item. now destruct item. }
    rewrite Hstep, IH by assumption. simpl. now rewrite <- app_assoc.
Qed.

(** X17. Files whose document is not an object of products.  A number, a
    boolean or null gives the one error [Error reading <file>: argument of
    type '<type>' is not iterable].  A list that holds no dict and none of
    the strings [product], [search_results], [products] gives one
    [Skipped non-dictionary item] error for each element; a list that
    holds one of these strings gives a single [Error reading] error.  The
    empty object gives one row, which holds the five fixed values only. *)
Theorem process_json_file_odd_documents
        (read_text : string -> Py.result string)
        (json_loads : string -> Py.result json) (now file_path text : string)
        (document : json) (known_records : gset string) :
  read_text file_path = Py.Ok text ->
  json_loads text = Py.Ok document ->
  (is_scalar document = true ->
   process_json_file read_text json_loads now file_path known_records
   = (mk_file_result [] 0 0
        [ "Error reading " +:+ file_path +:+ ": argument of type '"
          +:+ type_name document +:+ "' is not iterable" ],
      known_records)) /\
  (forall items,
      document = JList items ->
      existsb names_shape_key items = false ->
      forallb (fun x => negb (is_dict x)) items = true ->
      process_json_file read_text json_loads now file_path known_records
      = (mk_file_result [] 0 0
           (map (fun _ => "Skipped non-dictionary item in " +:+ file_path)
                items),
         known_records)) /\
  (forall items,
      document = JList items ->
      existsb names_shape_key items = true ->
      exists msg,
        process_json_file read_text json_loads now file_path known_records
        = (mk_file_result [] 0 0
             ["Error reading " +:+ file_path +:+ ": " +:+ msg],
           known_records)) /\
  (document = JDict [] ->
   fst (process_json_file read_text json_loads now file_path ∅)
   = mk_file_result [constants_row] 1 0 []).
Proof.
  intros Hread Hloads.
  rewrite !process_json_file_items. unfold load_items.
  rewrite Hread, Hloads. split; [|split; [|split]].
  - intros Hscalar. destruct document; try discriminate; reflexivity.
  - intros items -> Hshape Hitems. unfold items_of_document.
    rewrite get_field_list, extract_product_data_list
      by (assumption || reflexivity).
    cbn [Py.bind]. now rewrite process_items_not_dicts.
  - intros items -> Hshape. unfold items_of_document.
    destruct (get_field "product" (JList items)) as [[product|]|e] eqn:E.
    + revert E. clear. unfold get_field, contains_key, index_key.
      cbn [Py.bind]. destruct (existsb _ items); discriminate.
    + cbn [Py.bind].
      destruct (extract_product_data (JList items)) as [found|e] eqn:E'.
      * exfalso. revert E'. unfold extract_product_data. rewrite E.
        cbn [Py.bind]. unfold get_field, contains_key, index_key.
        apply existsb_shape_key_found in Hshape as [H | [H | H]].
        -- unfold get_field, contains_key in E. rewrite H in E.
           discriminate.
        -- cbn [Py.bind]. rewrite H. discriminate.
        -- cbn [Py.bind].
           destruct (existsb (fun x => match x with
                                       | JStr s => String.eqb s "search_results"
                                       | _ => false
                                       end) items); [discriminate|].
           cbn [Py.bind]. rewrite H. discriminate.
      * cbn [Py.bind]. now exists (Py.exn_str e).
    + cbn [Py.bind]. now exists (Py.exn_str e).
  - intros ->. vm_compute. reflexivity.
Qed.

Lemma process_json_file_odd_documents_witness :
  process_json_file (fun _ => Py.Ok "[1, null]")
                    (fun _ => Py.Ok (JList [JInt 1; JNull])) "0" "list.json" ∅
  = (mk_file_result [] 0 0
       [ "Skipped non-dictionary item in list.json";
         "Skipped non-dictionary item in list.json" ], ∅).
Proof.
  destruct (process_json_file_odd_documents
              (fun _ => Py.Ok "[1, null]")
              (fun _ => Py.Ok (JList [JInt 1; JNull])) "0" "list.json"
              "[1, null]" (JList [JInt 1; JNull]) ∅ eq_refl eq_refl)
    as (_ & Hlist & _).
  apply (Hlist [JInt 1; JNull]); reflexivity.
Defined.

(** ** [combine_json_to_csv]: the file and the statistics *)

Section BatchProperties.

Variable read_text : string -> Py.result string.
Variable json_loads : string -> Py.result json.
Variable now : string.
Variable glob : string -> list string.

Lemma filter_length_le {A : Type} (f : A -> bool) (l : list A) :
  (length (List.filter f l) <= length l)%nat.
Proof.
  induction l as [|x l IH]; [reflexivity|]. simpl.
  destruct (f x); simpl; lia.
Qed.

Lemma errors_length (results : list file_result) :
  (length (List.filter (fun r => has_errors r) results)
   <= length (concat (map errors results)))%nat.
Proof.
  induction results as [|r results IH]; [reflexivity|]. simpl.
  rewrite length_app. unfold has_errors at 1.
  destruct (errors r); simpl; lia.
Qed.

Lemma csv_line_length (item : row) : length (csv_line item) = 20%nat.
Proof. unfold csv_line. now rewrite length_map. Qed.

(** X18. When a run of [combine_json_to_csv] returns, the run with any
    other [batch_size] returns the same statistics and has written the same
    file: the header, one blank row and then the rows of the results, file
    by file in the order in which the workers complete. *)
Theorem combine_json_to_csv_batch_size (input : input_path)
        (batch_size batch_size' : nat) (skip_duplicates : bool)
        (schedule order : list nat) (st : stats)
        (out : option (list (list string))) :
  combine_json_to_csv read_text json_loads now glob input batch_size
                      skip_duplicates schedule order = Some (st, out) ->
  combine_json_to_csv read_text json_loads now glob input batch_size'
                      skip_duplicates schedule order = Some (st, out) /\
  (forall lines,
      out = Some lines ->
      exists results,
        run_batch read_text json_loads now skip_duplicates
                  (resolve glob input) schedule = Some results /\
        lines = STANDARD_HEADERS :: csv_line blank_row
                  :: map csv_line
                       (concat (map standardized_data
                                    (omap (fun i => results !! i) order)))).
Proof.
  unfold combine_json_to_csv.
  destruct (resolve glob input) as [|file files].
  - intros [= <- <-]. split; [reflexivity | discriminate].
  - destruct (run_batch _ _ _ _ _ _) as [results|]; [|discriminate].
    destruct (is_order _ _); [|discriminate].
    rewrite !write_csv_closed. intros [= <- <-]. split; [reflexivity|].
    intros lines [= <-]. now exists results.
Qed.

(** X19. When no file is found, [combine_json_to_csv] writes no file and
    returns zero counts with the one error
    [No JSON files found matching pattern: <input>].  Otherwise
    [files_processed] is the number of files, [files_with_errors] is at most
    that number and at most the number of errors, and the file has two
    lines more than [records_processed], each of 20 cells. *)
Theorem combine_json_to_csv_statistics (input : input_path) (batch_size : nat)
        (skip_duplicates : bool) (schedule order : list nat) (st : stats)
        (out : option (list (list string))) :
  combine_json_to_csv read_text json_loads now glob input batch_size
                      skip_duplicates schedule order = Some (st, out) ->
  (resolve glob input = [] ->
   out = None /\
   st = mk_stats 0 0 0 0
          ["No JSON files found matching pattern: " +:+ input_str input]) /\
  (resolve glob input <> [] ->
   files_processed st = length (resolve glob input) /\
   (files_with_errors st <= files_processed st)%nat /\
   (files_with_errors st <= length (stats_errors st))%nat /\
   exists lines,
     out = Some lines /\
     length lines = (2 + records_processed st)%nat /\
     Forall (fun line => length line = 20%nat) lines).
Proof.
  unfold combine_json_to_csv.
  destruct (resolve glob input) as [|file files] eqn:Hfiles.
  - intros [= <- <-]. split; [now split | congruence].
  - destruct (run_batch _ _ _ _ _ _) as [results|] eqn:Hrun; [|discriminate].
    destruct (is_order _ _) eqn:Horder; [|discriminate].
    rewrite write_csv_closed. intros [= <- <-].
    split; [discriminate|]. intros _.
    apply run_batch_counts in Hrun as [Hcounts Hlen].
    unfold is_order in Horder. apply andb_true_iff in Horder as [Horder Hlt].
    apply andb_true_iff in Horder as [_ Hn]. apply Nat.eqb_eq in Hn.
    rewrite <- Hlen in Hlt.
    cbn [files_processed files_with_errors stats_errors records_processed].
    rewrite (omap_lookup_length _ _ Hlt).
    split; [exact Hn|]. split.
    { rewrite <- (omap_lookup_length _ _ Hlt). apply filter_length_le. }
    split; [apply errors_length|].
    eexists. split; [reflexivity|]. split.
    + cbn [length]. rewrite length_map.
      now rewrite (sum_counts _ (omap_lookup_Forall _ _ _ Hcounts)).
    + repeat constructor. apply List.Forall_map, Forall_forall.
      intros item _. apply csv_line_length.
Qed.

End BatchProperties.

Lemma combine_json_to_csv_statistics_witness :
  exists st lines,
    combine_json_to_csv example_read_text example_json_loads "0" example_glob
                        (Pattern "*.json") 2 true [0; 0; 1]%nat [2; 1; 0]%nat
    = Some (st, Some lines) /\
    files_processed st = 3%nat /\ length lines = (2 + records_processed st)%nat.
Proof.
  destruct (combine_json_to_csv example_read_text example_json_loads "0"
              example_glob (Pattern "*.json") 2 true [0; 0; 1]%nat
              [2; 1; 0]%nat) as [[st [lines|]]|] eqn:E;
    try (vm_compute in E; discriminate).
  exists st, lines. split; [reflexivity|].
  destruct (combine_json_to_csv_statistics _ _ _ _ _ _ _ _ _ _ _ E)
    as (_ & Hstats).
  destruct Hstats as (Hfiles & _ & _ & lines' & [= <-] & Hlen & _);
    [discriminate|].
  split; [exact Hfiles | exact Hlen].
Defined.

Lemma combine_json_to_csv_batch_size_witness :
  exists out,
    combine_json_to_csv example_read_text example_json_loads "0" example_glob
                        (Pattern "*.json") 1 true [0; 0; 1]%nat [2; 1; 0]%nat
    = Some out /\
    combine_json_to_csv example_read_text example_json_loads "0" example_glob
                        (Pattern "*.json") 3 true [0; 0; 1]%nat [2; 1; 0]%nat
    = Some out.
Proof.
  destruct (combine_json_to_csv example_read_text example_json_loads "0"
              example_glob (Pattern "*.json") 1 true [0; 0; 1]%nat
              [2; 1; 0]%nat) as [[st out]|] eqn:E;
    [|vm_compute in E; discriminate].
  exists (st, out). split; [reflexivity|].
  apply (combine_json_to_csv_batch_size example_read_text example_json_loads
           "0" example_glob (Pattern "*.json") 1 3 true [0; 0; 1]%nat
           [2; 1; 0]%nat st out E).
Defined.

(** ** Workers with a dict of their own *)

Section PrivateDicts.

Variable read_text : string -> Py.result string.
Variable json_loads : string -> Py.result json.
Variable now : string.

Lemma worker_step_outcome (known known' : gset string) (w w' : worker) :
  worker_step now known w = Some (known', w') ->
  outcome now w' known' = outcome now w known /\
  w_private w' = w_private w.
Proof.
  unfold worker_step, outcome, settle.
  destruct (w_pending w) as [[record_key standardized]|] eqn:Hpending.
  - intros [= <- <-]. now split.
  - destruct (w_todo w) as [|item rest] eqn:Htodo; [discriminate|].
    rewrite process_items_cons. unfold process_item.
    destruct (attempt_item now (w_path w) item) as [msg|key standardized].
    + intros [= <- <-]. now split.
    + destruct (bool_decide (key ∈ known)); intros [= <- <-]; now split.
Qed.

Lemma outcome_set_private (own known : gset string) (w : worker) :
  outcome now (set_private own w) known = outcome now w known.
Proof. reflexivity. Qed.

Lemma pool_step_private (i : nat) (p p' : pool) :
  Forall (fun w => has_private w = true) (workers p) ->
  pool_step now i p = Some p' ->
  Forall (fun w => has_private w = true) (workers p') /\
  map (final_result now) (workers p') = map (final_result now) (workers p).
Proof.
  intros Hall. unfold pool_step.
  destruct (workers p !! i) as [w|] eqn:Hw; [|discriminate].
  pose proof (Forall_lookup_1 _ _ _ _ Hall Hw) as Hp.
  unfold has_private in Hp.
  destruct (w_private w) as [own|] eqn:Hown; [|discriminate].
  destruct (worker_step now own w) as [[own' w']|] eqn:Hstep; [|discriminate].
  intros [= <-]. cbn [workers].
  apply worker_step_outcome in Hstep as [Hout _]. split.
  - apply Forall_insert; [assumption | reflexivity].
  - rewrite list_fmap_insert. apply list_insert_id.
    rewrite list_lookup_fmap, Hw. cbn. f_equal.
    change (fst (outcome now w (default ∅ (w_private w)))
            = fst (outcome now w' own')).
    now rewrite Hout, Hown.
Qed.

Lemma run_pool_private (schedule : list nat) (p p' : pool) :
  Forall (fun w => has_private w = true) (workers p) ->
  run_pool now schedule p = Some p' ->
  map (final_result now) (workers p') = map (final_result now) (workers p).
Proof.
  revert p. induction schedule as [|i schedule IH]; intros p Hall;
    cbn [run_pool].
  - now intros [= <-].
  - destruct (pool_step now i p) as [p1|] eqn:Hstep; [|discriminate].
    destruct (pool_step_private i p p1 Hall Hstep) as [Hall1 Hmap].
    intros Hrun. now rewrite (IH p1 Hall1 Hrun).
Qed.

Lemma final_result_done (w : worker) :
  w_done w = true -> final_result now w = w_result w.
Proof.
  unfold w_done, final_result, outcome, settle.
  destruct (w_todo w); [|discriminate].
  now destruct (w_pending w).
Qed.

Lemma final_result_start (skip_duplicates : bool) (file_path : string) :
  fst (outcome now (start_worker read_text json_loads skip_duplicates
                                 file_path) ∅)
  = fst (process_json_file read_text json_loads now file_path ∅).
Proof.
  rewrite process_json_file_items. unfold start_worker, outcome, settle.
  now destruct (load_items read_text json_loads file_path).
Qed.

Lemma map_done (ws : list worker) :
  forallb w_done ws = true -> map (final_result now) ws = map w_result ws.
Proof.
  induction ws as [|w ws IH]; [reflexivity|]. cbn [forallb map].
  intros H. apply andb_true_iff in H as [Hw Hws].
  now rewrite final_result_done, IH.
Qed.

(** X20. With [skip_duplicates] off, [known_records] is [None] and every
    call of [process_json_file] makes a dict of its own.  Under every
    schedule each file's result is then what [process_json_file] returns
    for that file alone on an empty dict: a record is skipped as a duplicate
    within its file only, and the rows of one file keep distinct keys. *)
Theorem run_batch_private_dicts (json_files : list string)
        (schedule : list nat) (results : list file_result) :
  run_batch read_text json_loads now false json_files schedule
  = Some results ->
  results
  = map (fun file_path =>
           fst (process_json_file read_text json_loads now file_path ∅))
        json_files /\
  Forall (fun r => NoDup (row_keys now (standardized_data r))) results.
Proof.
  unfold run_batch.
  destruct (run_pool now schedule _) as [p|] eqn:Hrun; [|discriminate].
  destruct (finished p) eqn:Hfin; [|discriminate]. intros [= <-].
  assert (Hmap : map w_result (workers p)
                 = map (fun file_path =>
                          fst (process_json_file read_text json_loads now
                                                 file_path ∅)) json_files).
  { rewrite <- (map_done _ Hfin).
    rewrite (run_pool_private schedule _ p) with (2 := Hrun).
    - unfold start_pool. cbn [workers]. rewrite map_map.
      apply map_ext. intros file_path.
      unfold final_result.
      replace (w_private (start_worker read_text json_loads false file_path))
        with (Some (∅ : gset string)).
      + apply final_result_start.
      + unfold start_worker.
        now destruct (load_items read_text json_loads file_path).
    - unfold start_pool. cbn [workers].
      apply List.Forall_map, Forall_forall. intros file_path _.
      unfold start_worker, has_private.
      now destruct (load_items read_text json_loads file_path). }
  split; [exact Hmap|]. rewrite Hmap. apply List.Forall_map, Forall_forall.
  intros file_path _.
  destruct (process_json_file read_text json_loads now file_path ∅)
    as [r known'] eqn:E.
  rewrite process_json_file_items in E.
  destruct (load_items read_text json_loads file_path) as [items|msg].
  - apply process_items_known in E as (rows & Hrows & _ & Hnd & _).
    simpl in Hrows. now subst rows.
  - injection E as <- _. constructor.
Qed.

End PrivateDicts.

Lemma run_batch_private_dicts_witness :
  exists results,
    run_batch twice_read_text twice_json_loads "0" false
              ["a.json"; "b.json"] [1; 0; 0; 1; 0; 1]%nat = Some results /\
    map record_count results = [1; 1]%nat /\
    map duplicate_count results = [1; 1]%nat.
Proof.
  destruct (run_batch twice_read_text twice_json_loads "0" false
              ["a.json"; "b.json"] [1; 0; 0; 1; 0; 1]%nat)
    as [results|] eqn:E; [|vm_compute in E; discriminate].
  exists results. split; [reflexivity|].
  destruct (run_batch_private_dicts _ _ _ _ _ _ E) as [-> _].
  split; vm_compute; reflexivity.
Defined.

(** ** Files read one after the other on one dict *)

Lemma accepted_keys_cons (now : string) (r : file_result)
      (results : list file_result) :
  accepted_keys now (r :: results)
  = row_keys now (standardized_data r) ++ accepted_keys now results.
Proof. reflexivity. Qed.

(** X21. Files read one after the other on one dict, as the loop of
    [test_web_conversion.py] reads them, give one result for each file; the
    keys of all the rows returned differ from one another and none was known
    before; the dict ends as the dict before with these keys added; and the
    record counts add up to the number of these keys. *)
Theorem process_files_keys (read_text : string -> Py.result string)
        (json_loads : string -> Py.result json) (now : string)
        (json_files : list string) (known_records known' : gset string)
        (results : list file_result) :
  process_files read_text json_loads now json_files known_records
  = (results, known') ->
  length results = length json_files /\
  NoDup (accepted_keys now results) /\
  (forall k, k ∈ accepted_keys now results -> k ∉ known_records) /\
  known' = list_to_set (accepted_keys now results) ∪ known_records /\
  sum_list (map record_count results) = length (accepted_keys now results).
Proof.
  revert known_records results.
  induction json_files as [|file_path json_files IH];
    intros known_records results; cbn [process_files].
  - intros [= <- <-]. repeat split; try constructor; set_solver.
  - destruct (process_json_file read_text json_loads now file_path
                                known_records) as [r known1] eqn:Hfile.
    destruct (process_files read_text json_loads now json_files known1)
      as [rs known2] eqn:Hrest.
    intros [= <- <-].
    destruct (IH _ _ Hrest) as (Hlen & Hnd & Hfresh & Hknown & Hsum).
    rewrite process_json_file_items in Hfile.
    assert (Hr : known1 = list_to_set (row_keys now (standardized_data r))
                          ∪ known_records /\
                 NoDup (row_keys now (standardized_data r)) /\
                 (forall k, k ∈ row_keys now (standardized_data r) ->
                            k ∉ known_records) /\
                 record_count r = length (standardized_data r)).
    { destruct (load_items read_text json_loads file_path) as [items|msg].
      - pose proof (process_items_counts _ _ _ _ _ _ _ Hfile) as [_ Hcount].
        apply process_items_known in Hfile
          as (rows & Hrows & Hk & Hnd' & Hfresh').
        simpl in Hrows. subst rows.
        split; [exact Hk|]. split; [exact Hnd'|]. split; [exact Hfresh'|].
        now apply Hcount.
      - injection Hfile as <- <-. simpl. split; [set_solver|].
        split; [constructor|]. split; [|reflexivity].
        intros k Hk. inversion Hk. }
    destruct Hr as (Hk1 & Hnd1 & Hfresh1 & Hcount).
    rewrite accepted_keys_cons.
    split; [simpl; now rewrite Hlen|]. split.
    { apply NoDup_app. split; [exact Hnd1|]. split; [|exact Hnd].
      intros k Hk Hk'. apply Hfresh in Hk'. set_solver. }
    split.
    { intros k Hk. apply elem_of_app in Hk as [Hk | Hk].
      - now apply Hfresh1.
      - apply Hfresh in Hk. set_solver. }
    split; [set_solver|].
    cbn [map sum_list sum_list_with]. rewrite length_app, Hsum.
    unfold row_keys at 1. now rewrite length_map, Hcount.
Qed.

Lemma process_files_keys_witness :
  exists results known',
    process_files example_read_text example_json_loads "0"
                  ["a.json"; "b.json"; "c.json"] ∅ = (results, known') /\
    NoDup (accepted_keys "0" results) /\
    map record_count results = [1; 0; 0]%nat /\
    map duplicate_count results = [0; 1; 0]%nat.
Proof.
  destruct (process_files example_read_text example_json_loads "0"
                          ["a.json"; "b.json"; "c.json"] ∅)
    as [results known'] eqn:E.
  exists results, known'. split; [reflexivity|].
  destruct (process_files_keys _ _ _ _ _ _ _ E) as (_ & Hnd & _).
  split; [exact Hnd|].
  change results with (fst (results, known')). rewrite <- E.
  split; vm_compute; reflexivity.
Defined.

(** ** [run_conversion]: rows, counts and errors *)

Lemma convert_search_result_row (element : json) (r : row) :
  convert_search_result element = Py.Ok (Some r) ->
  exists record, standardize_record record = Py.Ok r.
Proof.
  unfold convert_search_result. destruct element; try discriminate.
  destruct (Py.get "product" kvs) as [[| | | | | |product_data]|];
    try discriminate.
  destruct (enrich_search_product kvs product_data) as [pd|]; [|discriminate].
  cbn [Py.bind].
  destruct (standardize_record pd) as [r'|] eqn:E; [|discriminate].
  cbn [Py.bind]. intros [= <-]. now exists pd.
Qed.

Lemma write_if_data_ok (record : dict) (r : row) (c : conversion) :
  standardize_record record = Py.Ok r ->
  conversion_ok c -> conversion_ok (write_if_data r c).
Proof.
  intros Hr (Hcount & Hrows & Herr). unfold write_if_data.
  destruct (has_data r) eqn:Hdata; [|now split].
  apply standardize_record_inv in Hr as [Hkeys _].
  split; [|split]; cbn.
  - rewrite length_app, Hcount. simpl. lia.
  - apply Forall_app. split; [exact Hrows|]. now repeat constructor.
  - exact Herr.
Qed.

Lemma record_error_ok (msg : string) (c : conversion) :
  conversion_ok c -> conversion_ok (record_error msg c).
Proof.
  intros (Hcount & Hrows & Herr). split; [|split]; cbn; try assumption.
  rewrite length_app, Herr. simpl. lia.
Qed.

Lemma count_file_ok (c : conversion) :
  conversion_ok c -> conversion_ok (count_file c).
Proof. intros (Hcount & Hrows & Herr). now split. Qed.

Lemma convert_search_results_ok (products : list json) (c c' : conversion)
      (raised : option Py.exn) :
  convert_search_results products c = (c', raised) ->
  conversion_ok c ->
  conversion_ok c' /\
  web_files_processed c' = web_files_processed c /\
  web_files_with_errors c' = web_files_with_errors c.
Proof.
  revert c. induction products as [|product products IH]; intros c;
    cbn [convert_search_results].
  - intros [= <- <-]. auto.
  - destruct (convert_search_result product) as [[r|]|e] eqn:E.
    + intros H Hc. apply convert_search_result_row in E as [record Hr].
      apply IH in H as (Hok & Hf & He);
        [|now apply (write_if_data_ok record)].
      split; [exact Hok|]. rewrite Hf, He. unfold write_if_data.
      now destruct (has_data r).
    + apply IH.
    + intros [= <- <-]. auto.
Qed.

Lemma convert_document_ok (name : string) (json_data : json)
      (c c' : conversion) (raised : option Py.exn) :
  convert_document name json_data c = (c', raised) ->
  conversion_ok c ->
  conversion_ok c' /\
  (web_files_processed c' <= S (web_files_processed c))%nat /\
  (web_files_with_errors c'
   + match raised with Some _ => 1 | None => 0 end
   <= S (web_files_with_errors c))%nat.
Proof.
  unfold convert_document.
  destruct (get_field "product" json_data) as [found|e];
    [|intros [= <- <-] Hc; split; [exact Hc | lia]].
  assert (Hsearch :
    match get_field "search_results" json_data with
    | Py.Raise e => (c, Some e)
    | Py.Ok (Some search_results) =>
        match search_products search_results with
        | [] => (no_product_data name c, None)
        | products => convert_search_results products c
        end
    | Py.Ok None => (no_product_data name c, None)
    end = (c', raised) ->
    conversion_ok c ->
    conversion_ok c' /\
    (web_files_processed c' <= S (web_files_processed c))%nat /\
    (web_files_with_errors c'
     + match raised with Some _ => 1 | None => 0 end
     <= S (web_files_with_errors c))%nat).
  { destruct (get_field "search_results" json_data) as [[sr|]|e].
    - destruct (search_products sr) as [|p ps] eqn:Hps.
      + intros [= <- <-] Hc. split.
        * now apply count_file_ok, record_error_ok.
        * cbn. lia.
      + intros H Hc. apply convert_search_results_ok in H
          as (Hok & Hf & He); [|exact Hc].
        split; [exact Hok|]. rewrite Hf, He. destruct raised; lia.
    - intros [= <- <-] Hc. split.
      + now apply count_file_ok, record_error_ok.
      + cbn. lia.
    - intros [= <- <-] Hc. split; [exact Hc | lia]. }
  destruct found as [[| | | | | |product]|]; try exact Hsearch.
  clear Hsearch.
  destruct (get_field "buybox_winner" json_data) as [bw|e];
    [|intros [= <- <-] Hc; split; [exact Hc | lia]].
  cbn zeta.
  destruct (describe_product _) as [product'|e];
    [|intros [= <- <-] Hc; split; [exact Hc | lia]].
  destruct (standardize_record product') as [r|e] eqn:Hr;
    [|intros [= <- <-] Hc; split; [exact Hc | lia]].
  intros [= <- <-] Hc. split.
  - now apply count_file_ok, (write_if_data_ok product').
  - unfold write_if_data. destruct (has_data r); cbn; lia.
Qed.

Section WebProperties.

Variable read_text : string -> Py.result string.
Variable json_loads : string -> Py.result json.
Variable basename : string -> string.

Lemma convert_file_ok (c : conversion) (file_path : string) :
  conversion_ok c ->
  conversion_ok (convert_file read_text json_loads basename c file_path) /\
  (web_files_processed
     (convert_file read_text json_loads basename c file_path)
   <= S (web_files_processed c))%nat /\
  (web_files_with_errors
     (convert_file read_text json_loads basename c file_path)
   <= S (web_files_with_errors c))%nat.
Proof.
  intros Hc. unfold convert_file.
  destruct (json_load read_text json_loads file_path) as [json_data|e].
  - destruct (convert_document (basename file_path) json_data c)
      as [c' raised] eqn:E.
    apply convert_document_ok in E as (Hok & Hf & He); [|exact Hc].
    destruct raised as [e|].
    + split; [now apply record_error_ok|]. cbn. lia.
    + split; [exact Hok | lia].
  - split; [now apply record_error_ok|]. cbn. lia.
Qed.

Lemma fold_convert_file_ok (saved_files : list string) (c : conversion) :
  conversion_ok c ->
  let c' := fold_left (convert_file read_text json_loads basename)
                      saved_files c in
  conversion_ok c' /\
  (web_files_processed c' <= web_files_processed c + length saved_files)%nat /\
  (web_files_with_errors c'
   <= web_files_with_errors c + length saved_files)%nat.
Proof.
  revert c. induction saved_files as [|f fs IH]; intros c Hc; cbn zeta.
  - simpl. split; [exact Hc | lia].
  - cbn [fold_left].
    destruct (convert_file_ok c f Hc) as (Hok & Hf & He).
    destruct (IH _ Hok) as (Hok' & Hf' & He'). cbn zeta in *.
    split; [exact Hok'|]. simpl. lia.
Qed.

(** X22. The loop of [run_conversion] keeps its counters in step with what
    it has written: [records_processed] is the number of rows written, each
    written row has data and the 20 standard columns, [files_with_errors]
    is the number of error messages, and neither file counter exceeds the
    number of files.  The CSV file has one line more than
    [records_processed], each of 20 cells: unlike [combine_json_to_csv],
    the loop writes no blank row under the header. *)
Theorem run_conversion_counts (saved_files : list string) :
  let c := run_conversion read_text json_loads basename saved_files in
  web_records_processed c = length (web_rows c) /\
  Forall (fun r => has_data r = true /\ map fst r = STANDARD_HEADERS)
         (web_rows c) /\
  length (web_errors c) = web_files_with_errors c /\
  (web_files_processed c <= length saved_files)%nat /\
  (web_files_with_errors c <= length saved_files)%nat /\
  length (web_csv c) = S (web_records_processed c) /\
  Forall (fun line => length line = 20%nat) (web_csv c).
Proof.
  cbn zeta. unfold run_conversion.
  destruct (fold_convert_file_ok saved_files (mk_conversion [] 0 0 0 []))
    as ((Hcount & Hrows & Herr) & Hf & He).
  { split; [reflexivity|]. split; [constructor | reflexivity]. }
  cbn zeta in *. simpl in Hf, He.
  split; [exact Hcount|]. split; [exact Hrows|]. split; [exact Herr|].
  split; [exact Hf|]. split; [exact He|]. split.
  - unfold web_csv. cbn [length]. now rewrite length_map, Hcount.
  - unfold web_csv. constructor; [reflexivity|].
    apply List.Forall_map, Forall_forall. intros r _. apply csv_line_length.
Qed.

End WebProperties.

(** ** [run_conversion]: each file on its own *)

Lemma conversion_app_empty (c : conversion) :
  conversion_app c (mk_conversion [] 0 0 0 []) = c.
Proof.
  destruct c. unfold conversion_app. cbn.
  now rewrite !app_nil_r, !Nat.add_0_r.
Qed.

Lemma write_if_data_app (r : row) (c d : conversion) :
  write_if_data r (conversion_app c d) = conversion_app c (write_if_data r d).
Proof.
  unfold write_if_data. destruct (has_data r); [|reflexivity].
  unfold conversion_app. cbn. now rewrite app_assoc, Nat.add_succ_r.
Qed.

Lemma count_file_app (c d : conversion) :
  count_file (conversion_app c d) = conversion_app c (count_file d).
Proof. unfold count_file, conversion_app. cbn. now rewrite Nat.add_succ_r. Qed.

Lemma record_error_app (msg : string) (c d : conversion) :
  record_error msg (conversion_app c d) = conversion_app c (record_error msg d).
Proof.
  unfold record_error, conversion_app. cbn.
  now rewrite app_assoc, Nat.add_succ_r.
Qed.

Lemma convert_search_results_app (products : list json) (c d : conversion) :
  convert_search_results products (conversion_app c d)
  = (conversion_app c (fst (convert_search_results products d)),
     snd (convert_search_results products d)).
Proof.
  revert d. induction products as [|product products IH]; intros d;
    cbn [convert_search_results]; [reflexivity|].
  destruct (convert_search_result product) as [[r|]|e]; [| apply IH |
    reflexivity].
  now rewrite write_if_data_app, IH.
Qed.

Lemma convert_document_app (name : string) (json_data : json)
      (c d : conversion) :
  convert_document name json_data (conversion_app c d)
  = (conversion_app c (fst (convert_document name json_data d)),
     snd (convert_document name json_data d)).
Proof.
  unfold convert_document, no_product_data.
  destruct (get_field "product" json_data) as [found|e]; [|reflexivity].
  assert (Hsearch :
    match get_field "search_results" json_data with
    | Py.Raise e => (conversion_app c d, Some e)
    | Py.Ok (Some search_results) =>
        match search_products search_results with
        | [] => (count_file
                   (record_error ("No product data found in " +:+ name)
                                 (conversion_app c d)), None)
        | products => convert_search_results products (conversion_app c d)
        end
    | Py.Ok None =>
        (count_file (record_error ("No product data found in " +:+ name)
                                  (conversion_app c d)), None)
    end
    = (conversion_app c
         (fst match get_field "search_results" json_data with
              | Py.Raise e => (d, Some e)
              | Py.Ok (Some search_results) =>
                  match search_products search_results with
                  | [] => (count_file
                             (record_error
                                ("No product data found in " +:+ name) d),
                           None)
                  | products => convert_search_results products d
                  end
              | Py.Ok None =>
                  (count_file
                     (record_error ("No product data found in " +:+ name) d),
                   None)
              end),
       snd match get_field "search_results" json_data with
           | Py.Raise e => (d, Some e)
           | Py.Ok (Some search_results) =>
               match search_products search_results with
               | [] => (count_file
                          (record_error
                             ("No product data found in " +:+ name) d),
                        None)
               | products => convert_search_results products d
               end
           | Py.Ok None =>
               (count_file
                  (record_error ("No product data found in " +:+ name) d),
                None)
           end)).
  { destruct (get_field "search_results" json_data) as [[sr|]|e];
      try reflexivity;
      try (now rewrite record_error_app, count_file_app).
    destruct (search_products sr) as [|p ps];
      [now rewrite record_error_app, count_file_app|].
    apply convert_search_results_app. }
  destruct found as [[| | | | | |product]|]; try exact Hsearch.
  clear Hsearch.
  destruct (get_field "buybox_winner" json_data) as [bw|e]; [|reflexivity].
  cbn zeta. destruct (describe_product _) as [product'|e]; [|reflexivity].
  destruct (standardize_record product') as [r|e]; [|reflexivity].
  cbn [fst snd]. now rewrite write_if_data_app, count_file_app.
Qed.

Section WebFiles.

Variable read_text : string -> Py.result string.
Variable json_loads : string -> Py.result json.
Variable basename : string -> string.

Lemma convert_file_app (c d : conversion) (file_path : string) :
  convert_file read_text json_loads basename (conversion_app c d) file_path
  = conversion_app c
      (convert_file read_text json_loads basename d file_path).
Proof.
  unfold convert_file.
  destruct (json_load read_text json_loads file_path) as [json_data|e].
  - rewrite convert_document_app.
    destruct (convert_document (basename file_path) json_data d)
      as [d' [e|]]; cbn [fst snd]; [apply record_error_app | reflexivity].
  - apply record_error_app.
Qed.

Lemma fold_convert_file_app (saved_files : list string) (c d : conversion) :
  fold_left (convert_file read_text json_loads basename) saved_files
            (conversion_app c d)
  = conversion_app c
      (fold_left (convert_file read_text json_loads basename) saved_files d).
Proof.
  revert d. induction saved_files as [|f fs IH]; intros d; [reflexivity|].
  cbn [fold_left]. now rewrite convert_file_app, IH.
Qed.

(** X23. [run_conversion] carries nothing but its counters from one file
    to the next: the run on a list of files gives the rows, the counts and
    the errors of the runs on its two parts, put end to end.  It tests for
    no duplicate: a file given twice has its rows written twice. *)
Theorem run_conversion_app (first_files more_files : list string) :
  run_conversion read_text json_loads basename (first_files ++ more_files)
  = conversion_app
      (run_conversion read_text json_loads basename first_files)
      (run_conversion read_text json_loads basename more_files) /\
  (forall file_path,
      web_rows (run_conversion read_text json_loads basename
                               [file_path; file_path])
      = web_rows (run_conversion read_text json_loads basename [file_path])
        ++ web_rows (run_conversion read_text json_loads basename
                                    [file_path])).
Proof.
  assert (Happ : forall fs1 fs2,
             run_conversion read_text json_loads basename (fs1 ++ fs2)
             = conversion_app
                 (run_conversion read_text json_loads basename fs1)
                 (run_conversion read_text json_loads basename fs2)).
  { intros fs1 fs2. unfold run_conversion. rewrite fold_left_app.
    rewrite <- fold_convert_file_app. now rewrite conversion_app_empty. }
  split; [apply Happ|].
  intros file_path.
  change [file_path; file_path] with ([file_path] ++ [file_path]).
  now rewrite (Happ [file_path] [file_path]).
Qed.

(** X24. A file whose [search_results] gives a list of products that is not
    empty leaves the loop body by [continue] or by an exception before
    [files_processed] is increased: it is never counted as processed,
    whatever rows it wrote.  A product file that records no error is
    counted once. *)
Theorem search_results_file_not_counted (c : conversion)
        (file_path : string) (json_data : json) :
  json_load read_text json_loads file_path = Py.Ok json_data ->
  (forall found search_results,
      get_field "product" json_data = Py.Ok found ->
      not_a_dict found = true ->
      get_field "search_results" json_data = Py.Ok (Some search_results) ->
      search_products search_results <> [] ->
      web_files_processed
        (convert_file read_text json_loads basename c file_path)
      = web_files_processed c) /\
  (forall product,
      get_field "product" json_data = Py.Ok (Some (JDict product)) ->
      web_files_with_errors
        (convert_file read_text json_loads basename c file_path)
      = web_files_with_errors c ->
      web_files_processed
        (convert_file read_text json_loads basename c file_path)
      = S (web_files_processed c)).
Proof.
  intros Hload. unfold convert_file. rewrite Hload. split.
  - intros found sr Hfound Hnot Hsr Hproducts. unfold convert_document.
    rewrite Hfound, Hsr.
    assert (Hrun :
      web_files_processed
        (let '(c0, raised) :=
           match search_products sr with
           | [] => (no_product_data (basename file_path) c, None)
           | products => convert_search_results products c
           end in
         match raised with
         | Some e =>
             record_error ("Error processing " +:+ basename file_path
                           +:+ ": " +:+ Py.exn_str e) c0
         | None => c0
         end) = web_files_processed c).
    { destruct (search_products sr) as [|p ps] eqn:Hps; [congruence|].
      destruct (convert_search_results (p :: ps) c) as [c' raised] eqn:E.
      assert (Hf : web_files_processed c' = web_files_processed c).
      { clear -E. revert c E. generalize (p :: ps). intros products.
        induction products as [|x xs IH]; intros c;
          cbn [convert_search_results].
        - now intros [= <- <-].
        - destruct (convert_search_result x) as [[r|]|e].
          + intros H. apply IH in H. rewrite H. unfold write_if_data.
            now destruct (has_data r).
          + apply IH.
          + now intros [= <- <-]. }
      destruct raised; exact Hf. }
    destruct found as [[| | | | | |product]|]; try discriminate; exact Hrun.
  - intros product Hproduct. unfold convert_document. rewrite Hproduct.
    destruct (get_field "buybox_winner" json_data) as [bw|e];
      [|cbn; lia].
    cbn zeta. destruct (describe_product _) as [product'|e]; [|cbn; lia].
    destruct (standardize_record product') as [r|e]; [|cbn; lia].
    intros _. unfold write_if_data. now destruct (has_data r).
Qed.

End WebFiles.

Lemma run_conversion_app_witness :
  web_rows (run_conversion upload_read_text upload_json_loads upload_basename
                           ["uploads/hammer.json"; "uploads/hammer.json"])
  = web_rows (run_conversion upload_read_text upload_json_loads
                             upload_basename ["uploads/hammer.json"])
    ++ web_rows (run_conversion upload_read_text upload_json_loads
                                upload_basename ["uploads/hammer.json"]).
Proof.
  apply (run_conversion_app upload_read_text upload_json_loads
           upload_basename [] []).
Defined.

Lemma search_results_file_not_counted_witness :
  web_files_processed
    (convert_file upload_read_text upload_json_loads upload_basename
                  (mk_conversion [] 0 0 0 []) "uploads/page.json") = 0%nat /\
  web_rows
    (convert_file upload_read_text upload_json_loads upload_basename
                  (mk_conversion [] 0 0 0 []) "uploads/page.json") <> [].
Proof.
  split.
  - apply (proj1 (search_results_file_not_counted upload_read_text
                    upload_json_loads upload_basename
                    (mk_conversion [] 0 0 0 []) "uploads/page.json"
                    search_page eq_refl)
                 None (JList [JDict pipe_result]));
      [reflexivity | reflexivity | reflexivity | discriminate].
  - vm_compute. discriminate.
Defined.

(** ** Rows without data *)

Lemma has_data_false (r : row) :
  has_data r = false <->
  forall k v, In (k, v) r -> Py.mem k FIXED_COLUMNS = false -> v = "".
Proof.
  unfold has_data. split.
  - intros H k v Hin Hk.
    assert (Hkv : Py.nonempty v && negb (Py.mem k FIXED_COLUMNS) = false).
    { destruct (Py.nonempty v && negb (Py.mem k FIXED_COLUMNS)) eqn:E;
        [|reflexivity].
      rewrite <- H. symmetry. apply existsb_exists. now exists (k, v). }
    rewrite Hk, andb_true_r in Hkv. now apply nonempty_false.
  - intros H. destruct (existsb _ r) eqn:E; [|reflexivity].
    apply existsb_exists in E as ([k v] & Hin & Hkv). simpl in Hkv.
    apply andb_true_iff in Hkv as [Hv Hk]. apply negb_true_iff in Hk.
    rewrite (H k v Hin Hk) in Hv. discriminate.
Qed.

(** X25. A row that [standardize_record] returned has no data, in the sense
    of the test [has_data] of [run_conversion], exactly when it is the row of
    the five fixed values.  [generate_record_key] gives every such row the
    key [hash:HD_HD_HD_43%_HD], at any time of the clock. *)
Theorem has_data_standardized (record : dict) (r : row) :
  standardize_record record = Py.Ok r ->
  (has_data r = false <-> r = constants_row) /\
  (has_data r = false ->
   forall now, generate_record_key now r = "hash:HD_HD_HD_43%_HD").
Proof.
  intros Hr. apply standardize_record_inv in Hr as [Hkeys Hconst].
  assert (Hiff : has_data r = false <-> r = constants_row).
  { split; [|intros ->; reflexivity].
    intros Hdata. rewrite has_data_false in Hdata.
    rewrite (has_standard_keys_cells r Hkeys) at 1.
    unfold constants_row. apply map_ext_in. intros h Hh. f_equal.
    destruct (Py.mem h FIXED_COLUMNS) eqn:Hfixed.
    - apply mem_In in Hfixed. simpl in Hfixed.
      destruct Hfixed as [<-|[<-|[<-|[<-|[<-|[]]]]]];
        apply Hconst; simpl; tauto.
    - rewrite (Hdata h (row_get h r)); [|
        rewrite (has_standard_keys_cells r Hkeys) at 2;
        apply in_map_iff; now exists h | exact Hfixed].
      simpl in Hh.
      repeat (destruct Hh as [<-|Hh]; [try reflexivity; discriminate Hfixed|]).
      destruct Hh. }
  split; [exact Hiff|].
  intros Hdata now. apply Hiff in Hdata. subst r. reflexivity.
Qed.

Lemma has_data_standardized_witness :
  has_data constants_row = false /\
  generate_record_key "0" constants_row = "hash:HD_HD_HD_43%_HD".
Proof.
  destruct (has_data_standardized [] constants_row eq_refl) as [Hiff Hkey].
  split; [now apply Hiff | apply Hkey; now apply Hiff].
Defined.

(** ** The description of a product file *)

Lemma get_truthy_set_ne (k k' : string) (v : json) (d : dict) :
  k <> k' -> get_truthy k' (Py.set k v d) = get_truthy k' d.
Proof. intros H. unfold get_truthy. now rewrite get_set_ne. Qed.

Lemma get_truthy_set_eq (k : string) (v : json) (d : dict) :
  get_truthy k (Py.set k v d) = if Py.truthy v then Some v else None.
Proof. unfold get_truthy. now rewrite get_set_eq. Qed.

(** X26. When a product file has no truthy [description], [run_conversion]
    copies into it the value of the first key that the product has among
    [description_full], [long_description], [details] and [title], even
    when that value is empty.  CF.Description of the row is then [str] of
    the copied value when it is truthy, and what the record gives without
    the copy when it is not.  A product with none of the four keys is left
    as it is. *)
Theorem product_file_description (product : dict) :
  get_truthy "description" product = None ->
  (forall v,
      first_present ["description_full"; "long_description"; "details";
                     "title"] product = Some v ->
      describe_product product = Py.Ok (Py.set "description" v product) /\
      forall r,
        standardize_record (Py.set "description" v product) = Py.Ok r ->
        row_get "CF.Description" r =
          if Py.truthy v then Py.str v else description_of product) /\
  (first_present ["description_full"; "long_description"; "details"; "title"]
                 product = None ->
   describe_product product = Py.Ok product).
Proof.
  intros Hnone. unfold describe_product. rewrite Hnone. cbn [first_present].
  split.
  - intros v Hv. split.
    + destruct (Py.get "description_full" product); [now injection Hv as ->|].
      destruct (Py.get "long_description" product); [now injection Hv as ->|].
      destruct (Py.get "details" product); [now injection Hv as ->|].
      destruct (Py.get "title" product); [now injection Hv as ->|].
      discriminate.
    + intros r Hr. rewrite (standardize_record_cf_description _ _ Hr).
      unfold description_of. cbn [first_truthy first_present].
      rewrite get_truthy_set_eq, !get_truthy_set_ne, !get_set_ne
        by discriminate.
      destruct (Py.truthy v); [reflexivity|]. now rewrite Hnone.
  - intros H.
    destruct (Py.get "description_full" product); [discriminate|].
    destruct (Py.get "long_description" product); [discriminate|].
    destruct (Py.get "details" product); [discriminate|].
    now destruct (Py.get "title" product).
Qed.

Lemma product_file_description_witness :
  exists r,
    Py.bind (describe_product full_description) standardize_record = Py.Ok r /\
    row_get "CF.Description" r = "A 16 oz claw hammer".
Proof.
  destruct (product_file_description full_description eq_refl)
    as (Hfound & _).
  destruct (Hfound (JStr "A 16 oz claw hammer") eq_refl) as [-> Hrow].
  cbn [Py.bind].
  destruct (standardize_record _) as [r|] eqn:E;
    [|vm_compute in E; discriminate].
  exists r. split; [reflexivity|]. now rewrite (Hrow r eq_refl).
Defined.

(** ** The name of the output file *)

Lemma ends_with_refl (s : string) : ends_with s s = true.
Proof. destruct s; simpl; now rewrite ?String.eqb_refl, ?Ascii.eqb_refl. Qed.

Lemma ends_with_app (suffix s : string) :
  ends_with suffix (s +:+ suffix) = true.
Proof.
  induction s as [|c s IH]; [apply ends_with_refl|].
  rewrite append_cons. cbn [ends_with]. rewrite IH. apply orb_true_r.
Qed.

(** Lower-casing leaves a final [.csv] as it is. *)
Lemma lower_chars_csv (gs : list string) (after_cased : bool) :
  exists low,
    Py.text (Py.lower_chars after_cased (gs ++ ["."; "c"; "s"; "v"]))
    = low +:+ ".csv".
Proof.
  revert after_cased. induction gs as [|g gs IH]; intros after_cased.
  - exists "". destruct after_cased; vm_compute; reflexivity.
  - cbn [app Py.lower_chars].
    destruct (IH (if Py.in_class Py.CASE_IGNORABLE g then after_cased
                  else Py.in_class Py.CASED g)) as [low Hlow].
    rewrite text_cons, Hlow. eexists. now rewrite <- append_assoc.
Qed.

Lemma lower_csv (s : string) :
  exists low, Py.lower (s +:+ ".csv") = low +:+ ".csv".
Proof.
  unfold Py.lower. rewrite chars_app by reflexivity.
  apply (lower_chars_csv (Py.chars s) false).
Qed.

(** X27. The output name that [main] hands to [combine_json_to_csv] ends in
    [.csv] in some case.  A name that already does is kept as it is
    ([report.CSV] is not renamed), any other name has [.csv] appended, so
    the rule applied twice changes nothing more.  [main] makes no call
    when fewer than two arguments follow the program name, and otherwise
    uses the first two of them. *)
Theorem output_name_csv (output_file : string) :
  ends_with ".csv" (Py.lower (output_name output_file)) = true /\
  output_name (output_name output_file) = output_name output_file /\
  (ends_with ".csv" (Py.lower output_file) = true ->
   output_name output_file = output_file) /\
  (ends_with ".csv" (Py.lower output_file) = false ->
   output_name output_file = output_file +:+ ".csv") /\
  (forall argv,
      main argv = None <-> (length argv < 3)%nat) /\
  (forall program input_pattern more,
      main (program :: input_pattern :: output_file :: more)
      = Some (Pattern input_pattern, output_name output_file)).
Proof.
  assert (Hends : ends_with ".csv" (Py.lower (output_name output_file)) = true).
  { unfold output_name.
    destruct (ends_with ".csv" (Py.lower output_file)) eqn:E; [exact E|].
    destruct (lower_csv output_file) as [low ->].
    apply (ends_with_app ".csv"). }
  split; [exact Hends|]. split; [|split; [|split; [|split]]].
  - unfold output_name at 1. now rewrite Hends.
  - intros H. unfold output_name. now rewrite H.
  - intros H. unfold output_name. now rewrite H.
  - intros argv. unfold main.
    destruct argv as [|a [|b [|c argv]]]; simpl; split;
      try reflexivity; try discriminate; try lia.
  - reflexivity.
Qed.

Lemma output_name_csv_witness :
  output_name "report.CSV" = "report.CSV" /\
  output_name "report.csv.bak" = "report.csv.bak.csv".
Proof.
  split.
  - apply (output_name_csv "report.CSV"). vm_compute. reflexivity.
  - apply (output_name_csv "report.csv.bak"). vm_compute. reflexivity.
Defined.

(** ** The characters of an extracted price *)

Lemma span_fst_all (p : string -> bool) (gs : list string) :
  forallb p (fst (span p gs)) = true.
Proof.
  induction gs as [|g gs IH]; [reflexivity|]. simpl.
  destruct (p g) eqn:E; [|reflexivity].
  destruct (span p gs) as [run rest]. simpl in *. now rewrite E, IH.
Qed.

Lemma span_fst_Forall (P : string -> Prop) (p : string -> bool)
      (gs : list string) :
  Forall P gs -> Forall P (fst (span p gs)).
Proof.
  induction 1 as [|g gs Hg Hgs IH]; [constructor|]. simpl.
  destruct (p g); [|constructor].
  destruct (span p gs) as [run rest]. simpl in *. now constructor.
Qed.

Lemma span_snd_Forall (P : string -> Prop) (p : string -> bool)
      (gs : list string) :
  Forall P gs -> Forall P (snd (span p gs)).
Proof.
  induction 1 as [|g gs Hg Hgs IH]; [constructor|]. simpl.
  destruct (p g); [|now constructor].
  destruct (span p gs) as [run rest]. exact IH.
Qed.

Lemma forallb_weaken (p q : string -> bool) (gs : list string) :
  (forall g, p g = true -> q g = true) ->
  forallb p gs = true -> forallb q gs = true.
Proof.
  intros Hpq. induction gs as [|g gs IH]; [reflexivity|]. simpl.
  intros H. apply andb_true_iff in H as [Hg Hgs].
  now rewrite (Hpq g Hg), IH.
Qed.

(** What the group matches: characters of the text, each a digit, a comma
    or a dot. *)
Lemma match_group_chars (P : string -> Prop) (gs group1 : list string) :
  Forall P gs -> match_group gs = Some group1 ->
  forallb is_group_char group1 = true /\ Forall P group1.
Proof.
  intros HP. unfold match_group.
  pose proof (span_fst_all is_digit_or_comma gs) as Hrun.
  pose proof (span_fst_Forall P is_digit_or_comma gs HP) as HrunP.
  pose proof (span_snd_Forall P is_digit_or_comma gs HP) as HrestP.
  destruct (span is_digit_or_comma gs) as [run rest]. simpl in *.
  destruct run as [|d run]; [discriminate|].
  assert (Hrun' : forallb is_group_char (d :: run) = true).
  { apply (forallb_weaken is_digit_or_comma); [|exact Hrun].
    intros g Hg. unfold is_group_char. now rewrite Hg. }
  destruct rest as [|g rest]; [intros [= <-]; now split|].
  destruct (String.eqb_spec g ".") as [->|_]; [|intros [= <-]; now split].
  apply Forall_cons in HrestP as [Hdot HrestP].
  pose proof (span_fst_all is_digit rest) as Hfrac.
  pose proof (span_fst_Forall P is_digit rest HrestP) as HfracP.
  destruct (span is_digit rest) as [frac rest']. simpl in *.
  intros [= <-]. split.
  - change (forallb is_group_char ((d :: run) ++ ["."] ++ frac) = true).
    rewrite !forallb_app.
    change (forallb is_group_char (d :: run))
      with (is_group_char d && forallb is_group_char run).
    rewrite Hrun'.
    replace (forallb is_group_char ["."]) with true
      by (vm_compute; reflexivity).
    apply (forallb_weaken is_digit); [|exact Hfrac].
    intros x Hx. unfold is_group_char, is_digit_or_comma. now rewrite Hx.
  - change (Forall P ((d :: run) ++ "." :: frac)).
    apply Forall_app. split; [assumption|]. now constructor.
Qed.

Lemma search_chars (P : string -> Prop) (gs group1 : list string) :
  Forall P gs -> search gs = Some group1 ->
  forallb is_group_char group1 = true /\ Forall P group1.
Proof.
  induction 1 as [|g gs Hg Hgs IH]; cbn [search].
  - unfold match_here. intros H. now apply (match_group_chars P []).
  - assert (HP : Forall P (g :: gs)) by now constructor.
    unfold match_here. destruct (String.eqb g "$").
    + destruct (match_group gs) as [g1|] eqn:E.
      * intros [= <-]. now apply (match_group_chars P gs).
      * destruct (match_group (g :: gs)) as [g1|] eqn:E'.
        -- intros [= <-]. now apply (match_group_chars P (g :: gs)).
        -- exact IH.
    + destruct (match_group (g :: gs)) as [g1|] eqn:E'.
      * intros [= <-]. now apply (match_group_chars P (g :: gs)).
      * exact IH.
Qed.

Lemma remove_commas_app (a b : string) :
  Py.remove_commas (a +:+ b) = Py.remove_commas a +:+ Py.remove_commas b.
Proof.
  induction a as [|c a IH]; [reflexivity|]. rewrite append_cons. simpl.
  destruct (Ascii.eqb c ","); [exact IH|]. now rewrite IH, append_cons.
Qed.

Lemma remove_commas_other (g : string) :
  all_chars (fun c => negb (Py.is_ascii c)) g = true ->
  Py.remove_commas g = g.
Proof.
  induction g as [|c g IH]; [reflexivity|]. simpl.
  intros H. apply andb_true_iff in H as [Hc Hg].
  destruct (Ascii.eqb_spec c ",") as [->|_]; [discriminate|].
  now rewrite IH.
Qed.

(** Without its commas a match is made of digits and dots. *)
Lemma remove_commas_chars (group1 : list string) :
  forallb is_group_char group1 = true ->
  Forall (fun g => (exists c, g = String c "" /\ Py.is_ascii c = true) \/
                   all_chars (fun c => negb (Py.is_ascii c)) g = true)
         group1 ->
  exists digits,
    Py.remove_commas (Py.text group1) = Py.text digits /\
    forallb is_digit_or_dot digits = true.
Proof.
  intros Hgroup Hshape. induction Hshape as [|g gs Hg Hgs IH].
  - now exists [].
  - simpl in Hgroup. apply andb_true_iff in Hgroup as [Hc Hrest].
    destruct (IH Hrest) as (digits & Hdigits & Hall).
    rewrite text_cons, remove_commas_app, Hdigits.
    assert (Hother : g <> "," -> is_digit_or_dot g = true).
    { intros Hne. unfold is_group_char, is_digit_or_comma in Hc.
      unfold is_digit_or_dot. destruct (is_digit g); [reflexivity|].
      simpl in *. destruct (String.eqb_spec g ","); [congruence | exact Hc]. }
    destruct Hg as [(c & -> & Hascii) | Hg].
    + simpl. destruct (Ascii.eqb_spec c ",") as [->|Hne].
      * now exists digits.
      * exists (String c "" :: digits). split; [reflexivity|].
        simpl. rewrite Hall, Hother; [reflexivity | congruence].
    + rewrite (remove_commas_other g Hg). exists (g :: digits).
      split; [reflexivity|]. simpl. rewrite Hall, Hother; [reflexivity|].
      intros ->. discriminate.
Qed.

Lemma search_found (gs : list string) :
  search gs = None ->
  forallb (fun g => negb (is_digit_or_comma g)) gs = true.
Proof.
  induction gs as [|g gs IH]; [reflexivity|].
  intros H. simpl. destruct (is_digit_or_comma g) eqn:Hg.
  - exfalso.
    assert (Hgroup : exists group1, match_group (g :: gs) = Some group1).
    { unfold match_group. simpl. rewrite Hg.
      destruct (span is_digit_or_comma gs) as [run rest].
      destruct rest as [|d rest]; [eauto|].
      destruct (String.eqb d "."); [|eauto].
      destruct (span is_digit rest). eauto. }
    destruct Hgroup as [group1 Hgroup]. apply search_group in Hgroup.
    congruence.
  - simpl. apply IH. rewrite search_skip in H by assumption.
    destruct (if String.eqb g "$" then match_group gs else None);
      [discriminate | exact H].
Qed.

(** X28. On a string in which the pattern finds a match, [extract_price]
    returns digits and dots only (nothing at all when the match is made of
    commas); on a string without a match it returns the string itself.
    The pattern finds a match exactly when the string holds a digit or a
    comma.  A digit is any decimal digit, as the pattern has it. *)
Theorem extract_price_characters (s : string) :
  (re_search s <> None ->
   exists digits,
     extract_price (JStr s) = Py.text digits /\
     forallb is_digit_or_dot digits = true) /\
  (re_search s = None -> extract_price (JStr s) = s) /\
  (re_search s = None <-> no_digit_or_comma s = true).
Proof.
  split; [|split; [|split; [|apply re_search_none]]].
  - intros H. unfold extract_price. unfold re_search in *.
    destruct (search (Py.chars s)) as [group1|] eqn:E; [|now destruct H].
    cbn [option_map].
    destruct (search_chars _ _ _ (chars_shape s) E) as [Hgroup Hshape].
    now apply remove_commas_chars.
  - intros H. unfold extract_price. now rewrite H.
  - unfold re_search, no_digit_or_comma.
    destruct (search (Py.chars s)) eqn:E; [discriminate|].
    intros _. now apply search_found.
Qed.

Lemma extract_price_characters_witness :
  (exists digits,
      extract_price (JStr "from $1,299.00 to $1,499.00") = Py.text digits /\
      forallb is_digit_or_dot digits = true) /\
  extract_price (JStr "call for price") = "call for price".
Proof.
  split.
  - apply (extract_price_characters "from $1,299.00 to $1,499.00").
    vm_compute. discriminate.
  - apply (extract_price_characters "call for price").
    vm_compute. reflexivity.
Defined.

(** ** What the race cannot change *)

Section Accounting.

Variable read_text : string -> Py.result string.
Variable json_loads : string -> Py.result json.
Variable now : string.

Lemma worker_step_tally (known known' : gset string) (w w' : worker) :
  worker_step now known w = Some (known', w') ->
  worker_tally now w' = worker_tally now w /\
  worker_errors now w' = worker_errors now w.
Proof.
  unfold worker_step, worker_tally, worker_errors.
  destruct (w_pending w) as [[record_key standardized]|].
  - intros [= <- <-]. cbn. split; [lia | reflexivity].
  - destruct (w_todo w) as [|item rest]; [discriminate|].
    cbn [List.filter omap list_omap]. unfold is_keyed at 2, failure_of at 2.
    destruct (attempt_item now (w_path w) item) as [msg|key standardized].
    + intros [= <- <-]. cbn. rewrite <- app_assoc. split; [lia | reflexivity].
    + destruct (bool_decide (key ∈ known)); intros [= <- <-]; cbn;
        (split; [lia | reflexivity]).
Qed.

Lemma pool_step_tally (i : nat) (p p' : pool) :
  pool_step now i p = Some p' ->
  map (worker_tally now) (workers p') = map (worker_tally now) (workers p) /\
  map (worker_errors now) (workers p') = map (worker_errors now) (workers p).
Proof.
  unfold pool_step.
  destruct (workers p !! i) as [w|] eqn:Hw; [|discriminate].
  destruct (w_private w) as [own|].
  - destruct (worker_step now own w) as [[own' w']|] eqn:Hstep;
      [|discriminate].
    intros [= <-]. cbn [workers].
    apply worker_step_tally in Hstep as [Ht He].
    rewrite !list_fmap_insert. split; apply list_insert_id;
      rewrite list_lookup_fmap, Hw; cbn; f_equal.
    + exact (eq_sym Ht).
    + exact (eq_sym He).
  - destruct (worker_step now (shared p) w) as [[known' w']|] eqn:Hstep;
      [|discriminate].
    intros [= <-]. cbn [workers].
    apply worker_step_tally in Hstep as [Ht He].
    rewrite !list_fmap_insert. split; apply list_insert_id;
      rewrite list_lookup_fmap, Hw; cbn; f_equal; congruence.
Qed.

Lemma run_pool_tally (schedule : list nat) (p p' : pool) :
  run_pool now schedule p = Some p' ->
  map (worker_tally now) (workers p') = map (worker_tally now) (workers p) /\
  map (worker_errors now) (workers p') = map (worker_errors now) (workers p).
Proof.
  revert p. induction schedule as [|i schedule IH]; intros p;
    cbn [run_pool].
  - now intros [= <-].
  - destruct (pool_step now i p) as [p1|] eqn:Hstep; [|discriminate].
    intros Hrun. apply pool_step_tally in Hstep as [Ht He].
    apply IH in Hrun as [Ht' He']. split; congruence.
Qed.

Lemma start_worker_accounted (skip_duplicates : bool) (file_path : string)
      (known : gset string) :
  (worker_tally now (start_worker read_text json_loads skip_duplicates
                                  file_path),
   worker_errors now (start_worker read_text json_loads skip_duplicates
                                   file_path))
  = accounted (fst (process_json_file read_text json_loads now file_path
                                      known)).
Proof.
  rewrite process_json_file_items.
  unfold start_worker, worker_tally, worker_errors, accounted.
  destruct (load_items read_text json_loads file_path) as [items|msg];
    [|reflexivity].
  destruct (process_items now file_path items (empty_result, known))
    as [r known'] eqn:E.
  apply process_items_tally in E as [Hsum Herr]. cbn in *.
  now rewrite Hsum, Herr.
Qed.

Lemma done_accounted (w : worker) :
  w_done w = true ->
  (worker_tally now w, worker_errors now w) = accounted (w_result w).
Proof.
  unfold w_done, worker_tally, worker_errors, accounted.
  destruct (w_todo w); [|discriminate].
  destruct (w_pending w); [discriminate|]. intros _. cbn.
  rewrite app_nil_r. f_equal. lia.
Qed.

(** X29. Under every schedule of the workers, with [skip_duplicates] on or
    off, the result of every file has the errors, and the total of records
    and duplicates, that [process_json_file] gives for the file alone on any
    dict of known keys: the interleaving decides only which of the items
    are records and which are duplicates. *)
Theorem run_batch_accounts_for_every_item (skip_duplicates : bool)
        (json_files : list string) (schedule : list nat)
        (results : list file_result) (known : gset string) :
  run_batch read_text json_loads now skip_duplicates json_files schedule
  = Some results ->
  map accounted results
  = map (fun file_path =>
           accounted (fst (process_json_file read_text json_loads now
                                             file_path known)))
        json_files.
Proof.
  unfold run_batch.
  destruct (run_pool now schedule _) as [p|] eqn:Hrun; [|discriminate].
  destruct (finished p) eqn:Hfin; [|discriminate]. intros [= <-].
  apply run_pool_tally in Hrun as [Ht He].
  unfold start_pool in Ht, He. cbn [workers] in Ht, He.
  rewrite map_map in Ht, He. rewrite map_map.
  assert (Hdone : map (fun w => accounted (w_result w)) (workers p)
                  = map (fun w => (worker_tally now w, worker_errors now w))
                        (workers p)).
  { unfold finished in Hfin. clear Ht He.
    induction (workers p) as [|w ws IH]; [reflexivity|].
    cbn [forallb] in Hfin. apply andb_true_iff in Hfin as [Hw Hws].
    cbn [map]. now rewrite IH, done_accounted. }
  rewrite Hdone.
  assert (Hzip : forall (ws : list worker) (fs : list string),
             map (worker_tally now) ws
             = map (fun f => worker_tally now
                      (start_worker read_text json_loads skip_duplicates f))
                   fs ->
             map (worker_errors now) ws
             = map (fun f => worker_errors now
                      (start_worker read_text json_loads skip_duplicates f))
                   fs ->
             map (fun w => (worker_tally now w, worker_errors now w)) ws
             = map (fun f => accounted
                      (fst (process_json_file read_text json_loads now f
                                              known))) fs).
  { induction ws as [|w ws IH]; intros [|f fs]; cbn [map];
      try discriminate; [reflexivity|].
    intros [= Hw Hws] [= Hw' Hws'].
    rewrite (IH fs Hws Hws'), Hw, Hw'.
    now rewrite (start_worker_accounted skip_duplicates f known). }
  now apply Hzip.
Qed.

End Accounting.

Lemma run_batch_accounts_for_every_item_witness :
  exists divided,
    run_batch example_read_text example_json_loads "0" true
              ["a.json"; "b.json"] [0; 1; 0; 1]%nat = Some divided /\
    map accounted divided = [(1%nat, []); (1%nat, [])] /\
    map record_count divided = [1; 1]%nat.
Proof.
  destruct (run_batch example_read_text example_json_loads "0" true
                      ["a.json"; "b.json"] [0; 1; 0; 1]%nat)
    as [divided|] eqn:E; [|vm_compute in E; discriminate].
  exists divided. split; [reflexivity|]. split.
  - rewrite (run_batch_accounts_for_every_item _ _ _ _ _ _ _ ∅ E).
    vm_compute. reflexivity.
  - vm_compute in E. injection E as <-. reflexivity.
Defined.

(** ** No key is lost *)

Section KeptKeys.

Variable read_text : string -> Py.result string.
Variable json_loads : string -> Py.result json.
Variable now : string.

Lemma worker_kept_mono (known known' : gset string) (w : worker) :
  known ⊆ known' ->
  worker_kept read_text json_loads now known w ->
  worker_kept read_text json_loads now known' w.
Proof.
  intros Hsub (Hown & Hpend & treated & Hitems & Hkeys).
  split; [exact Hown|]. split; [exact Hpend|].
  exists treated. split; [exact Hitems|].
  intros item k s Hin Hitem.
  destruct (Hkeys item k s Hin Hitem) as [Hk | Hk]; [left; set_solver | now right].
Qed.

Lemma start_pool_kept (json_files : list string) :
  pool_kept read_text json_loads now json_files
            (start_pool read_text json_loads true json_files).
Proof.
  unfold pool_kept, start_pool. cbn [workers shared]. split; [|split].
  - rewrite map_map. rewrite <- (map_id json_files) at 2.
    apply map_ext. intros f. unfold start_worker.
    now destruct (load_items read_text json_loads f).
  - apply List.Forall_map, Forall_forall. intros f _.
    unfold worker_kept, start_worker, items_of.
    destruct (load_items read_text json_loads f) as [items|msg] eqn:E;
      cbn [w_private w_pending w_path w_todo]; rewrite E;
      (split; [reflexivity|]); (split; [discriminate|]);
      exists []; (split; [reflexivity|]); intros ? ? ? [].
  - intros k Hk. set_solver.
Qed.

(** One access of a worker keeps what it has treated in the dict. *)
Lemma worker_step_kept (known known' : gset string) (w w' : worker) :
  worker_step now known w = Some (known', w') ->
  worker_kept read_text json_loads now known w ->
  known ⊆ known' /\ w_path w' = w_path w /\
  worker_kept read_text json_loads now known' w' /\
  exists new,
    standardized_data (w_result w')
    = standardized_data (w_result w) ++ new /\
    forall k, k ∈ known' ->
              k ∈ known \/ k ∈ map (generate_record_key now) new.
Proof.
  intros Hstep (Hown & Hpend & treated & Hitems & Hkeys).
  unfold worker_step in Hstep.
  destruct (w_pending w) as [[record_key standardized]|] eqn:Hp.
  - injection Hstep as <- <-. split; [set_solver|]. split; [reflexivity|].
    split.
    + split; [exact Hown|]. split; [discriminate|].
      exists treated. split; [exact Hitems|].
      intros item k s Hin Hitem. left.
      destruct (Hkeys item k s Hin Hitem) as [Hk | [s' [= -> ->]]];
        set_solver.
    + exists [standardized]. split; [reflexivity|].
      intros k Hk. apply elem_of_union in Hk as [Hk | Hk]; [|now left].
      right. apply elem_of_singleton in Hk. subst k.
      rewrite (Hpend record_key standardized eq_refl). set_solver.
  - destruct (w_todo w) as [|item rest] eqn:Htodo; [discriminate|].
    assert (Hold : forall item' k s,
               In item' treated ->
               attempt_item now (w_path w) item' = Keyed k s -> k ∈ known).
    { intros item' k s Hin Hitem.
      destruct (Hkeys item' k s Hin Hitem) as [Hk | [s' Hs']];
        [exact Hk | discriminate]. }
    assert (Hitems' : items_of read_text json_loads (w_path w)
                      = (treated ++ [item]) ++ rest).
    { now rewrite <- app_assoc. }
    destruct (attempt_item now (w_path w) item) as [msg|key standardized]
      eqn:Hitem.
    + injection Hstep as <- <-. split; [set_solver|]. split; [reflexivity|].
      split.
      * split; [exact Hown|]. split; [discriminate|].
        exists (treated ++ [item]). split; [exact Hitems'|].
        intros item' k s Hin Hi. left. apply in_app_or in Hin as [Hin | Hin].
        -- now apply (Hold item' k s).
        -- destruct Hin as [<- | []]. cbn in Hi. congruence.
      * exists []. rewrite app_nil_r. split; [reflexivity | now left].
    + destruct (bool_decide (key ∈ known)) eqn:Hk;
        injection Hstep as <- <-; (split; [set_solver|]);
        (split; [reflexivity|]).
      * apply bool_decide_eq_true in Hk. split.
        -- split; [exact Hown|]. split; [discriminate|].
           exists (treated ++ [item]). split; [exact Hitems'|].
           intros item' k s Hin Hi. left.
           apply in_app_or in Hin as [Hin | Hin].
           ++ now apply (Hold item' k s).
           ++ destruct Hin as [<- | []]. cbn in Hi. congruence.
        -- exists []. rewrite app_nil_r. split; [reflexivity | now left].
      * split.
        -- split; [exact Hown|]. split.
           ++ cbn. intros k s [= <- <-].
              now apply (attempt_item_key now (w_path w) item).
           ++ exists (treated ++ [item]). split; [exact Hitems'|].
              intros item' k s Hin Hi.
              apply in_app_or in Hin as [Hin | Hin].
              ** left. now apply (Hold item' k s).
              ** destruct Hin as [<- | []]. cbn in Hi. right.
                 rewrite Hitem in Hi. injection Hi as <- <-.
                 now exists standardized.
        -- exists []. rewrite app_nil_r. split; [reflexivity | now left].
Qed.

Lemma pool_step_kept (json_files : list string) (i : nat) (p p' : pool) :
  pool_step now i p = Some p' ->
  pool_kept read_text json_loads now json_files p ->
  pool_kept read_text json_loads now json_files p'.
Proof.
  intros Hstep (Hpaths & Hall & Hsub). unfold pool_step in Hstep.
  destruct p as [known ws]. cbn [workers shared] in *.
  destruct (ws !! i) as [w|] eqn:Hw; [|discriminate].
  pose proof (Forall_lookup_1 _ _ _ _ Hall Hw) as Hkept.
  destruct Hkept as (Hown & Hrest). rewrite Hown in Hstep.
  destruct (worker_step now known w) as [[known' w']|] eqn:Hws;
    [|discriminate].
  injection Hstep as <-.
  destruct (worker_step_kept known known' w w' Hws (conj Hown Hrest))
    as (Hmono & Hpath & Hkept' & new & Hnew & Hknown').
  unfold pool_kept. cbn [workers shared]. split; [|split].
  - rewrite list_fmap_insert. rewrite <- Hpaths. apply list_insert_id.
    now rewrite list_lookup_fmap, Hw, Hpath.
  - apply Forall_insert; [|exact Hkept'].
    eapply Forall_impl; [exact Hall|].
    intros x Hx. now apply (worker_kept_mono known known').
  - intros k Hk.
    rewrite (pool_keys_insert now known known' ws i w w' new Hw Hnew).
    apply elem_of_app. destruct (Hknown' k Hk) as [H | H]; [|now left].
    right. now apply Hsub.
Qed.

Lemma run_pool_kept (json_files : list string) (schedule : list nat)
      (p p' : pool) :
  run_pool now schedule p = Some p' ->
  pool_kept read_text json_loads now json_files p ->
  pool_kept read_text json_loads now json_files p'.
Proof.
  revert p. induction schedule as [|i schedule IH]; intros p;
    cbn [run_pool].
  - now intros [= <-].
  - destruct (pool_step now i p) as [p1|] eqn:Hstep; [|discriminate].
    intros Hrun Hp. apply (IH p1 Hrun). now apply (pool_step_kept _ i p).
Qed.

(** X30. With [skip_duplicates] on, no key is lost under any schedule of the
    workers: the key of every item of every file that standardizes is the
    key of a row that some worker returned. *)
Theorem run_batch_keeps_every_key (json_files : list string)
        (schedule : list nat) (results : list file_result) :
  run_batch read_text json_loads now true json_files schedule
  = Some results ->
  forall file_path item k standardized,
    In file_path json_files ->
    In item (items_of read_text json_loads file_path) ->
    attempt_item now file_path item = Keyed k standardized ->
    In k (accepted_keys now results).
Proof.
  unfold run_batch.
  destruct (run_pool now schedule _) as [p|] eqn:Hrun; [|discriminate].
  destruct (finished p) eqn:Hfin; [|discriminate]. intros [= <-].
  intros file_path item k s Hfile Hitem Hkey.
  destruct (run_pool_kept json_files _ _ _ Hrun (start_pool_kept json_files))
    as (Hpaths & Hall & Hsub).
  rewrite <- Hpaths in Hfile. apply in_map_iff in Hfile as (w & Hpath & Hw).
  apply list_elem_of_In. apply (Hsub k).
  rewrite Forall_forall in Hall. apply list_elem_of_In in Hw as Hw'.
  destruct (Hall w Hw') as (_ & _ & treated & Hitems & Hkeys).
  unfold finished in Hfin. rewrite forallb_forall in Hfin.
  specialize (Hfin w Hw). unfold w_done in Hfin.
  destruct (w_todo w) eqn:Htodo; [|discriminate].
  destruct (w_pending w) eqn:Hpend; [discriminate|].
  rewrite app_nil_r in Hitems. subst file_path. rewrite Hitems in Hitem.
  destruct (Hkeys item k s Hitem Hkey) as [Hk | [s' Hs']];
    [exact Hk | discriminate].
Qed.

End KeptKeys.

Lemma run_batch_keeps_every_key_witness :
  exists divided,
    run_batch example_read_text example_json_loads "0" true
              ["a.json"; "b.json"] [0; 1; 0; 1]%nat = Some divided /\
    In "id:42" (accepted_keys "0" divided).
Proof.
  destruct (run_batch example_read_text example_json_loads "0" true
                      ["a.json"; "b.json"] [0; 1; 0; 1]%nat)
    as [divided|] eqn:E; [|vm_compute in E; discriminate].
  exists divided. split; [reflexivity|].
  apply (run_batch_keeps_every_key _ _ _ _ _ _ E "b.json"
           (JDict [("item_id", JStr "42"); ("title", JStr "Hammer v2")])
           "id:42"
           (Py.set "Item ID" "42"
              (Py.set "Item Name" "Hammer v2"
                 (Py.set "Description" "Hammer v2"
                    (Py.set "CF.Description" "Hammer v2" constants_row)))));
    [simpl; tauto | vm_compute; tauto | vm_compute; reflexivity].
Defined.
